(** * Kilo-Kit skill validator: a shallow embedding of [validate-skill.py]

    The development follows [src/tools/validate-skill.py] function by
    function.  Python values, strings, exceptions and the small part of the
    [re] module the validator uses are modelled first; the validator itself
    comes next, with the names it has in the source; the theorems about it
    come last.

    Modelling boundary.  A Python [str] is a sequence of code points; here it
    is a [list ascii] and the character classes ([\s], [\w], [\d],
    [str.lower], [str.strip]) are those of Python on code points below 128.
    A decoded YAML value is [None], a [bool], an [int], a [str], a list or a
    mapping with string keys; floats, timestamps, binary data and sets are
    outside the model, and so is a value nested beyond the recursion limit
    of the interpreter.  [str] of an [int] is that of CPython 3.11, which
    refuses more than 4300 digits.  The YAML decoder ([yaml.safe_load]) is a
    library outside the repository: it is a parameter of the validator.
    The file system answers every query about a path; an [OSError] of
    [Path.is_dir] or [Path.exists] is outside the model.

    The report and the exit status of [main] follow the validator, from the
    parsed command line on; [Path.rglob], [Path.parent] and [json.dumps] are
    library functions and parameters as well.  Of [src/tools/init-skill.py]
    the development has [to_title_case] and what [create_skill] computes
    from its arguments; the two templates and the writing of the files are
    outside it. *)

From Stdlib Require Import Ascii String DecimalString ZArith Lia Bool Arith List.
Import ListNotations.

Set Implicit Arguments.
Set Warnings "-register-all".

(* ================================================================== *)
(** ** Python strings *)
(* ================================================================== *)

Module Py.

Definition str := list ascii.

(** A string literal of the source, as a [str]. *)
Definition py (s : string) : str := list_ascii_of_string s.
Arguments py s%_string : simpl never.

Definition NL : ascii := ascii_of_nat 10.
Definition DQUOTE : ascii := ascii_of_nat 34.
Definition BACKSLASH : ascii := ascii_of_nat 92.

Definition in_range (lo hi : nat) (c : ascii) : bool :=
  let n := nat_of_ascii c in (lo <=? n) && (n <=? hi).

(** [str.isspace] and the regex class [\s] below 128: TAB, LF, VT, FF, CR,
    the four separators FS, GS, RS, US, and the space. *)
Definition is_space (c : ascii) : bool := in_range 9 13 c || in_range 28 32 c.

Definition is_digit (c : ascii) : bool := in_range 48 57 c.
Definition is_upper (c : ascii) : bool := in_range 65 90 c.
Definition is_lower (c : ascii) : bool := in_range 97 122 c.

(** The regex class [\w] below 128. *)
Definition is_word (c : ascii) : bool :=
  is_digit c || is_upper c || is_lower c || (nat_of_ascii c =? 95).

Definition lower_char (c : ascii) : ascii :=
  if is_upper c then ascii_of_nat (nat_of_ascii c + 32) else c.

Definition upper_char (c : ascii) : ascii :=
  if is_lower c then ascii_of_nat (nat_of_ascii c - 32) else c.

(** [s.lower()] *)
Definition lower (s : str) : str := map lower_char s.

Fixpoint str_eqb (s t : str) : bool :=
  match s, t with
  | [], [] => true
  | c :: s', d :: t' => Ascii.eqb c d && str_eqb s' t'
  | _, _ => false
  end.

(** [s.startswith(prefix)] *)
Fixpoint startswith (prefix s : str) : bool :=
  match prefix, s with
  | [], _ => true
  | p :: prefix', c :: s' => Ascii.eqb p c && startswith prefix' s'
  | _ :: _, [] => false
  end.

(** [s.find(sub)]: the least index at which [sub] occurs in [s]. *)
Fixpoint find (sub s : str) : option nat :=
  if startswith sub s then Some 0
  else match s with
       | [] => None
       | _ :: s' => option_map S (find sub s')
       end.

(** [sub in s] *)
Definition contains (sub s : str) : bool :=
  match find sub s with Some _ => true | None => false end.

(** [s.index(sub, start)], [None] standing for [ValueError]. *)
Definition index (sub s : str) (start : nat) : option nat :=
  if start <=? length s
  then option_map (fun i => start + i) (find sub (skipn start s))
  else None.

(** [s[i:j]] and [s[i:]] for indices within the string. *)
Definition slice (s : str) (i j : nat) : str := firstn (j - i) (skipn i s).
Definition slice_from (s : str) (i : nat) : str := skipn i s.

Fixpoint lstrip (s : str) : str :=
  match s with
  | c :: s' => if is_space c then lstrip s' else s
  | [] => []
  end.

Definition rstrip (s : str) : str := rev (lstrip (rev s)).

(** [s.strip()] *)
Definition strip (s : str) : str := rstrip (lstrip s).

(** [s.split(sep)] for a separator of one character: never empty. *)
Fixpoint split (sep : ascii) (s : str) : list str :=
  match s with
  | [] => [[]]
  | c :: s' =>
      if Ascii.eqb c sep then [] :: split sep s'
      else match split sep s' with
           | h :: t => (c :: h) :: t
           | [] => [[c]]
           end
  end.

(** [sep.join(parts)] *)
Fixpoint join (sep : str) (parts : list str) : str :=
  match parts with
  | [] => []
  | [p] => p
  | p :: rest => p ++ sep ++ join sep rest
  end.

(** [str(n)] for a length or a count. *)
Definition str_of_nat (n : nat) : str :=
  py (NilEmpty.string_of_uint (Nat.to_uint n)).

(** [str(z)] for an [int]. *)
Definition str_of_Z (z : Z) : str :=
  py (NilEmpty.string_of_int (Z.to_int z)).

(** Lexicographic [s <= t] on code points. *)
Fixpoint str_leb (s t : str) : bool :=
  match s, t with
  | [], _ => true
  | _ :: _, [] => false
  | c :: s', d :: t' =>
      if Ascii.eqb c d then str_leb s' t'
      else nat_of_ascii c <? nat_of_ascii d
  end.

(* ------------------------------------------------------------------ *)
(** ** Exceptions *)

Inductive PyExc : Type :=
| TypeError
| ValueError
| KeyError
| YAMLError
| OtherError.

Inductive Result (A : Type) : Type :=
| Ok (a : A)
| Raise (e : PyExc).
Arguments Ok {A} a.
Arguments Raise {A} e.

Definition bind {A B : Type} (x : Result A) (f : A -> Result B) : Result B :=
  match x with
  | Ok a => f a
  | Raise e => Raise e
  end.

Definition returns {A : Type} (x : Result A) : Prop := exists a, x = Ok a.

(* ------------------------------------------------------------------ *)
(** ** Python values, as the YAML decoder produces them *)

Inductive PyVal : Type :=
| PNone
| PBool (b : bool)
| PInt (n : Z)
| PStr (s : str)
| PList (l : list PyVal)
| PDict (d : list (str * PyVal)).

(** A [dict] is an association list in insertion order with distinct keys. *)
Definition Dict (V : Type) := list (str * V).

Fixpoint dict_get {V : Type} (k : str) (d : Dict V) : option V :=
  match d with
  | [] => None
  | (k', v) :: d' => if str_eqb k k' then Some v else dict_get k d'
  end.

(** [k in d] *)
Definition dict_mem {V : Type} (k : str) (d : Dict V) : bool :=
  match dict_get k d with Some _ => true | None => false end.

(** [d[k] = v]: an existing key keeps its place and takes the new value, a
    new key goes last. *)
Fixpoint dict_set {V : Type} (k : str) (v : V) (d : Dict V) : Dict V :=
  match d with
  | [] => [(k, v)]
  | (k', v') :: d' =>
      if str_eqb k k' then (k', v) :: d' else (k', v') :: dict_set k v d'
  end.

(** [list(d.keys())] *)
Definition dict_keys {V : Type} (d : Dict V) : list str := map fst d.

Definition Z_of_bool (b : bool) : Z := if b then 1%Z else 0%Z.

(** [bool(v)] *)
Definition py_truthy (v : PyVal) : bool :=
  match v with
  | PNone => false
  | PBool b => b
  | PInt n => negb (n =? 0)%Z
  | PStr s => negb (length s =? 0)
  | PList l => negb (length l =? 0)
  | PDict d => negb (length d =? 0)
  end.

(** [a == b] *)
Fixpoint py_eq (a b : PyVal) : bool :=
  match a, b with
  | PNone, PNone => true
  | PBool x, PBool y => Bool.eqb x y
  | PBool x, PInt n => (Z_of_bool x =? n)%Z
  | PInt n, PBool x => (n =? Z_of_bool x)%Z
  | PInt m, PInt n => (m =? n)%Z
  | PStr s, PStr t => str_eqb s t
  | PList l1, PList l2 =>
      (fix go (l1 l2 : list PyVal) : bool :=
         match l1, l2 with
         | [], [] => true
         | x :: xs, y :: ys => py_eq x y && go xs ys
         | _, _ => false
         end) l1 l2
  | PDict d1, PDict d2 =>
      (length d1 =? length d2) &&
      (fix go (d : list (str * PyVal)) : bool :=
         match d with
         | [] => true
         | (k, v) :: d' =>
             match dict_get k d2 with
             | Some v' => py_eq v v'
             | None => false
             end && go d'
         end) d1
  | _, _ => false
  end.

(** [a <= b]: numbers among themselves, strings among themselves, lists
    element by element; anything else is a [TypeError]. *)
Fixpoint py_le (a b : PyVal) : Result bool :=
  match a, b with
  | PBool x, PBool y => Ok (Z_of_bool x <=? Z_of_bool y)%Z
  | PBool x, PInt n => Ok (Z_of_bool x <=? n)%Z
  | PInt n, PBool x => Ok (n <=? Z_of_bool x)%Z
  | PInt m, PInt n => Ok (m <=? n)%Z
  | PStr s, PStr t => Ok (str_leb s t)
  | PList l1, PList l2 =>
      (fix go (l1 l2 : list PyVal) : Result bool :=
         match l1, l2 with
         | [], _ => Ok true
         | _ :: _, [] => Ok false
         | x :: xs, y :: ys => if py_eq x y then go xs ys else py_le x y
         end) l1 l2
  | _, _ => Raise TypeError
  end.

Definition hex_digit (n : nat) : ascii :=
  if n <? 10 then ascii_of_nat (48 + n) else ascii_of_nat (87 + n).

(** One character of [repr(s)] inside the quotes [quote]. *)
Definition repr_char (quote c : ascii) : str :=
  let n := nat_of_ascii c in
  if Ascii.eqb c quote || Ascii.eqb c BACKSLASH then [BACKSLASH; c]
  else if n =? 9 then py "\t"
  else if n =? 10 then py "\n"
  else if n =? 13 then py "\r"
  else if (n <? 32) || (n =? 127)
       then py "\x" ++ [hex_digit (n / 16); hex_digit (n mod 16)]
  else [c].

(** [repr(s)]: single quotes, unless the text has one and no double quote. *)
Definition repr_str (s : str) : str :=
  let quote :=
    if existsb (Ascii.eqb "'"%char) s && negb (existsb (Ascii.eqb DQUOTE) s)
    then DQUOTE else "'"%char in
  quote :: flat_map (repr_char quote) s ++ [quote].

(** [str(n)] for an [int].  CPython 3.11, and the earlier releases that carry
    the limit, refuse an [int] of more than 4300 digits with [ValueError]. *)
Definition MAX_STR_DIGITS : nat := 4300.

Definition py_str_int (n : Z) : Result str :=
  if MAX_STR_DIGITS <? length (str_of_Z (Z.abs n)) then Raise ValueError
  else Ok (str_of_Z n).

(** [repr(v)]: it raises what the [repr] of a part raises. *)
Fixpoint py_repr (v : PyVal) : Result str :=
  match v with
  | PNone => Ok (py "None")
  | PBool true => Ok (py "True")
  | PBool false => Ok (py "False")
  | PInt n => py_str_int n
  | PStr s => Ok (repr_str s)
  | PList l =>
      bind
        ((fix go (l : list PyVal) : Result (list str) :=
            match l with
            | [] => Ok []
            | x :: xs =>
                bind (py_repr x) (fun part =>
                bind (go xs) (fun parts => Ok (part :: parts)))
            end) l)
        (fun parts => Ok (py "[" ++ join (py ", ") parts ++ py "]"))
  | PDict d =>
      bind
        ((fix go (d : list (str * PyVal)) : Result (list str) :=
            match d with
            | [] => Ok []
            | (k, x) :: more =>
                bind (py_repr x) (fun part =>
                bind (go more) (fun parts =>
                Ok ((repr_str k ++ py ": " ++ part) :: parts)))
            end) d)
        (fun parts => Ok (py "{" ++ join (py ", ") parts ++ py "}"))
  end.

(** [str(v)] *)
Definition py_str (v : PyVal) : Result str :=
  match v with
  | PStr s => Ok s
  | _ => py_repr v
  end.

(** [key in v] for a string [key]: a mapping looks the key up, a string
    looks for it as a substring, a list compares its elements with it, and
    anything else is not iterable. *)
Definition py_contains (key : str) (v : PyVal) : Result bool :=
  match v with
  | PDict d => Ok (dict_mem key d)
  | PStr s => Ok (contains key s)
  | PList l => Ok (existsb (py_eq (PStr key)) l)
  | PNone | PBool _ | PInt _ => Raise TypeError
  end.

(** [v[key]] for a string [key]. *)
Definition py_getitem (v : PyVal) (key : str) : Result PyVal :=
  match v with
  | PDict d =>
      match dict_get key d with
      | Some x => Ok x
      | None => Raise KeyError
      end
  | _ => Raise TypeError
  end.

End Py.
Export Py.

Notation "x <- c1 ;; c2" := (bind c1 (fun x => c2))
  (at level 61, c1 at next level, right associativity).

(* ================================================================== *)
(** ** The part of Python's [re] module the validator uses *)
(* ================================================================== *)

Module Re.

(** The patterns of the source repeat character classes only, so [Star] and
    [Plus] take a class.  Repetition and [Opt] are greedy. *)
Inductive regex : Type :=
| Eps
| Chr (c : ascii)
| Cls (p : ascii -> bool)
| Seq (r1 r2 : regex)
| Opt (r : regex)
| Star (p : ascii -> bool)
| Plus (p : ascii -> bool)
| Grp (r : regex)
| Bol
| Eol.

(** A literal run of characters followed by [k]. *)
Definition lit (s : string) (k : regex) : regex :=
  fold_right (fun c r => Seq (Chr c) r) k (py s).
Arguments lit s%_string k.

(** Where a match stands: the offset in the subject, the text still to
    read, and what group 1 captured so far. *)
Record mstate : Type := MState {
  pos : nat;
  rest : str;
  grp : option str
}.

(** A literal character, under [re.IGNORECASE] when [ic] is set. *)
Definition chr_match (ic : bool) (c x : ascii) : bool :=
  if ic then Ascii.eqb (lower_char c) (lower_char x) else Ascii.eqb c x.

(** A class, under [re.IGNORECASE] when [ic] is set. *)
Definition cls_match (ic : bool) (p : ascii -> bool) (x : ascii) : bool :=
  p x || (ic && (p (lower_char x) || p (upper_char x))).

(** The ways a greedy run of the class [ok] can end, the longest first. *)
Fixpoint many (ok : ascii -> bool) (n : nat) (s : str) : list (nat * str) :=
  match s with
  | c :: s' => if ok c then many ok (S n) s' ++ [(n, s)] else [(n, s)]
  | [] => [(n, [])]
  end.

(** [$] without [re.MULTILINE]: the end of the text, or just before a line
    break that ends the text. *)
Definition at_eol (s : str) : bool :=
  match s with
  | [] => true
  | [c] => Ascii.eqb c NL
  | _ => false
  end.

(** Every way [r] matches from [st], in the order a backtracking matcher
    tries them: the head is the match Python reports. *)
Fixpoint m (ic : bool) (r : regex) (st : mstate) : list mstate :=
  match r with
  | Eps => [st]
  | Chr c =>
      match rest st with
      | x :: s' => if chr_match ic c x then [MState (S (pos st)) s' (grp st)] else []
      | [] => []
      end
  | Cls p =>
      match rest st with
      | x :: s' => if cls_match ic p x then [MState (S (pos st)) s' (grp st)] else []
      | [] => []
      end
  | Seq r1 r2 => flat_map (m ic r2) (m ic r1 st)
  | Opt r1 => m ic r1 st ++ [st]
  | Star p =>
      map (fun e => MState (fst e) (snd e) (grp st))
          (many (cls_match ic p) (pos st) (rest st))
  | Plus p =>
      match rest st with
      | x :: s' =>
          if cls_match ic p x
          then map (fun e => MState (fst e) (snd e) (grp st))
                   (many (cls_match ic p) (S (pos st)) s')
          else []
      | [] => []
      end
  | Grp r1 =>
      map (fun st' => MState (pos st') (rest st')
                             (Some (firstn (pos st' - pos st) (rest st))))
          (m ic r1 st)
  | Bol => if pos st =? 0 then [st] else []
  | Eol => if at_eol (rest st) then [st] else []
  end.

(** The match of [r] that starts at offset [n], where [s] is the text from
    there on. *)
Definition match_at (ic : bool) (r : regex) (n : nat) (s : str) : option mstate :=
  hd_error (m ic r (MState n s None)).

(** [re.match(r, s)] *)
Definition re_match (ic : bool) (r : regex) (s : str) : option mstate :=
  match_at ic r 0 s.

Fixpoint search_from (ic : bool) (r : regex) (n : nat) (s : str) : option mstate :=
  match match_at ic r n s with
  | Some st => Some st
  | None =>
      match s with
      | [] => None
      | _ :: s' => search_from ic r (S n) s'
      end
  end.

(** [re.search(r, s)]: the match at the least offset. *)
Definition re_search (ic : bool) (r : regex) (s : str) : option mstate :=
  search_from ic r 0 s.

(** The scan of [re.findall] and [re.sub]: matches are found left to right
    and do not overlap; [skip] counts the characters of the last match
    still to pass.  The patterns of the source never match the empty text;
    an empty match is counted and the scan moves on by one character. *)
Fixpoint scan (ic : bool) (r : regex) (n : nat) (s : str) (skip : nat)
  : list (nat * nat) :=
  match s with
  | [] =>
      match skip, match_at ic r n [] with
      | 0, Some st => [(n, pos st)]
      | _, _ => []
      end
  | _ :: s' =>
      match skip with
      | S k => scan ic r (S n) s' k
      | 0 =>
          match match_at ic r n s with
          | Some st => (n, pos st) :: scan ic r (S n) s' (pos st - n - 1)
          | None => scan ic r (S n) s' 0
          end
      end
  end.

(** [len(re.findall(r, s))] *)
Definition re_findall_count (ic : bool) (r : regex) (s : str) : nat :=
  length (scan ic r 0 s 0).

(** [re.sub(r, '', s)]: the text with every match of the scan left out. *)
Fixpoint delete_matches (ic : bool) (r : regex) (n : nat) (s : str) (skip : nat)
  : str :=
  match s with
  | [] => []
  | c :: s' =>
      match skip with
      | S k => delete_matches ic r (S n) s' k
      | 0 =>
          match match_at ic r n s with
          | Some st =>
              if pos st - n =? 0 then c :: delete_matches ic r (S n) s' 0
              else delete_matches ic r (S n) s' (pos st - n - 1)
          | None => c :: delete_matches ic r (S n) s' 0
          end
      end
  end.

Definition re_sub_empty (r : regex) (s : str) : str := delete_matches false r 0 s 0.

End Re.
Export Re.

(* ================================================================== *)
(** ** The validator: data model (lines 28-72 of the source) *)
(* ================================================================== *)

Inductive Severity : Type :=
| ERROR
| WARNING
| INFO.

Definition Severity_eqb (a b : Severity) : bool :=
  match a, b with
  | ERROR, ERROR | WARNING, WARNING | INFO, INFO => true
  | _, _ => false
  end.

Record ValidationIssue : Type := mkIssue {
  severity : Severity;
  message : str;
  location : str;
  suggestion : option str
}.

Record ValidationResult : Type := mkResult {
  skill_path : str;
  valid : bool;
  issues : list ValidationIssue;
  metadata : Dict PyVal
}.

(** [ValidationResult.add_issue] *)
Definition add_issue (self : ValidationResult) (sev : Severity)
    (msg loc : str) (sugg : option str) : ValidationResult :=
  {| skill_path := skill_path self;
     valid := if Severity_eqb sev ERROR then false else valid self;
     issues := issues self ++ [mkIssue sev msg loc sugg];
     metadata := metadata self |}.

(** [result.metadata[key] = v] *)
Definition set_metadata (self : ValidationResult) (key : str) (v : PyVal)
  : ValidationResult :=
  {| skill_path := skill_path self;
     valid := valid self;
     issues := issues self;
     metadata := dict_set key v (metadata self) |}.

Definition REQUIRED_FRONTMATTER : list str :=
  [py "name"; py "description"; py "version"].
Definition RECOMMENDED_FRONTMATTER : list str :=
  [py "behaviors"; py "token_estimate"; py "dependencies"].
Definition REQUIRED_SECTIONS : list str :=
  [py "When to Use"; py "Process"; py "Guidelines"].
Definition RECOMMENDED_SECTIONS : list str :=
  [py "Prerequisites"; py "Success Criteria"; py "Related Skills"].
Definition MIN_KEYWORDS : nat := 3.

(** The two glyphs the messages of the guidelines rule end with, as the
    bytes of their UTF-8 encoding (U+2705 and U+274C). *)
Definition CHECK_MARK : str := map ascii_of_nat [226; 156; 133].
Definition CROSS_MARK : str := map ascii_of_nat [226; 157; 140].

(* ------------------------------------------------------------------ *)
(** ** The patterns of the source *)

Definition not_word_or_space (c : ascii) : bool := negb (is_word c || is_space c).
Definition any_but_newline (c : ascii) : bool := negb (Ascii.eqb c NL).
Definition kebab_char (c : ascii) : bool :=
  is_lower c || is_digit c || Ascii.eqb c "-"%char.
(** The glyph classes of the guidelines patterns hold no character below 128. *)
Definition glyph (c : ascii) : bool := false.

(** [r'^[^\w\s]+\s*'] *)
Definition HEADING_PREFIX_RE : regex :=
  Seq Bol (Seq (Plus not_word_or_space) (Star is_space)).

(** [r'Keywords?:\s*(.+)'] *)
Definition LABEL_RE : regex := lit "Keyword" (Seq (Opt (Chr "s")) (Chr ":")).
Definition KEYWORDS_RE : regex :=
  Seq LABEL_RE (Seq (Star is_space) (Grp (Plus any_but_newline))).

(** [r'^[a-z0-9-]+$'] *)
Definition NAME_RE : regex := Seq Bol (Seq (Plus kebab_char) Eol).

(** [r'^\d+\.\d+\.\d+$'] *)
Definition VERSION_RE : regex :=
  Seq Bol (Seq (Plus is_digit) (Seq (Chr ".") (Seq (Plus is_digit)
    (Seq (Chr ".") (Seq (Plus is_digit) Eol))))).

(** [r'###\s*Phase'] *)
Definition PHASE_RE : regex := lit "###" (Seq (Star is_space) (lit "Phase" Eps)).

(** [r'###?\s*DO\s*[..]?'], the class being the two check glyphs *)
Definition DO_RE : regex :=
  lit "##" (Seq (Opt (Chr "#")) (Seq (Star is_space)
    (lit "DO" (Seq (Star is_space) (Opt (Cls glyph)))))).

(** [r"###?\s*DON'?T\s*[..]?"], the class being the two cross glyphs *)
Definition DONT_RE : regex :=
  lit "##" (Seq (Opt (Chr "#")) (Seq (Star is_space)
    (lit "DON" (Seq (Opt (Chr "'")) (Seq (Chr "T")
      (Seq (Star is_space) (Opt (Cls glyph)))))))).

(* ------------------------------------------------------------------ *)
(** ** Section and keyword extraction (lines 90-120) *)

(** [if current_section:] is false for [None] and for the empty title. *)
Definition open_section (current_section : option str) : option str :=
  match current_section with
  | Some (c :: t) => Some (c :: t)
  | _ => None
  end.

(** The loop state of [extract_sections]. *)
Record scan_state : Type := mkScan {
  sections_of : Dict str;
  current_section : option str;
  current_content : list str
}.

(** [sections[current_section] = '\n'.join(current_content).strip()], when
    a section is open. *)
Definition flush (st : scan_state) : Dict str :=
  match open_section (current_section st) with
  | Some title =>
      dict_set title (strip (join [NL] (current_content st))) (sections_of st)
  | None => sections_of st
  end.

(** The heading text of a line that starts with ["## "]. *)
Definition heading_title (line : str) : str :=
  re_sub_empty HEADING_PREFIX_RE (strip (slice_from line 3)).

(** One turn of the loop of [extract_sections]. *)
Definition section_step (st : scan_state) (line : str) : scan_state :=
  if startswith (py "## ") line then
    mkScan (flush st) (Some (heading_title line)) []
  else
    match open_section (current_section st) with
    | Some _ =>
        mkScan (sections_of st) (current_section st) (current_content st ++ [line])
    | None => st
    end.

Definition extract_sections (body : str) : Dict str :=
  flush (fold_left section_step (split NL body) (mkScan [] None [])).

Definition extract_keywords (description : str) : list str :=
  match re_search true KEYWORDS_RE description with
  | Some mt =>
      match grp mt with
      | Some keywords_str => map strip (split ","%char keywords_str)
      | None => []
      end
  | None => []
  end.

(* ------------------------------------------------------------------ *)
(** ** The rules over the section map (lines 202-265) *)

(** [any(section.lower() in s.lower() for s in section_names)] *)
Definition section_found (section : str) (section_names : list str) : bool :=
  existsb (fun s => contains (lower section) (lower s)) section_names.

(** The [for name, content in sections.items()] loops: the content of the
    first section whose lowered title contains [word]. *)
Fixpoint first_section_with (word : str) (sections : Dict str) : option str :=
  match sections with
  | [] => None
  | (name, content) :: more =>
      if contains word (lower name) then Some content
      else first_section_with word more
  end.

(** [bool(re.search(r, s))] *)
Definition found (ic : bool) (r : regex) (s : str) : bool :=
  match re_search ic r s with Some _ => true | None => false end.

Definition check_required_sections (section_names : list str)
    (result : ValidationResult) : ValidationResult :=
  fold_left
    (fun r section =>
       if section_found section section_names then r
       else add_issue r ERROR
              (py "Missing required section: '## " ++ section ++ py "'")
              (py "body")
              (Some (py "Add a '## " ++ section ++ py "' section to the skill")))
    REQUIRED_SECTIONS result.

Definition check_recommended_sections (section_names : list str)
    (result : ValidationResult) : ValidationResult :=
  fold_left
    (fun r section =>
       if section_found section section_names then r
       else add_issue r INFO
              (py "Consider adding section: '## " ++ section ++ py "'")
              (py "body") None)
    RECOMMENDED_SECTIONS result.

Definition check_process (sections : Dict str) (result : ValidationResult)
  : ValidationResult :=
  match first_section_with (py "process") sections with
  | Some (c :: t) =>
      let process_section := c :: t in
      let phase_count := re_findall_count true PHASE_RE process_section in
      if phase_count <? 2 then
        add_issue result INFO
          (py "Process section has " ++ str_of_nat phase_count ++
           py " phases, consider adding more structure")
          (py "section.Process") None
      else result
  | _ => result
  end.

Definition check_guidelines (sections : Dict str) (result : ValidationResult)
  : ValidationResult :=
  match first_section_with (py "guidelines") sections with
  | Some (c :: t) =>
      let guidelines_section := c :: t in
      let has_do := found true DO_RE guidelines_section in
      let has_dont := found true DONT_RE guidelines_section in
      let r1 :=
        if has_do then result
        else add_issue result INFO
               (py "Guidelines section missing '### DO " ++ CHECK_MARK ++
                py "' subsection")
               (py "section.Guidelines") None in
      if has_dont then r1
      else add_issue r1 INFO
             (py "Guidelines section missing '### DON'T " ++ CROSS_MARK ++
              py "' subsection")
             (py "section.Guidelines") None
  | _ => result
  end.

Definition validate_sections (sections : Dict str) (result : ValidationResult)
  : ValidationResult :=
  let section_names := dict_keys sections in
  let r1 := check_required_sections section_names result in
  let r2 := check_recommended_sections section_names r1 in
  let r3 := check_process sections r2 in
  check_guidelines sections r3.

(* ------------------------------------------------------------------ *)
(** ** The rules over the metadata map (lines 123-199) *)

(** A [for] loop whose body may raise. *)
Fixpoint for_each {A S : Type} (l : list A) (body : S -> A -> Result S) (s : S)
  : Result S :=
  match l with
  | [] => Ok s
  | a :: l' => s' <- body s a ;; for_each l' body s'
  end.

(** [field not in frontmatter or not frontmatter[field]] *)
Definition absent_or_falsy (frontmatter : PyVal) (field : str) : Result bool :=
  present <- py_contains field frontmatter ;;
  if present then
    v <- py_getitem frontmatter field ;; Ok (negb (py_truthy v))
  else Ok true.

(** Lines 126-133. *)
Definition check_required (frontmatter : PyVal) (result : ValidationResult)
  : Result ValidationResult :=
  for_each REQUIRED_FRONTMATTER
    (fun r field =>
       missing <- absent_or_falsy frontmatter field ;;
       Ok (if missing then
             add_issue r ERROR
               (py "Missing required frontmatter field: " ++ field)
               (py "frontmatter")
               (Some (py "Add '" ++ field ++ py ":' to the YAML frontmatter"))
           else r))
    result.

(** Lines 136-143. *)
Definition check_recommended (frontmatter : PyVal) (result : ValidationResult)
  : Result ValidationResult :=
  for_each RECOMMENDED_FRONTMATTER
    (fun r field =>
       present <- py_contains field frontmatter ;;
       Ok (if present then r
           else add_issue r WARNING
                  (py "Missing recommended field: " ++ field)
                  (py "frontmatter")
                  (Some (py "Consider adding '" ++ field ++
                         py ":' for better skill discoverability"))))
    result.

(** A value handed to [re.match] or [re.search] must be a [str]. *)
Definition as_str (v : PyVal) : Result str :=
  match v with
  | PStr s => Ok s
  | _ => Raise TypeError
  end.

(** Lines 146-154. *)
Definition check_name (frontmatter : PyVal) (result : ValidationResult)
  : Result ValidationResult :=
  present <- py_contains (py "name") frontmatter ;;
  if present then
    v <- py_getitem frontmatter (py "name") ;;
    name <- as_str v ;;
    match re_match false NAME_RE name with
    | Some _ => Ok result
    | None =>
        Ok (add_issue result WARNING
              (py "Skill name '" ++ name ++
               py "' should be kebab-case (lowercase with dashes)")
              (py "frontmatter.name")
              (Some (py "Use format like 'my-skill-name'")))
    end
  else Ok result.

(** Lines 157-168. *)
Definition check_keywords (frontmatter : PyVal) (result : ValidationResult)
  : Result ValidationResult :=
  present <- py_contains (py "description") frontmatter ;;
  if present then
    v <- py_getitem frontmatter (py "description") ;;
    desc <- as_str v ;;
    let keywords := extract_keywords desc in
    let r1 := set_metadata result (py "keywords") (PList (map PStr keywords)) in
    if length keywords <? MIN_KEYWORDS then
      Ok (add_issue r1 WARNING
            (py "Description has " ++ str_of_nat (length keywords) ++
             py " keywords, recommend at least " ++ str_of_nat MIN_KEYWORDS)
            (py "frontmatter.description")
            (Some (py "Add 'Keywords: keyword1, keyword2, keyword3' to description")))
    else Ok r1
  else Ok result.

(** Lines 171-179. *)
Definition check_version (frontmatter : PyVal) (result : ValidationResult)
  : Result ValidationResult :=
  present <- py_contains (py "version") frontmatter ;;
  if present then
    v <- py_getitem frontmatter (py "version") ;;
    version <- py_str v ;;
    match re_match false VERSION_RE version with
    | Some _ => Ok result
    | None =>
        Ok (add_issue result WARNING
              (py "Version '" ++ version ++
               py "' should follow semver format (x.y.z)")
              (py "frontmatter.version")
              (Some (py "Use format like '1.0.0'")))
    end
  else Ok result.

Definition TOKEN_KEYS : list str := [py "min"; py "typical"; py "max"].

(** [te["min"] <= te["typical"] <= te["max"]]: the second comparison is made
    only when the first holds. *)
Definition token_order (te : PyVal) : Result bool :=
  lo <- py_getitem te (py "min") ;;
  mid <- py_getitem te (py "typical") ;;
  first <- py_le lo mid ;;
  if first then
    hi <- py_getitem te (py "max") ;;
    py_le mid hi
  else Ok false.

(** Lines 185-199, for a [token_estimate] that is a mapping. *)
Definition check_token_mapping (d : Dict PyVal) (result : ValidationResult)
  : Result ValidationResult :=
  let r1 :=
    fold_left
      (fun r key =>
         if dict_mem key d then r
         else add_issue r WARNING
                (py "token_estimate missing '" ++ key ++ py "'")
                (py "frontmatter.token_estimate") None)
      TOKEN_KEYS result in
  if forallb (fun k => dict_mem k d) TOKEN_KEYS then
    ordered <- token_order (PDict d) ;;
    Ok (if ordered then r1
        else add_issue r1 ERROR
               (py "token_estimate values should be: min <= typical <= max")
               (py "frontmatter.token_estimate") None)
  else Ok r1.

(** Lines 182-199. *)
Definition check_token_estimate (frontmatter : PyVal) (result : ValidationResult)
  : Result ValidationResult :=
  present <- py_contains (py "token_estimate") frontmatter ;;
  if present then
    te <- py_getitem frontmatter (py "token_estimate") ;;
    match te with
    | PDict d => check_token_mapping d result
    | _ => Ok result
    end
  else Ok result.

Definition validate_frontmatter (frontmatter : PyVal) (result : ValidationResult)
  : Result ValidationResult :=
  r1 <- check_required frontmatter result ;;
  r2 <- check_recommended frontmatter r1 ;;
  r3 <- check_name frontmatter r2 ;;
  r4 <- check_keywords frontmatter r3 ;;
  r5 <- check_version frontmatter r4 ;;
  check_token_estimate frontmatter r5.

(* ------------------------------------------------------------------ *)
(** ** The file system the validator reads *)

(** A path is its text, already normalised; [p / name] joins with a slash.
    The file system answers every query: the [OSError] that [Path.is_dir]
    and [Path.exists] raise on a path the system refuses (a name too long,
    say) is outside the model, and so is what happens then. *)
Definition Path := str.
Definition path_join (p : Path) (name : str) : Path := p ++ py "/" ++ name.

(** [Path.read_text]: the text, or the text of the exception raised. *)
Inductive ReadOutcome : Type :=
| ReadOk (content : str)
| ReadFailed (e : str).

Record FileSystem : Type := mkFS {
  is_dir : Path -> bool;
  path_exists : Path -> bool;
  read_text : Path -> ReadOutcome
}.

(** Lines 268-301.  The second component is the returned [skill_md], [None]
    when the file is missing. *)
Definition validate_structure (fs : FileSystem) (skill_path : Path)
    (result : ValidationResult) : ValidationResult * option Path :=
  let skill_md := path_join skill_path (py "SKILL.md") in
  if negb (path_exists fs skill_md) then
    (add_issue result ERROR (py "Missing SKILL.md file") skill_path
       (Some (py "Create a SKILL.md file using the template")),
     None)
  else
    let references_dir := path_join skill_path (py "references") in
    let scripts_dir := path_join skill_path (py "scripts") in
    let r1 :=
      if negb (path_exists fs references_dir) then
        add_issue result INFO (py "No 'references/' directory (optional)")
          skill_path
          (Some (py "Add references/ for detailed documentation if needed"))
      else result in
    let r2 :=
      if negb (path_exists fs scripts_dir) then
        add_issue r1 INFO (py "No 'scripts/' directory (optional)")
          skill_path
          (Some (py "Add scripts/ for helper utilities if needed"))
      else r1 in
    (r2, Some skill_md).

(** Lines 345-359: the length rule; [content_length] is [len(content)]. *)
Definition check_length (content_length : Z) (skill_md : Path)
    (result : ValidationResult) : ValidationResult :=
  if (content_length <? 500)%Z then
    add_issue result WARNING
      (py "SKILL.md seems too short (" ++ str_of_Z content_length ++ py " chars)")
      skill_md
      (Some (py "Add more detail to make the skill useful"))
  else if (50000 <? content_length)%Z then
    add_issue result WARNING
      (py "SKILL.md is very long (" ++ str_of_Z content_length ++ py " chars)")
      skill_md
      (Some (py "Consider moving detail to references/"))
  else result.

Definition NO_FRONTMATTER : str := py "No YAML frontmatter found".

Section Validator.

(** [yaml.safe_load]: the decoded value, or the exception it raises. *)
Variable safe_load : str -> Result PyVal.

(** Lines 75-87.  [ValueError] (no closing delimiter, or raised by the
    decoder) and [yaml.YAMLError] are caught; [frontmatter or {}] replaces a
    falsy decoded value by the empty mapping. *)
Definition parse_frontmatter (content : str) : Result (PyVal * str) :=
  if negb (startswith (py "---") content) then Ok (PDict [], content)
  else
    match index (py "---") content 3 with
    | None => Ok (PDict [], content)
    | Some end_index =>
        let frontmatter_str := strip (slice content 3 end_index) in
        let body := strip (slice_from content (end_index + 3)) in
        match safe_load frontmatter_str with
        | Ok frontmatter =>
            Ok (if py_truthy frontmatter then frontmatter else PDict [], body)
        | Raise ValueError | Raise YAMLError => Ok (PDict [], content)
        | Raise e => Raise e
        end
    end.

(** Lines 326-361 of [validate_skill]: what is done with the text read from
    [skill_md]. *)
Definition validate_content (skill_md : Path) (content : str)
    (result : ValidationResult) : Result ValidationResult :=
  parsed <- parse_frontmatter content ;;
  let frontmatter := fst parsed in
  let body := snd parsed in
  r1 <- (if negb (py_truthy frontmatter) then
           Ok (add_issue result ERROR NO_FRONTMATTER skill_md
                 (Some (py "Add YAML frontmatter between --- markers at the start")))
         else
           r <- validate_frontmatter frontmatter result ;;
           Ok (set_metadata r (py "frontmatter") frontmatter)) ;;
  let sections := extract_sections body in
  let r2 := validate_sections sections r1 in
  let r3 := set_metadata r2 (py "sections") (PList (map PStr (dict_keys sections))) in
  Ok (check_length (Z.of_nat (length content)) skill_md r3).

(** Lines 304-361. *)
Definition validate_skill (fs : FileSystem) (skill_path : Path)
  : Result ValidationResult :=
  let result := mkResult skill_path true [] [] in
  if negb (is_dir fs skill_path) then
    Ok (add_issue result ERROR (py "Path is not a directory") skill_path None)
  else
    match validate_structure fs skill_path result with
    | (r1, None) => Ok r1
    | (r1, Some skill_md) =>
        match read_text fs skill_md with
        | ReadFailed e =>
            Ok (add_issue r1 ERROR (py "Cannot read SKILL.md: " ++ e) skill_md None)
        | ReadOk content => validate_content skill_md content r1
        end
    end.

(** Lines 459-462 of [main]: the loop over the skills found; an exception
    that leaves [validate_skill] leaves the loop. *)
Fixpoint validate_all (fs : FileSystem) (skills : list Path)
  : Result (list ValidationResult) :=
  match skills with
  | [] => Ok []
  | skill_path :: more =>
      result <- validate_skill fs skill_path ;;
      results <- validate_all fs more ;;
      Ok (result :: results)
  end.

End Validator.

(** Lines 468-469 of [main]. *)
Definition valid_count (results : list ValidationResult) : nat :=
  length (filter valid results).
Definition total_count (results : list ValidationResult) : nat := length results.

(* ================================================================== *)
(** ** Concrete decoders, file systems and documents *)
(* ================================================================== *)

(** A decoder known by its answers on finitely many metadata blocks; each
    answer is what [yaml.safe_load] gives on that block.  Any other block
    is refused. *)
Definition decoder_of (answers : Dict (Result PyVal)) (block : str) : Result PyVal :=
  match dict_get block answers with
  | Some answer => answer
  | None => Raise YAMLError
  end.

(** A file system holding the directories [dirs] and the files [files]. *)
Definition fs_of (dirs : list Path) (files : Dict str) : FileSystem :=
  {| is_dir := fun p => existsb (str_eqb p) dirs;
     path_exists := fun p => existsb (str_eqb p) dirs || dict_mem p files;
     read_text := fun p =>
       match dict_get p files with
       | Some content => ReadOk content
       | None => ReadFailed (py "No such file or directory")
       end |}.

(** Lines of text joined by line breaks. *)
Definition text (lines : list string) : str :=
  join [NL] (map py lines).

(* ================================================================== *)
(** ** Vocabulary of the statements *)
(* ================================================================== *)

(** A fresh result, as [validate_skill] creates it. *)
Definition new_result (skill_path : Path) : ValidationResult :=
  mkResult skill_path true [] [].

Definition is_error (i : ValidationIssue) : bool := Severity_eqb (severity i) ERROR.

(** A sequence of [add_issue] calls, one per finding of [l]. *)
Definition add_all (r : ValidationResult) (l : list ValidationIssue)
  : ValidationResult :=
  fold_left
    (fun r i => add_issue r (severity i) (message i) (location i) (suggestion i))
    l r.

(** The rule a finding comes from, read off the fixed start of its message. *)
Inductive Rule : Type :=
| RNotDirectory | RMissingFile | ROptionalDirectory | RRead | RNoFrontmatter
| RRequiredField | RRecommendedField | RName | RKeywords | RVersion
| RTokenEstimate
| RRequiredSection | RRecommendedSection | RProcess | RGuidelines
| RLength.

Definition Rule_eqb (a b : Rule) : bool :=
  match a, b with
  | RNotDirectory, RNotDirectory | RMissingFile, RMissingFile
  | ROptionalDirectory, ROptionalDirectory | RRead, RRead
  | RNoFrontmatter, RNoFrontmatter | RRequiredField, RRequiredField
  | RRecommendedField, RRecommendedField | RName, RName
  | RKeywords, RKeywords | RVersion, RVersion
  | RTokenEstimate, RTokenEstimate | RRequiredSection, RRequiredSection
  | RRecommendedSection, RRecommendedSection | RProcess, RProcess
  | RGuidelines, RGuidelines | RLength, RLength => true
  | _, _ => false
  end.

Definition MESSAGE_STARTS : list (str * Rule) :=
  [ (py "Path is not a directory", RNotDirectory);
    (py "Missing SKILL.md file", RMissingFile);
    (py "No 'references/' directory (optional)", ROptionalDirectory);
    (py "No 'scripts/' directory (optional)", ROptionalDirectory);
    (py "Cannot read SKILL.md: ", RRead);
    (py "No YAML frontmatter found", RNoFrontmatter);
    (py "Missing required frontmatter field: ", RRequiredField);
    (py "Missing recommended field: ", RRecommendedField);
    (py "Skill name '", RName);
    (py "Description has ", RKeywords);
    (py "Version '", RVersion);
    (py "token_estimate ", RTokenEstimate);
    (py "Missing required section: '## ", RRequiredSection);
    (py "Consider adding section: '## ", RRecommendedSection);
    (py "Process section has ", RProcess);
    (py "Guidelines section missing '### DO", RGuidelines);
    (py "SKILL.md seems too short (", RLength);
    (py "SKILL.md is very long (", RLength) ].

Fixpoint lookup_start (table : list (str * Rule)) (msg : str) : option Rule :=
  match table with
  | [] => None
  | (start, rule) :: more =>
      if startswith start msg then Some rule else lookup_start more msg
  end.

Definition rule_of (i : ValidationIssue) : option Rule :=
  lookup_start MESSAGE_STARTS (message i).

Definition from_rule (rule : Rule) (i : ValidationIssue) : bool :=
  match rule_of i with
  | Some r => Rule_eqb r rule
  | None => false
  end.

Definition from_rules (rules : list Rule) (i : ValidationIssue) : bool :=
  existsb (fun rule => from_rule rule i) rules.

(** The rules of [validate_frontmatter]. *)
Definition FRONTMATTER_RULES : list Rule :=
  [RRequiredField; RRecommendedField; RName; RKeywords; RVersion; RTokenEstimate].

(** The rules of [validate_sections]. *)
Definition SECTION_RULES : list Rule :=
  [RRequiredSection; RRecommendedSection; RProcess; RGuidelines].

(** The findings of [l] that come from [rule]. *)
Definition findings_of (rule : Rule) (l : list ValidationIssue)
  : list ValidationIssue :=
  filter (from_rule rule) l.

(** [r'] is [r] with findings appended that all satisfy [P]; [valid] has
    dropped to false exactly when one of them is an error. *)
Definition appended (P : ValidationIssue -> bool) (r r' : ValidationResult)
  : Prop :=
  exists l,
    issues r' = issues r ++ l /\
    forallb P l = true /\
    skill_path r' = skill_path r /\
    valid r' = valid r && negb (existsb is_error l).

(** The document at [skill_path] is there and reads as [content]. *)
Definition reads (fs : FileSystem) (skill_path : Path) (content : str) : Prop :=
  is_dir fs skill_path = true /\
  path_exists fs (path_join skill_path (py "SKILL.md")) = true /\
  read_text fs (path_join skill_path (py "SKILL.md")) = ReadOk content.

(** A number, as [<=] compares it: an [int], or a [bool] as 0 or 1. *)
Definition as_number (v : PyVal) : option Z :=
  match v with
  | PInt n => Some n
  | PBool b => Some (Z_of_bool b)
  | _ => None
  end.

(** The number stored under [key], when there is one. *)
Definition number_at (key : str) (d : Dict PyVal) : option Z :=
  match dict_get key d with
  | Some v => as_number v
  | None => None
  end.

(** The two findings of the length rule. *)
Definition too_short (content_length : Z) (skill_md : Path) : ValidationIssue :=
  mkIssue WARNING
    (py "SKILL.md seems too short (" ++ str_of_Z content_length ++ py " chars)")
    skill_md (Some (py "Add more detail to make the skill useful")).

Definition too_long (content_length : Z) (skill_md : Path) : ValidationIssue :=
  mkIssue WARNING
    (py "SKILL.md is very long (" ++ str_of_Z content_length ++ py " chars)")
    skill_md (Some (py "Consider moving detail to references/")).

(** The finding for a document without metadata. *)
Definition no_frontmatter (skill_md : Path) : ValidationIssue :=
  mkIssue ERROR NO_FRONTMATTER skill_md
    (Some (py "Add YAML frontmatter between --- markers at the start")).

(** [content] opens with the delimiter and has a second one: [block] is the
    metadata block handed to the decoder and [body] the text after it. *)
Definition delimited (content block body : str) : Prop :=
  startswith (py "---") content = true /\
  exists end_index,
    index (py "---") content 3 = Some end_index /\
    block = strip (slice content 3 end_index) /\
    body = strip (slice_from content (end_index + 3)).

(** The exceptions [parse_frontmatter] catches (line 86). *)
Definition caught (e : PyExc) : bool :=
  match e with
  | ValueError | YAMLError => true
  | _ => false
  end.

(** The findings of a validation, none when it raised. *)
Definition issues_of (x : Result ValidationResult) : list ValidationIssue :=
  match x with
  | Ok r => issues r
  | Raise _ => []
  end.

(** Severity and message of each finding. *)
Definition summary (l : list ValidationIssue) : list (Severity * str) :=
  map (fun i => (severity i, message i)) l.

(** The finding for a skill directory without its SKILL.md. *)
Definition missing_file (skill_path : Path) : ValidationIssue :=
  mkIssue ERROR (py "Missing SKILL.md file") skill_path
    (Some (py "Create a SKILL.md file using the template")).

(** The length of the label [Keywords:] or [Keyword:], in any case of
    letters, that [s] starts with. *)
Definition label_len (s : str) : option nat :=
  if startswith (py "keywords:") (lower s) then Some 9
  else if startswith (py "keyword:") (lower s) then Some 8
  else None.

(** [lab] is the label [Keywords:] or [Keyword:], in any case of letters. *)
Definition is_label (lab : str) : Prop :=
  lower lab = py "keywords:" \/ lower lab = py "keyword:".

(** No label starts at any offset of [s] below [k]. *)
Definition no_label_before (k : nat) (s : str) : Prop :=
  forall i, i < k -> label_len (skipn i s) = None.

(** [r] is empty or starts with a character outside the class [ok]. *)
Definition stops (ok : ascii -> bool) (r : str) : bool :=
  match r with
  | [] => true
  | x :: _ => negb (ok x)
  end.

(** The finding of the keyword-count rule. *)
Definition few_keywords (n : nat) : ValidationIssue :=
  mkIssue WARNING
    (py "Description has " ++ str_of_nat n ++
     py " keywords, recommend at least " ++ str_of_nat MIN_KEYWORDS)
    (py "frontmatter.description")
    (Some (py "Add 'Keywords: keyword1, keyword2, keyword3' to description")).

(** The longest start of [s] within the class [p], and what follows it. *)
Fixpoint take_while (p : ascii -> bool) (s : str) : str :=
  match s with
  | c :: s' => if p c then c :: take_while p s' else []
  | [] => []
  end.

Fixpoint drop_while (p : ascii -> bool) (s : str) : str :=
  match s with
  | c :: s' => if p c then drop_while p s' else s
  | [] => []
  end.

(** ** Section extraction as the specification words it *)

(** A line that starts a section. *)
Definition is_heading (line : str) : bool := startswith (py "## ") line.

(** The key of a heading line: the text after the marker, trimmed, without
    its leading run of characters that are neither word characters nor
    whitespace, trimmed again. *)
Definition spec_title (line : str) : str :=
  strip (drop_while not_word_or_space (strip (slice_from line 3))).

(** The lines up to the next heading. *)
Fixpoint content_lines (lines : list str) : list str :=
  match lines with
  | [] => []
  | line :: more => if is_heading line then [] else line :: content_lines more
  end.

(** The sections of a text in document order: each heading with the
    trimmed text of the lines up to the next heading.  Lines before the
    first heading belong to no section. *)
Fixpoint spec_blocks (lines : list str) : list (str * str) :=
  match lines with
  | [] => []
  | line :: more =>
      if is_heading line
      then (spec_title line, strip (join [NL] (content_lines more))) :: spec_blocks more
      else spec_blocks more
  end.

(** Storing sections one after the other: a later one with the same title
    overwrites. *)
Definition store_all (blocks : list (str * str)) (d : Dict str) : Dict str :=
  fold_left (fun d b => dict_set (fst b) (snd b) d) blocks d.

(** Section extraction as the specification describes it: every heading
    gets an entry. *)
Definition spec_extract_sections (body : str) : Dict str :=
  store_all (spec_blocks (split NL body)) [].

(** A section whose title is not empty. *)
Definition titled (b : str * str) : bool :=
  match fst b with
  | [] => false
  | _ :: _ => true
  end.

(** The loop and the final flush of [extract_sections] on given lines. *)
Definition sections_of_lines (lines : list str) : Dict str :=
  flush (fold_left section_step lines (mkScan [] None [])).

(** The distinct titles of [l], in the order in which they first occur,
    after those of [seen]. *)
Fixpoint first_occurrences (seen l : list str) : list str :=
  match l with
  | [] => seen
  | t :: l' =>
      first_occurrences (if existsb (str_eqb t) seen then seen else seen ++ [t]) l'
  end.

(** The content of the last section of [blocks] titled [t], [found] if
    there is none. *)
Definition last_content (t : str) (blocks : list (str * str)) (found : option str)
  : option str :=
  fold_left (fun acc b => if str_eqb t (fst b) then Some (snd b) else acc)
            blocks found.

(** A text ends clean when it is empty or its last character is no space. *)
Definition ends_clean (s : str) : bool := stops is_space (rev s).

(** The result [validate_skill] has when it turns to the text it read. *)
Definition after_structure (fs : FileSystem) (skill_path : Path) : ValidationResult :=
  fst (validate_structure fs skill_path (new_result skill_path)).

(** The finding of the token-estimate rule for a missing key. *)
Definition token_missing (key : str) : ValidationIssue :=
  mkIssue WARNING (py "token_estimate missing '" ++ key ++ py "'")
    (py "frontmatter.token_estimate") None.

(** The finding of the token-estimate rule for values out of order. *)
Definition token_disordered : ValidationIssue :=
  mkIssue ERROR (py "token_estimate values should be: min <= typical <= max")
    (py "frontmatter.token_estimate") None.

(* ================================================================== *)
(** ** Sample documents *)
(* ================================================================== *)

Open Scope string_scope.

(** The metadata of [doc_good], as decoded. *)
Definition good_metadata : PyVal :=
  PDict [ (py "name", PStr (py "my-skill"));
          (py "description", PStr (py "Does X. Keywords: a, b"));
          (py "version", PStr (py "1.0.0")) ].

Definition good_block : str :=
  text [ "name: my-skill";
         "description: 'Does X. Keywords: a, b'";
         "version: 1.0.0" ].

(** What [yaml.safe_load] answers on the blocks of the sample documents:
    an unclosed flow sequence is refused, the empty block is [None], a bare
    number is an [int]. *)
Definition sample_decoder : str -> Result PyVal :=
  decoder_of
    [ (py "name: [", Raise YAMLError);
      (py "", Ok PNone);
      (py "name: 123", Ok (PDict [(py "name", PInt 123)]));
      (good_block, Ok good_metadata) ].

Definition doc_broken : str :=
  text [ "---"; "name: ["; "---"; "## Process"; "Steps." ].

Definition doc_empty : str :=
  text [ "---"; "---"; "## Process"; "Steps." ].

Definition doc_number : str :=
  text [ "---"; "name: 123"; "---"; "## Process"; "Steps." ].

Definition doc_plain : str :=
  text [ "## Process"; "Steps."; "" ].

Definition doc_good : str :=
  text [ "---";
         "name: my-skill";
         "description: 'Does X. Keywords: a, b'";
         "version: 1.0.0";
         "---";
         "## When to Use"; "Always.";
         "## Process"; "### Phase 1"; "### Phase 2";
         "## Guidelines"; "### DO"; "### DON'T" ].

(** The text after the metadata block of [doc_broken], [doc_empty] and
    [doc_number]. *)
Definition process_body : str := text [ "## Process"; "Steps." ].

Definition doc_499 : str := repeat "x"%char 499.
Definition doc_500 : str := repeat "x"%char 500.

(** Eight skill directories; [skills/missing] has no SKILL.md. *)
Definition sample_fs : FileSystem :=
  fs_of
    [ py "skills/broken"; py "skills/empty"; py "skills/number";
      py "skills/plain"; py "skills/good"; py "skills/missing";
      py "skills/short"; py "skills/enough" ]
    [ (py "skills/broken/SKILL.md", doc_broken);
      (py "skills/empty/SKILL.md", doc_empty);
      (py "skills/number/SKILL.md", doc_number);
      (py "skills/plain/SKILL.md", doc_plain);
      (py "skills/good/SKILL.md", doc_good);
      (py "skills/short/SKILL.md", doc_499);
      (py "skills/enough/SKILL.md", doc_500) ].

(** A [token_estimate] whose entries cannot be compared: a string and two
    numbers. *)
Definition mixed_estimate_metadata : PyVal :=
  PDict [ (py "token_estimate",
           PDict [ (py "min", PStr (py "low")); (py "typical", PInt 5);
                   (py "max", PInt 20) ]) ].

(** A [token_estimate] whose values are out of order. *)
Definition sample_estimate : Dict PyVal :=
  [ (py "min", PInt 10); (py "typical", PInt 5); (py "max", PInt 20) ].

Definition sample_estimate_metadata : Dict PyVal :=
  [ (py "token_estimate", PDict sample_estimate) ].

Close Scope string_scope.

(* ================================================================== *)
(** ** Finding the skills, the report and the exit status (lines 364-508) *)
(* ================================================================== *)

(** The escape sequences and the glyphs of the report.  The source holds
    each glyph as the code points that its UTF-8 bytes give when read in Mac
    OS Roman; an element here is that byte, one for each code point of the
    source text. *)
Definition ESC : ascii := ascii_of_nat 27.
Definition GREEN : str := ESC :: py "[92m".
Definition RED : str := ESC :: py "[91m".
Definition YELLOW : str := ESC :: py "[93m".
Definition BLUE : str := ESC :: py "[94m".
Definition RESET : str := ESC :: py "[0m".
Definition WARNING_SIGN : str := map ascii_of_nat [226; 154; 160; 239; 184; 143].
Definition INFO_SIGN : str := map ascii_of_nat [226; 132; 185; 239; 184; 143].
Definition PIN : str := map ascii_of_nat [240; 159; 147; 141].
Definition BULB : str := map ascii_of_nat [240; 159; 146; 161].
Definition CORNER : str := map ascii_of_nat [226; 148; 148; 226; 148; 128].

(** [[i for i in issues if i.severity == sev]] *)
Definition with_severity (sev : Severity) (l : list ValidationIssue)
  : list ValidationIssue :=
  filter (fun i => Severity_eqb (severity i) sev) l.

(** [bool(s)] for a string *)
Definition nonempty {A : Type} (l : list A) : bool := negb (length l =? 0).

(** Lines 394-412: what one turn of the loop over the issues prints, one
    element for each call of [print]. *)
Definition print_issue (verbose : bool) (issue : ValidationIssue) : list str :=
  if Severity_eqb (severity issue) INFO && negb verbose then []
  else
    let icon_color :=
      match severity issue with
      | ERROR => (CROSS_MARK, RED)
      | WARNING => (WARNING_SIGN, YELLOW)
      | INFO => (INFO_SIGN, BLUE)
      end in
    [py "      " ++ fst icon_color ++ py " " ++ snd icon_color ++
     message issue ++ RESET] ++
    (if nonempty (location issue)
     then [py "         " ++ PIN ++ py " " ++ location issue] else []) ++
    match suggestion issue with
    | Some sugg =>
        if nonempty sugg && verbose
        then [py "         " ++ BULB ++ py " " ++ sugg] else []
    | None => []
    end.

(** Lines 375-383: the status line. *)
Definition status_line (result : ValidationResult) : str :=
  let status := if valid result then CHECK_MARK ++ py " VALID"
                else CROSS_MARK ++ py " INVALID" in
  let status_color := if valid result then GREEN else RED in
  NL :: status_color ++ status ++ RESET ++ py ": " ++ skill_path result.

(** Lines 372-412. *)
Definition print_result (result : ValidationResult) (verbose : bool) : list str :=
  let errors := with_severity ERROR (issues result) in
  let warnings := with_severity WARNING (issues result) in
  let infos := with_severity INFO (issues result) in
  [status_line result] ++
  (if nonempty errors || nonempty warnings || (verbose && nonempty infos)
   then [py "   " ++ CORNER ++ py " " ++ str_of_nat (length errors) ++
         py " errors, " ++ str_of_nat (length warnings) ++
         py " warnings, " ++ str_of_nat (length infos) ++ py " info"]
   else []) ++
  flat_map (print_issue verbose) (issues result).

(** The parsed command line: [args.path] after [Path(...).resolve()], and
    the four flags. *)
Record Args : Type := mkArgs {
  args_path : Path;
  args_all : bool;
  args_verbose : bool;
  args_fix : bool;
  args_json : bool
}.

(** How [main] ends: [sys.exit(code)], or an exception nothing catches. *)
Inductive Outcome : Type :=
| Exit (code : Z)
| Uncaught (e : PyExc).

(** [i.severity.value] *)
Definition Severity_value (sev : Severity) : str :=
  match sev with
  | ERROR => py "error"
  | WARNING => py "warning"
  | INFO => py "info"
  end.

(** Lines 473-496: the value handed to [json.dumps]. *)
Definition issue_json (i : ValidationIssue) : PyVal :=
  PDict [ (py "severity", PStr (Severity_value (severity i)));
          (py "message", PStr (message i));
          (py "location", PStr (location i));
          (py "suggestion", match suggestion i with
                            | Some s => PStr s
                            | None => PNone
                            end) ].

Definition result_json (r : ValidationResult) : PyVal :=
  PDict [ (py "path", PStr (skill_path r));
          (py "valid", PBool (valid r));
          (py "issues", PList (map issue_json (issues r)));
          (py "metadata", PDict (metadata r)) ].

Definition output_json (results : list ValidationResult) : PyVal :=
  PDict [ (py "summary",
           PDict [ (py "total", PInt (Z.of_nat (total_count results)));
                   (py "valid", PInt (Z.of_nat (valid_count results)));
                   (py "invalid",
                    PInt (Z.of_nat (total_count results) -
                          Z.of_nat (valid_count results))) ]);
          (py "results", PList (map result_json results)) ].

Section Main.

Variable safe_load : str -> Result PyVal.

(** [base_path.rglob(name)]: the paths called [name] under [base_path], in
    the order the file system yields them; and [p.parent]. *)
Variable rglob : FileSystem -> Path -> str -> list Path.
Variable parent : Path -> Path.

(** [json.dumps(output, indent=2)]: the text, or the exception it raises on
    a value it cannot serialise. *)
Variable json_dumps : PyVal -> Result str.

(** Lines 364-369. *)
Definition find_all_skills (fs : FileSystem) (base_path : Path) : list Path :=
  map parent (rglob fs base_path (py "SKILL.md")).

(** Lines 450-456 of [main]: the skills to validate. *)
Definition skills_of (fs : FileSystem) (args : Args) : list Path :=
  if args_all args then find_all_skills fs (args_path args)
  else [args_path args].

(** Lines 459-465 of [main]: the loop, with what it has printed so far; an
    exception that leaves [validate_skill] ends it. *)
Fixpoint main_loop (fs : FileSystem) (args : Args) (skills : list Path)
    (out : list str) (results : list ValidationResult)
  : list str * Result (list ValidationResult) :=
  match skills with
  | [] => (out, Ok results)
  | skill_path :: more =>
      match validate_skill safe_load fs skill_path with
      | Raise e => (out, Raise e)
      | Ok result =>
          main_loop fs args more
            (if args_json args then out
             else out ++ print_result result (args_verbose args))
            (results ++ [result])
      end
  end.

(** Lines 446-508 of [main], from the parsed command line on: what is
    printed, one element for each call of [print], and how it ends. *)
Definition main (fs : FileSystem) (args : Args) : list str * Outcome :=
  let path := args_path args in
  let skills := skills_of fs args in
  if args_all args && negb (nonempty skills) then
    ([py "No skills found under " ++ path], Exit 1)
  else
    match main_loop fs args skills [] [] with
    | (out, Raise e) => (out, Uncaught e)
    | (out, Ok results) =>
        let valid_count := valid_count results in
        let total_count := total_count results in
        let status := if valid_count =? total_count then 0%Z else 1%Z in
        if args_json args then
          match json_dumps (output_json results) with
          | Ok text => (out ++ [text], Exit status)
          | Raise e => (out, Uncaught e)
          end
        else
          let out1 :=
            out ++ [NL :: repeat "="%char 50;
                    py "SUMMARY: " ++ str_of_nat valid_count ++ py "/" ++
                    str_of_nat total_count ++ py " skills valid"] in
          if valid_count <? total_count then
            (out1 ++ [py "Run with --verbose for more details"], Exit 1)
          else
            (out1 ++ [py "All skills passed validation! " ++ CHECK_MARK],
             Exit status)
    end.

End Main.

(* ================================================================== *)
(** ** The skill initializer: names and keywords ([init-skill.py]) *)
(* ================================================================== *)

(** [s.replace(old, new)] for single characters *)
Definition replace_char (old new : ascii) (s : str) : str :=
  map (fun c => if Ascii.eqb c old then new else c) s.

(** [s.split()]: the runs of characters between whitespace, none empty. *)
Fixpoint split_whitespace (s : str) : list str :=
  match s with
  | [] => []
  | c :: s' =>
      if is_space c then split_whitespace s'
      else
        match s' with
        | [] => [[c]]
        | d :: _ =>
            if is_space d then [c] :: split_whitespace s'
            else match split_whitespace s' with
                 | w :: ws => (c :: w) :: ws
                 | [] => [[c]]
                 end
        end
  end.

(** [s.capitalize()], on code points below 128. *)
Definition capitalize (s : str) : str :=
  match s with
  | [] => []
  | c :: s' => upper_char c :: lower s'
  end.

(** Lines 192-194 of [init-skill.py]. *)
Definition to_title_case (name : str) : str :=
  join (py " ") (map capitalize (split_whitespace (replace_char "-" " " name))).

(** What [create_skill] computes from its arguments before it writes
    (lines 200-201 and 225-229): the fields of the two templates. *)
Record SkillFields : Type := mkFields {
  skill_name : str;
  skill_title : str;
  description : str;
  keywords : str;
  purpose : str
}.

Definition skill_fields (name : str) (description : option str) : SkillFields :=
  let skill_name := replace_char " " "-" (lower name) in
  let skill_title := to_title_case skill_name in
  {| skill_name := skill_name;
     skill_title := skill_title;
     description :=
       match description with
       | Some (c :: d) => c :: d
       | _ => py "Description for " ++ skill_title ++ py " skill. Customize this."
       end;
     keywords := join (py ", ") (split "-" skill_name);
     purpose := py "Provide " ++ lower skill_title ++ py " functionality" |}.

(* ================================================================== *)
(** ** Vocabulary of the statements about the report and the rules *)
(* ================================================================== *)

(** A result that carries an error finding. *)
Definition has_error (r : ValidationResult) : bool := existsb is_error (issues r).

Definition any_finding (i : ValidationIssue) : bool := true.

(** [l1] is [l2] with some elements left out. *)
Inductive subseq {A : Type} : list A -> list A -> Prop :=
| subseq_nil : subseq [] []
| subseq_skip x l1 l2 : subseq l1 l2 -> subseq l1 (x :: l2)
| subseq_keep x l1 l2 : subseq l1 l2 -> subseq (x :: l1) (x :: l2).

(** The last lines of the text report. *)
Definition summary_lines (results : list ValidationResult) : list str :=
  [ NL :: repeat "="%char 50;
    py "SUMMARY: " ++ str_of_nat (valid_count results) ++ py "/" ++
    str_of_nat (total_count results) ++ py " skills valid";
    if existsb has_error results
    then py "Run with --verbose for more details"
    else py "All skills passed validation! " ++ CHECK_MARK ].

Definition is_info (i : ValidationIssue) : bool := Severity_eqb (severity i) INFO.

(** The finding for a required section that no heading names. *)
Definition missing_section (section : str) : ValidationIssue :=
  mkIssue ERROR (py "Missing required section: '## " ++ section ++ py "'")
    (py "body")
    (Some (py "Add a '## " ++ section ++ py "' section to the skill")).

(** The two findings of the guidelines rule. *)
Definition missing_do : ValidationIssue :=
  mkIssue INFO
    (py "Guidelines section missing '### DO " ++ CHECK_MARK ++ py "' subsection")
    (py "section.Guidelines") None.

Definition missing_dont : ValidationIssue :=
  mkIssue INFO
    (py "Guidelines section missing '### DON'T " ++ CROSS_MARK ++ py "' subsection")
    (py "section.Guidelines") None.

(** [sub] occurs in [s]. *)
Definition occurs_in (sub s : str) : Prop := exists pre post, s = pre ++ sub ++ post.

(** A name the name rule accepts: a run of lowercase letters, digits and
    dashes, with at most a line break after it. *)
Definition kebab_name (s : str) : Prop :=
  exists w, w <> [] /\ forallb kebab_char w = true /\ (s = w \/ s = w ++ [NL]).

(** A run of digits. *)
Definition digits (w : str) : Prop := w <> [] /\ forallb is_digit w = true.

(** A version the version rule accepts: three runs of digits with dots
    between them, with at most a line break after them. *)
Definition semver (s : str) : Prop :=
  exists a b c, digits a /\ digits b /\ digits c /\
    (s = a ++ py "." ++ b ++ py "." ++ c \/
     s = a ++ py "." ++ b ++ py "." ++ c ++ [NL]).

(** The findings of the name rule and of the version rule. *)
Definition name_warning (name : str) : ValidationIssue :=
  mkIssue WARNING
    (py "Skill name '" ++ name ++
     py "' should be kebab-case (lowercase with dashes)")
    (py "frontmatter.name")
    (Some (py "Use format like 'my-skill-name'")).

Definition version_warning (version : str) : ValidationIssue :=
  mkIssue WARNING
    (py "Version '" ++ version ++ py "' should follow semver format (x.y.z)")
    (py "frontmatter.version")
    (Some (py "Use format like '1.0.0'")).

(** A word of a skill name: lowercase letters and digits, at least one. *)
Definition name_word (w : str) : Prop :=
  w <> [] /\ forallb (fun c => is_lower c || is_digit c) w = true.

(** A character of a name given to the initializer that its normalisation
    turns into a character of a kebab-case name. *)
Definition name_char (c : ascii) : bool :=
  is_upper c || is_lower c || is_digit c ||
  Ascii.eqb c " " || Ascii.eqb c "-".

(** A character that is neither whitespace nor a dash. *)
Definition plain (c : ascii) : bool := negb (is_space c) && negb (Ascii.eqb c "-").

(** The findings of the two rules on the presence of metadata fields. *)
Definition missing_field (field : str) : ValidationIssue :=
  mkIssue ERROR (py "Missing required frontmatter field: " ++ field)
    (py "frontmatter")
    (Some (py "Add '" ++ field ++ py ":' to the YAML frontmatter")).

Definition missing_recommended (field : str) : ValidationIssue :=
  mkIssue WARNING (py "Missing recommended field: " ++ field)
    (py "frontmatter")
    (Some (py "Consider adding '" ++ field ++
           py ":' for better skill discoverability")).

(** The field is there and its value is not falsy. *)
Definition has_value (f : Dict PyVal) (field : str) : bool :=
  match dict_get field f with
  | Some v => py_truthy v
  | None => false
  end.

(** A phase heading starts [t]: three hashes, any whitespace, and the word
    in any case of letters. *)
Definition phase_at (t : str) : bool :=
  startswith (py "###") t &&
  startswith (py "phase") (lower (lstrip (skipn 3 t))).

(** The text from each offset on, the end included. *)
Fixpoint suffixes (s : str) : list str :=
  s :: match s with
       | [] => []
       | _ :: s' => suffixes s'
       end.

(** The finding of the process rule. *)
Definition few_phases (phase_count : nat) : ValidationIssue :=
  mkIssue INFO
    (py "Process section has " ++ str_of_nat phase_count ++
     py " phases, consider adding more structure")
    (py "section.Process") None.

(** Any character but the hash. *)
Definition not_hash (c : ascii) : bool := negb (Ascii.eqb "#" c).

(** A stored section with a title, both title and content trimmed. *)
Definition normal_section (kv : str * str) : Prop :=
  fst kv <> [] /\ strip (fst kv) = fst kv /\ strip (snd kv) = snd kv.

(** What the keyword rule stores in the metadata of the result. *)
Definition keywords_entry (f : Dict PyVal) : Dict PyVal :=
  match dict_get (py "description") f with
  | Some (PStr desc) => [(py "keywords", PList (map PStr (extract_keywords desc)))]
  | _ => []
  end.

(** The value under [key] is a string, or there is none. *)
Definition string_or_absent (key : str) (f : Dict PyVal) : bool :=
  match dict_get key f with
  | Some (PStr _) | None => true
  | Some _ => false
  end.

(** The value under [key] has a [str] text, or there is none. *)
Definition printable_or_absent (key : str) (f : Dict PyVal) : bool :=
  match dict_get key f with
  | Some v => match py_str v with Ok _ => true | Raise _ => false end
  | None => true
  end.

(** The [token_estimate] is no mapping, or lacks one of the three keys, or
    holds a number under each. *)
Definition estimate_of_numbers (f : Dict PyVal) : bool :=
  match dict_get (py "token_estimate") f with
  | Some (PDict d) =>
      negb (forallb (fun key => dict_mem key d) TOKEN_KEYS) ||
      forallb (fun key => match number_at key d with
                          | Some _ => true
                          | None => false
                          end) TOKEN_KEYS
  | _ => true
  end.

(** Metadata of the types the rules expect. *)
Definition typed_metadata (f : Dict PyVal) : bool :=
  string_or_absent (py "name") f &&
  string_or_absent (py "description") f &&
  printable_or_absent (py "version") f &&
  estimate_of_numbers f.

(** A code point below 128. *)
Definition is_ascii (c : ascii) : bool := nat_of_ascii c <? 128.

(** ** Sample command lines and names *)

(** A file system search that finds nothing, a parent that is the path
    itself and [repr] for [json.dumps]: the statements hold for any. *)
Definition sample_rglob (fs : FileSystem) (base_path : Path) (name : str)
  : list Path := [].
Definition sample_parent (p : Path) : Path := p.
Definition sample_dumps (v : PyVal) : Result str := py_repr v.

Definition sample_main : FileSystem -> Args -> list str * Outcome :=
  main sample_decoder sample_rglob sample_parent sample_dumps.

(** One skill, [skills/missing], with and without [--json]. *)
Definition args_json_missing : Args :=
  mkArgs (py "skills/missing") false false false true.
Definition args_text_missing : Args :=
  mkArgs (py "skills/missing") false false false false.

Definition result_missing : ValidationResult :=
  mkResult (py "skills/missing") false [missing_file (py "skills/missing")] [].

(** A result with one informational finding. *)
Definition result_info : ValidationResult :=
  add_issue (new_result (py "skills/good")) INFO
    (py "No 'scripts/' directory (optional)") (py "skills/good")
    (Some (py "Add scripts/ for helper utilities if needed")).

(** A document put together from a metadata block and a body. *)
Definition sample_block : str := NL :: good_block ++ [NL].
Definition sample_body : str := NL :: process_body.

(** The words of the name [my-skill]. *)
Definition sample_words : list str := [py "my"; py "skill"].

(** The fields of [good_metadata] and the body of [doc_good]. *)
Definition good_fields : Dict PyVal :=
  match good_metadata with
  | PDict f => f
  | _ => []
  end.

Definition good_body : str :=
  text [ "## When to Use"%string; "Always."%string;
         "## Process"%string; "### Phase 1"%string; "### Phase 2"%string;
         "## Guidelines"%string; "### DO"%string; "### DON'T"%string ].

(* ================================================================== *)
(** * Theorems *)
(* ================================================================== *)

(** ** The result model *)

Lemma add_issue_issues r sev msg loc sugg :
  issues (add_issue r sev msg loc sugg) = issues r ++ [mkIssue sev msg loc sugg].
Proof. reflexivity. Qed.

Lemma add_issue_valid r sev msg loc sugg :
  valid (add_issue r sev msg loc sugg) = valid r && negb (Severity_eqb sev ERROR).
Proof.
  unfold add_issue; simpl.
  destruct (Severity_eqb sev ERROR), (valid r); reflexivity.
Qed.

Lemma Severity_eqb_eq a b : Severity_eqb a b = true <-> a = b.
Proof. destruct a, b; simpl; split; intros H; congruence. Qed.

Lemma add_all_app r l1 l2 : add_all r (l1 ++ l2) = add_all (add_all r l1) l2.
Proof. unfold add_all. apply fold_left_app. Qed.

Lemma add_all_issues l : forall r, issues (add_all r l) = issues r ++ l.
Proof.
  induction l as [|i l IH]; intros r; simpl.
  - now rewrite app_nil_r.
  - rewrite IH, add_issue_issues, <- app_assoc. now destruct i.
Qed.

Lemma add_all_valid l : forall r,
  valid (add_all r l) = valid r && negb (existsb is_error l).
Proof.
  induction l as [|i l IH]; intros r; simpl.
  - now rewrite andb_true_r.
  - rewrite IH, add_issue_valid. unfold is_error.
    destruct (valid r), (Severity_eqb (severity i) ERROR); reflexivity.
Qed.

(** C3.  An error finding makes [valid] false, whatever [add_issue] calls
    follow; a warning or an info leaves [valid] as it was; and a result that
    is not valid stays so under every sequence of [add_issue] calls. *)
Theorem valid_is_one_way : forall (r : ValidationResult) (ops : list ValidationIssue),
  (forall msg loc sugg,
      valid (add_issue r ERROR msg loc sugg) = false /\
      valid (add_all (add_issue r ERROR msg loc sugg) ops) = false) /\
  (forall sev msg loc sugg,
      sev <> ERROR -> valid (add_issue r sev msg loc sugg) = valid r) /\
  (valid r = false -> valid (add_all r ops) = false).
Proof.
  intros r ops. repeat split.
  - rewrite add_all_valid. reflexivity.
  - intros sev msg loc sugg Hsev. rewrite add_issue_valid.
    destruct (Severity_eqb sev ERROR) eqn:E.
    + apply Severity_eqb_eq in E. contradiction.
    + apply andb_true_r.
  - intros Hr. rewrite add_all_valid, Hr. reflexivity.
Qed.

(** ** Rules only append *)

Section Appended.

Variable P : ValidationIssue -> bool.

Lemma appended_refl r : appended P r r.
Proof.
  exists []. rewrite app_nil_r. simpl. now rewrite andb_true_r.
Qed.

Lemma appended_trans r1 r2 r3 :
  appended P r1 r2 -> appended P r2 r3 -> appended P r1 r3.
Proof.
  intros (l1 & I1 & F1 & S1 & V1) (l2 & I2 & F2 & S2 & V2).
  exists (l1 ++ l2). repeat split.
  - now rewrite I2, I1, app_assoc.
  - rewrite forallb_app, F1, F2. reflexivity.
  - congruence.
  - rewrite V2, V1, existsb_app, negb_orb. now rewrite andb_assoc.
Qed.

Lemma appended_add_issue r sev msg loc sugg :
  P (mkIssue sev msg loc sugg) = true ->
  appended P r (add_issue r sev msg loc sugg).
Proof.
  intros HP. exists [mkIssue sev msg loc sugg]. repeat split.
  - simpl. now rewrite HP.
  - rewrite add_issue_valid. unfold is_error. simpl. now rewrite orb_false_r.
Qed.

Lemma appended_set_metadata r key v : appended P r (set_metadata r key v).
Proof.
  exists []. simpl. rewrite app_nil_r, andb_true_r. repeat split.
Qed.

End Appended.

Lemma appended_weaken (P Q : ValidationIssue -> bool) r r' :
  (forall i, P i = true -> Q i = true) -> appended P r r' -> appended Q r r'.
Proof.
  intros HPQ (l & I & F & S & V). exists l. repeat split; auto.
  rewrite forallb_forall in *. auto.
Qed.

Lemma from_rule_from_rules rule rules i :
  In rule rules -> from_rule rule i = true -> from_rules rules i = true.
Proof.
  intros Hin H. unfold from_rules. apply existsb_exists. eauto.
Qed.

(** Closes a goal [appended P r r'] where [r'] is [r] after a few calls of
    [add_issue] and [set_metadata] with messages that start as the source
    writes them. *)
Ltac appended_steps :=
  repeat first
    [ apply appended_refl
    | apply appended_set_metadata
    | apply appended_add_issue; reflexivity
    | eapply appended_trans;
      [ | first [ apply appended_add_issue; reflexivity
                | apply appended_set_metadata ] ] ].

Lemma check_length_appended n skill_md r :
  appended (from_rule RLength) r (check_length n skill_md r).
Proof.
  unfold check_length.
  destruct (n <? 500)%Z; [|destruct (50000 <? n)%Z]; appended_steps.
Qed.

Lemma validate_structure_appended fs skill_path r :
  appended (from_rules [RMissingFile; ROptionalDirectory]) r
    (fst (validate_structure fs skill_path r)).
Proof.
  unfold validate_structure.
  destruct (negb (path_exists fs (path_join skill_path (py "SKILL.md"))));
    [simpl; appended_steps|].
  destruct (negb (path_exists fs (path_join skill_path (py "references"))));
    destruct (negb (path_exists fs (path_join skill_path (py "scripts"))));
    simpl; appended_steps.
Qed.

Lemma check_required_sections_appended names r :
  appended (from_rules SECTION_RULES) r (check_required_sections names r).
Proof.
  unfold check_required_sections, REQUIRED_SECTIONS. simpl.
  repeat match goal with
         | |- context [section_found ?s names] => destruct (section_found s names)
         end; appended_steps.
Qed.

Lemma check_recommended_sections_appended names r :
  appended (from_rules SECTION_RULES) r (check_recommended_sections names r).
Proof.
  unfold check_recommended_sections, RECOMMENDED_SECTIONS. simpl.
  repeat match goal with
         | |- context [section_found ?s names] => destruct (section_found s names)
         end; appended_steps.
Qed.

Lemma check_process_appended sections r :
  appended (from_rules SECTION_RULES) r (check_process sections r).
Proof.
  unfold check_process.
  destruct (first_section_with (py "process") sections) as [[|c t]|];
    try apply appended_refl.
  destruct (_ <? 2); appended_steps.
Qed.

Lemma check_guidelines_appended sections r :
  appended (from_rules SECTION_RULES) r (check_guidelines sections r).
Proof.
  unfold check_guidelines.
  destruct (first_section_with (py "guidelines") sections) as [[|c t]|];
    try apply appended_refl.
  destruct (found true DO_RE (c :: t)), (found true DONT_RE (c :: t));
    appended_steps.
Qed.

Lemma validate_sections_appended sections r :
  appended (from_rules SECTION_RULES) r (validate_sections sections r).
Proof.
  unfold validate_sections.
  eapply appended_trans; [|apply check_guidelines_appended].
  eapply appended_trans; [|apply check_process_appended].
  eapply appended_trans; [|apply check_recommended_sections_appended].
  apply check_required_sections_appended.
Qed.

(** Splits a hypothesis [x <- c ;; k = Ok r] into the result of [c] and the
    rest of the computation. *)
Ltac bind_inv H :=
  match type of H with
  | bind ?c _ = Ok _ =>
      let E := fresh "E" in
      destruct c eqn:E; simpl in H; [|discriminate H]
  end.

Lemma bind_ok {A B : Type} (c : Result A) (k : A -> Result B) (b : B) :
  bind c k = Ok b -> exists a, c = Ok a /\ k a = Ok b.
Proof. destruct c; simpl; intros H; [eauto|discriminate]. Qed.

Lemma for_each_appended {A : Type} (P : ValidationIssue -> bool)
    (body : ValidationResult -> A -> Result ValidationResult) (l : list A) :
  (forall a, In a l -> forall s s', body s a = Ok s' -> appended P s s') ->
  forall s s', for_each l body s = Ok s' -> appended P s s'.
Proof.
  induction l as [|a l IH]; intros Hbody s s' H; simpl in H.
  - injection H as <-. apply appended_refl.
  - apply bind_ok in H as (s1 & H1 & H).
    eapply appended_trans.
    + eapply Hbody; [now left|eassumption].
    + apply IH; [|assumption]. intros a' Hin. apply Hbody. now right.
Qed.

Lemma check_required_appended fm r r' :
  check_required fm r = Ok r' -> appended (from_rules FRONTMATTER_RULES) r r'.
Proof.
  apply for_each_appended. intros field Hin s s' H.
  bind_inv H. injection H as <-.
  simpl in Hin. destruct Hin as [<-|[<-|[<-|[]]]]; destruct a; appended_steps.
Qed.

Lemma check_recommended_appended fm r r' :
  check_recommended fm r = Ok r' -> appended (from_rules FRONTMATTER_RULES) r r'.
Proof.
  apply for_each_appended. intros field Hin s s' H.
  bind_inv H. injection H as <-.
  simpl in Hin. destruct Hin as [<-|[<-|[<-|[]]]]; destruct a; appended_steps.
Qed.

Lemma check_name_appended fm r r' :
  check_name fm r = Ok r' -> appended (from_rules FRONTMATTER_RULES) r r'.
Proof.
  unfold check_name. intros H. bind_inv H.
  destruct a; [|injection H as <-; apply appended_refl].
  bind_inv H. bind_inv H.
  destruct (re_match false NAME_RE a0); injection H as <-; appended_steps.
Qed.

Lemma check_keywords_appended fm r r' :
  check_keywords fm r = Ok r' -> appended (from_rules FRONTMATTER_RULES) r r'.
Proof.
  unfold check_keywords. intros H. bind_inv H.
  destruct a; [|injection H as <-; apply appended_refl].
  bind_inv H. bind_inv H.
  destruct (_ <? MIN_KEYWORDS); injection H as <-; appended_steps.
Qed.

Lemma check_version_appended fm r r' :
  check_version fm r = Ok r' -> appended (from_rules FRONTMATTER_RULES) r r'.
Proof.
  unfold check_version. intros H. bind_inv H.
  destruct a; [|injection H as <-; apply appended_refl].
  bind_inv H. bind_inv H.
  destruct (re_match false VERSION_RE a0); injection H as <-;
    appended_steps.
Qed.

Lemma check_token_mapping_appended d r r' :
  check_token_mapping d r = Ok r' -> appended (from_rules FRONTMATTER_RULES) r r'.
Proof.
  unfold check_token_mapping, TOKEN_KEYS. simpl. intros H.
  destruct (dict_mem (py "min") d), (dict_mem (py "typical") d),
    (dict_mem (py "max") d); simpl in H;
    try (injection H as <-; appended_steps).
  bind_inv H. injection H as <-. destruct a; appended_steps.
Qed.

Lemma check_token_estimate_appended fm r r' :
  check_token_estimate fm r = Ok r' -> appended (from_rules FRONTMATTER_RULES) r r'.
Proof.
  unfold check_token_estimate. intros H. bind_inv H.
  destruct a; [|injection H as <-; apply appended_refl].
  bind_inv H.
  destruct a; try (injection H as <-; apply appended_refl).
  now apply check_token_mapping_appended in H.
Qed.

(** Whenever [validate_frontmatter] returns, it has appended findings of its
    six rules to the result and changed nothing else but the metadata. *)
Lemma validate_frontmatter_appended fm r r' :
  validate_frontmatter fm r = Ok r' -> appended (from_rules FRONTMATTER_RULES) r r'.
Proof.
  unfold validate_frontmatter. intros H.
  apply bind_ok in H as (r1 & H1 & H). apply check_required_appended in H1.
  apply bind_ok in H as (r2 & H2 & H). apply check_recommended_appended in H2.
  apply bind_ok in H as (r3 & H3 & H). apply check_name_appended in H3.
  apply bind_ok in H as (r4 & H4 & H). apply check_keywords_appended in H4.
  apply bind_ok in H as (r5 & H5 & H). apply check_version_appended in H5.
  apply check_token_estimate_appended in H.
  repeat (eapply appended_trans; [eassumption|]). apply appended_refl.
Qed.

(** ** The token-estimate rule *)

Lemma py_le_numbers a b x y :
  as_number a = Some x -> as_number b = Some y -> py_le a b = Ok (x <=? y)%Z.
Proof.
  destruct a, b; simpl; intros Ha Hb; try discriminate;
    injection Ha as <-; injection Hb as <-; reflexivity.
Qed.

Lemma number_at_get key d n :
  number_at key d = Some n ->
  exists v, dict_get key d = Some v /\ as_number v = Some n.
Proof.
  unfold number_at. destruct (dict_get key d); [eauto|discriminate].
Qed.

Lemma token_order_numbers d lo mid hi :
  number_at (py "min") d = Some lo ->
  number_at (py "typical") d = Some mid ->
  number_at (py "max") d = Some hi ->
  token_order (PDict d) = Ok ((lo <=? mid)%Z && (mid <=? hi)%Z).
Proof.
  intros Hlo Hmid Hhi.
  apply number_at_get in Hlo as (vlo & Glo & Nlo).
  apply number_at_get in Hmid as (vmid & Gmid & Nmid).
  apply number_at_get in Hhi as (vhi & Ghi & Nhi).
  unfold token_order, py_getitem. rewrite Glo, Gmid. simpl.
  rewrite (py_le_numbers _ _ Nlo Nmid). simpl.
  destruct (lo <=? mid)%Z; [|reflexivity].
  rewrite Ghi. simpl. apply (py_le_numbers _ _ Nmid Nhi).
Qed.

Lemma check_token_estimate_mapping f d r :
  dict_get (py "token_estimate") f = Some (PDict d) ->
  check_token_estimate (PDict f) r = check_token_mapping d r.
Proof.
  intros H. unfold check_token_estimate, py_contains, py_getitem, dict_mem.
  rewrite H. reflexivity.
Qed.

(** ** Findings by rule *)

Lemma Rule_eqb_eq a b : Rule_eqb a b = true <-> a = b.
Proof. destruct a, b; simpl; split; intros H; congruence. Qed.

Lemma from_rule_unique a b i :
  from_rule a i = true -> from_rule b i = true -> a = b.
Proof.
  unfold from_rule. destruct (rule_of i); [|discriminate].
  intros Ha Hb. apply Rule_eqb_eq in Ha, Hb. congruence.
Qed.

Lemma findings_of_app rule l1 l2 :
  findings_of rule (l1 ++ l2) = findings_of rule l1 ++ findings_of rule l2.
Proof. apply filter_app. Qed.

Lemma findings_of_all rule l :
  forallb (from_rule rule) l = true -> findings_of rule l = l.
Proof.
  induction l as [|i l IH]; simpl; [reflexivity|].
  intros H. apply andb_true_iff in H as [Hi Hl].
  rewrite Hi, IH; auto.
Qed.

Lemma findings_of_none rule rules l :
  forallb (from_rules rules) l = true -> ~ In rule rules ->
  findings_of rule l = [].
Proof.
  intros Hall Hnot. induction l as [|i l IH]; simpl; [reflexivity|].
  simpl in Hall. apply andb_true_iff in Hall as [Hi Hl].
  destruct (from_rule rule i) eqn:E; [|auto].
  exfalso. apply Hnot. unfold from_rules in Hi.
  apply existsb_exists in Hi as (rule' & Hin & Hrule').
  now rewrite (from_rule_unique _ _ _ E Hrule').
Qed.

(** ** One document *)

Section Document.

Variable safe_load : str -> Result PyVal.

Lemma validate_skill_reads fs skill_path content :
  reads fs skill_path content ->
  validate_skill safe_load fs skill_path =
    validate_content safe_load (path_join skill_path (py "SKILL.md")) content
      (after_structure fs skill_path).
Proof.
  intros (Hdir & Hex & Hread).
  unfold validate_skill, after_structure, validate_structure, new_result.
  rewrite Hdir, Hex. simpl. rewrite Hread. reflexivity.
Qed.

Lemma after_structure_appended fs skill_path :
  appended (from_rules [RMissingFile; ROptionalDirectory])
    (new_result skill_path) (after_structure fs skill_path).
Proof. apply validate_structure_appended. Qed.

(** The steps of [validate_content], when it returns. *)
Lemma validate_content_steps skill_md content r r' :
  validate_content safe_load skill_md content r = Ok r' ->
  exists frontmatter body r1,
    parse_frontmatter safe_load content = Ok (frontmatter, body) /\
    (if negb (py_truthy frontmatter)
     then r1 = add_all r [no_frontmatter skill_md]
     else exists r0, validate_frontmatter frontmatter r = Ok r0 /\
                     r1 = set_metadata r0 (py "frontmatter") frontmatter) /\
    r' = check_length (Z.of_nat (length content)) skill_md
           (set_metadata (validate_sections (extract_sections body) r1)
              (py "sections") (PList (map PStr (dict_keys (extract_sections body))))).
Proof.
  unfold validate_content. intros H.
  apply bind_ok in H as ([frontmatter body] & Hparse & H). simpl in H.
  apply bind_ok in H as (r1 & H1 & H). injection H as <-.
  exists frontmatter, body, r1. repeat split; [assumption|].
  destruct (negb (py_truthy frontmatter)).
  - now injection H1 as <-.
  - apply bind_ok in H1 as (r0 & H0 & H1). injection H1 as <-. eauto.
Qed.

(** Every finding of a document that [validate_content] returns for comes
    from the metadata rules, the section rules or the length rule, in that
    order, and the length rule comes last. *)
Lemma validate_content_appended skill_md content r r' :
  validate_content safe_load skill_md content r = Ok r' ->
  exists r3,
    appended (from_rules (RNoFrontmatter :: FRONTMATTER_RULES ++ SECTION_RULES)) r r3 /\
    r' = check_length (Z.of_nat (length content)) skill_md r3.
Proof.
  intros H. apply validate_content_steps in H as (fm & body & r1 & _ & H1 & ->).
  exists (set_metadata (validate_sections (extract_sections body) r1)
            (py "sections") (PList (map PStr (dict_keys (extract_sections body))))).
  split; [|reflexivity].
  eapply appended_trans; [|apply appended_set_metadata].
  apply appended_trans with r1.
  - destruct (negb (py_truthy fm)).
    + subst r1. simpl. appended_steps.
    + destruct H1 as (r0 & H0 & ->).
      eapply appended_trans; [|apply appended_set_metadata].
      apply validate_frontmatter_appended in H0.
      eapply appended_weaken; [|exact H0].
      intros i Hi. unfold from_rules in *. simpl in *.
      rewrite !orb_false_r in Hi.
      repeat (apply orb_true_iff in Hi as [Hi|Hi]; [now rewrite Hi, ?orb_true_r|]).
      now rewrite Hi, ?orb_true_r.
  - eapply appended_weaken; [|apply validate_sections_appended].
    intros i Hi. unfold from_rules in *. simpl in *.
    rewrite !orb_false_r in Hi.
    repeat (apply orb_true_iff in Hi as [Hi|Hi]; [now rewrite Hi, ?orb_true_r|]).
    now rewrite Hi, ?orb_true_r.
Qed.

(** The findings of the length rule on a document that was read and
    validated. *)
Lemma length_findings :
  forall (fs : FileSystem) (skill_path : Path) (content : str)
         (r' : ValidationResult),
    reads fs skill_path content ->
    validate_skill safe_load fs skill_path = Ok r' ->
    let n := Z.of_nat (length content) in
    let skill_md := path_join skill_path (py "SKILL.md") in
    findings_of RLength (issues r') =
      if (n <? 500)%Z then [too_short n skill_md]
      else if (50000 <? n)%Z then [too_long n skill_md]
      else [].
Proof.
  intros fs skill_path content r' Hreads Hval n skill_md.
  rewrite (validate_skill_reads Hreads) in Hval.
  apply validate_content_appended in Hval as (r3 & (l3 & I3 & F3 & _) & ->).
  destruct (after_structure_appended fs skill_path) as (l0 & I0 & F0 & _).
  assert (Hbefore : findings_of RLength (issues r3) = []).
  { rewrite I3, I0. simpl. rewrite findings_of_app.
    rewrite (findings_of_none RLength _ _ F0), (findings_of_none RLength _ _ F3).
    - reflexivity.
    - simpl. intuition discriminate.
    - simpl. intuition discriminate. }
  fold n skill_md. unfold check_length.
  destruct (n <? 500)%Z; [|destruct (50000 <? n)%Z].
  - rewrite add_issue_issues, findings_of_app, Hbefore. reflexivity.
  - rewrite add_issue_issues, findings_of_app, Hbefore. reflexivity.
  - assumption.
Qed.


(** ** Documents without metadata *)

Lemma parse_frontmatter_no_delimiter content :
  startswith (py "---") content = false ->
  parse_frontmatter safe_load content = Ok (PDict [], content).
Proof. intros H. unfold parse_frontmatter. now rewrite H. Qed.

Lemma parse_frontmatter_unclosed content :
  index (py "---") content 3 = None ->
  parse_frontmatter safe_load content = Ok (PDict [], content).
Proof.
  intros H. unfold parse_frontmatter. rewrite H.
  now destruct (negb (startswith (py "---") content)).
Qed.

Lemma parse_frontmatter_delimited content block body :
  delimited content block body ->
  parse_frontmatter safe_load content =
    match safe_load block with
    | Ok frontmatter =>
        Ok (if py_truthy frontmatter then frontmatter else PDict [], body)
    | Raise ValueError | Raise YAMLError => Ok (PDict [], content)
    | Raise e => Raise e
    end.
Proof.
  intros (Hstart & e & He & -> & ->). unfold parse_frontmatter.
  rewrite Hstart, He. reflexivity.
Qed.

Lemma parse_frontmatter_decode_fails content block body e :
  delimited content block body -> safe_load block = Raise e ->
  parse_frontmatter safe_load content =
    if caught e then Ok (PDict [], content) else Raise e.
Proof.
  intros Hd Hf. rewrite (parse_frontmatter_delimited Hd), Hf.
  destruct e; reflexivity.
Qed.

(** An exception of [parse_frontmatter] is one the decoder raised on the
    block and line 86 does not catch. *)
Lemma parse_frontmatter_raises content e :
  parse_frontmatter safe_load content = Raise e ->
  caught e = false /\
  exists block body, delimited content block body /\ safe_load block = Raise e.
Proof.
  unfold parse_frontmatter.
  destruct (startswith (py "---") content) eqn:Hstart; [|discriminate].
  cbn [negb]. destruct (index (py "---") content 3) as [end_index|] eqn:Hi;
    [|discriminate].
  destruct (safe_load (strip (slice content 3 end_index))) as [v|e'] eqn:E;
    [discriminate|].
  intros H. assert (He : caught e' = false /\ e' = e).
  { destruct e'; try discriminate H; injection H as <-; now split. }
  destruct He as [Hc <-]. split; [assumption|].
  exists (strip (slice content 3 end_index)),
    (strip (slice_from content (end_index + 3))).
  split; [|assumption]. split; [assumption|]. exists end_index. now repeat split.
Qed.

(** What [validate_content] raises comes from the splitter or from the
    metadata rules. *)
Lemma validate_content_raises skill_md content r e :
  validate_content safe_load skill_md content r = Raise e ->
  parse_frontmatter safe_load content = Raise e \/
  exists frontmatter body,
    parse_frontmatter safe_load content = Ok (frontmatter, body) /\
    py_truthy frontmatter = true /\
    validate_frontmatter frontmatter r = Raise e.
Proof.
  unfold validate_content.
  destruct (parse_frontmatter safe_load content) as [[fm body]|e'] eqn:E;
    cbn [bind fst snd].
  - destruct (py_truthy fm) eqn:T; cbn [negb bind]; [|discriminate].
    destruct (validate_frontmatter fm r) eqn:V; cbn [bind]; [discriminate|].
    intros H. injection H as <-. right. eauto.
  - intros H. injection H as <-. now left.
Qed.

(** An exception of the splitter leaves [validate_skill]. *)
Lemma validate_skill_parse_raises fs skill_path content e :
  reads fs skill_path content ->
  parse_frontmatter safe_load content = Raise e ->
  validate_skill safe_load fs skill_path = Raise e.
Proof.
  intros Hreads Hparse. rewrite (validate_skill_reads Hreads).
  unfold validate_content. now rewrite Hparse.
Qed.

Lemma parse_frontmatter_falsy content block body v :
  delimited content block body -> safe_load block = Ok v -> py_truthy v = false ->
  parse_frontmatter safe_load content = Ok (PDict [], body).
Proof.
  intros Hd Hv Hf. rewrite (parse_frontmatter_delimited Hd), Hv, Hf. reflexivity.
Qed.

Lemma validate_sections_metadata sections r :
  metadata (validate_sections sections r) = metadata r.
Proof.
  unfold validate_sections, check_guidelines, check_process,
    check_recommended_sections, check_required_sections.
  repeat match goal with
         | |- context [match ?x with _ => _ end] => destruct x
         end; simpl;
  repeat match goal with
         | |- context [if ?b then _ else _] => destruct b
         end; reflexivity.
Qed.

Lemma check_length_metadata n skill_md r :
  metadata (check_length n skill_md r) = metadata r.
Proof.
  unfold check_length. destruct (n <? 500)%Z; [|destruct (50000 <? n)%Z]; reflexivity.
Qed.

Lemma after_structure_metadata fs skill_path :
  metadata (after_structure fs skill_path) = [].
Proof.
  unfold after_structure, validate_structure.
  repeat match goal with
         | |- context [if ?b then _ else _] => destruct b
         end; reflexivity.
Qed.

(** What [validate_skill] does with a document whose metadata map came out
    empty: one error for the missing metadata, then the section rules on
    [body] and the length rule; [validate_frontmatter] is not called. *)
Lemma validate_skill_without_frontmatter fs skill_path content body :
  reads fs skill_path content ->
  parse_frontmatter safe_load content = Ok (PDict [], body) ->
  let skill_md := path_join skill_path (py "SKILL.md") in
  let sections := extract_sections body in
  validate_skill safe_load fs skill_path =
    Ok (check_length (Z.of_nat (length content)) skill_md
          (set_metadata
             (validate_sections sections
                (add_all (after_structure fs skill_path) [no_frontmatter skill_md]))
             (py "sections") (PList (map PStr (dict_keys sections))))).
Proof.
  intros Hreads Hparse. rewrite (validate_skill_reads Hreads).
  unfold validate_content. rewrite Hparse. reflexivity.
Qed.

(** The findings and the metadata of such a document. *)
Lemma without_frontmatter_findings fs skill_path content body :
  reads fs skill_path content ->
  parse_frontmatter safe_load content = Ok (PDict [], body) ->
  exists r',
    validate_skill safe_load fs skill_path = Ok r' /\
    valid r' = false /\
    findings_of RNoFrontmatter (issues r') =
      [no_frontmatter (path_join skill_path (py "SKILL.md"))] /\
    (forall rule, In rule FRONTMATTER_RULES -> findings_of rule (issues r') = []) /\
    metadata r' =
      [(py "sections", PList (map PStr (dict_keys (extract_sections body))))].
Proof.
  intros Hreads Hparse.
  rewrite (validate_skill_without_frontmatter Hreads Hparse).
  set (skill_md := path_join skill_path (py "SKILL.md")).
  set (sections := extract_sections body).
  set (r1 := add_all (after_structure fs skill_path) [no_frontmatter skill_md]).
  set (r2 := validate_sections sections r1).
  set (r3 := set_metadata r2 (py "sections") _).
  eexists. split; [reflexivity|].
  destruct (after_structure_appended fs skill_path) as (l0 & I0 & F0 & _ & V0).
  destruct (validate_sections_appended sections r1) as (l2 & I2 & F2 & _ & V2).
  destruct (check_length_appended (Z.of_nat (length content)) skill_md r3)
    as (l3 & I3 & F3 & _ & V3).
  assert (Hissues : issues (check_length (Z.of_nat (length content)) skill_md r3)
                    = l0 ++ [no_frontmatter skill_md] ++ l2 ++ l3).
  { rewrite I3. subst r3 r2. simpl. rewrite I2. subst r1. simpl.
    rewrite I0. simpl. now rewrite <- !app_assoc. }
  repeat split.
  - rewrite V3. subst r3 r2. simpl. rewrite V2. subst r1. simpl. reflexivity.
  - rewrite Hissues, !findings_of_app.
    rewrite (findings_of_none RNoFrontmatter _ _ F0),
      (findings_of_none RNoFrontmatter _ _ F2),
      (findings_of_none RNoFrontmatter [RLength] l3).
    + reflexivity.
    + apply forallb_forall. intros i Hi. unfold from_rules. simpl.
      rewrite forallb_forall in F3. now rewrite (F3 i Hi).
    + simpl. intuition discriminate.
    + simpl. intuition discriminate.
    + simpl. intuition discriminate.
  - intros rule Hrule. rewrite Hissues, !findings_of_app.
    rewrite (findings_of_none rule _ _ F0), (findings_of_none rule _ _ F2),
      (findings_of_none rule [RLength] l3),
      (findings_of_none rule [RNoFrontmatter] [no_frontmatter skill_md]).
    + reflexivity.
    + reflexivity.
    + simpl in *. intuition (subst; discriminate).
    + apply forallb_forall. intros i Hi. unfold from_rules. simpl.
      rewrite forallb_forall in F3. now rewrite (F3 i Hi).
    + simpl in *. intuition (subst; discriminate).
    + simpl in *. intuition (subst; discriminate).
    + simpl in *. intuition (subst; discriminate).
  - rewrite check_length_metadata. subst r3. simpl. subst r2.
    rewrite validate_sections_metadata. subst r1. simpl.
    rewrite after_structure_metadata. reflexivity.
Qed.

Lemma findings_of_In rule i l : findings_of rule l = [i] -> In i l.
Proof.
  intros H. assert (Hin : In i (findings_of rule l)) by (rewrite H; now left).
  unfold findings_of in Hin. now apply filter_In in Hin.
Qed.

(** C1, as the code has it.  When the decoder raises on the metadata block
    an exception that the splitter catches ([ValueError] or [YAMLError]),
    the splitter falls back to the empty map and the whole text without
    raising, and [validate_skill] reports the absence by the single error
    "No YAML frontmatter found"; the required-field rule does not run, so no
    required-field finding is made.  Any other exception of the decoder
    leaves the splitter, and [validate_skill], as it is. *)
Theorem decode_failure_is_reported :
  forall (fs : FileSystem) (skill_path : Path) (content block body : str)
         (e : PyExc),
    reads fs skill_path content ->
    delimited content block body ->
    safe_load block = Raise e ->
    if caught e then
      parse_frontmatter safe_load content = Ok (PDict [], content) /\
      exists r',
        validate_skill safe_load fs skill_path = Ok r' /\
        valid r' = false /\
        findings_of RNoFrontmatter (issues r') =
          [no_frontmatter (path_join skill_path (py "SKILL.md"))] /\
        findings_of RRequiredField (issues r') = []
    else
      parse_frontmatter safe_load content = Raise e /\
      validate_skill safe_load fs skill_path = Raise e.
Proof.
  intros fs skill_path content block body e Hreads Hd Hf.
  pose proof (parse_frontmatter_decode_fails Hd Hf) as Hparse.
  destruct (caught e).
  - split; [assumption|].
    destruct (without_frontmatter_findings Hreads Hparse)
      as (r' & Hval & Hvalid & Hno & Hrules & _).
    exists r'. repeat split; try assumption.
    apply Hrules. simpl. auto.
  - split; [assumption|]. exact (validate_skill_parse_raises Hreads Hparse).
Qed.

(** C10.  When the metadata block decodes to a falsy value (nothing, or an
    empty mapping), the splitter returns the empty map with the text after
    the block as body, and [validate_skill] goes on as for a document
    without metadata: it makes the single error "No YAML frontmatter found",
    no finding of any of the six metadata rules, and records neither the
    metadata nor keywords. *)
Theorem empty_frontmatter_is_no_frontmatter :
  forall (fs : FileSystem) (skill_path : Path) (content block body : str)
         (v : PyVal),
    reads fs skill_path content ->
    delimited content block body ->
    safe_load block = Ok v ->
    py_truthy v = false ->
    parse_frontmatter safe_load content = Ok (PDict [], body) /\
    exists r',
      validate_skill safe_load fs skill_path = Ok r' /\
      valid r' = false /\
      findings_of RNoFrontmatter (issues r') =
        [no_frontmatter (path_join skill_path (py "SKILL.md"))] /\
      (forall rule, In rule FRONTMATTER_RULES -> findings_of rule (issues r') = []) /\
      metadata r' =
        [(py "sections", PList (map PStr (dict_keys (extract_sections body))))].
Proof.
  intros fs skill_path content block body v Hreads Hd Hv Hfalsy.
  pose proof (parse_frontmatter_falsy Hd Hv Hfalsy) as Hparse.
  split; [assumption|].
  exact (without_frontmatter_findings Hreads Hparse).
Qed.

(** C4, as the code has it.  For a text that does not begin with the
    delimiter the splitter returns the empty map and the text itself,
    untrimmed, as body, and the validation of such a document holds the
    error for the missing metadata.  When the decoder raises on the block,
    the splitter returns the empty map and the whole text if the exception
    is a [ValueError] or a [YAMLError], and raises the exception itself if
    it is another one; the splitter raises in no other case. *)
Theorem splitter_fallback :
  forall content : str,
    (startswith (py "---") content = false ->
       parse_frontmatter safe_load content = Ok (PDict [], content) /\
       forall fs skill_path,
         reads fs skill_path content ->
         exists r',
           validate_skill safe_load fs skill_path = Ok r' /\
           valid r' = false /\
           In (no_frontmatter (path_join skill_path (py "SKILL.md"))) (issues r')) /\
    (forall block body e,
       delimited content block body ->
       safe_load block = Raise e ->
       parse_frontmatter safe_load content =
         if caught e then Ok (PDict [], content) else Raise e) /\
    (forall e,
       parse_frontmatter safe_load content = Raise e ->
       caught e = false /\
       exists block body,
         delimited content block body /\ safe_load block = Raise e).
Proof.
  intros content. split; [|split].
  - intros Hstart.
    pose proof (parse_frontmatter_no_delimiter content Hstart) as Hparse.
    split; [assumption|]. intros fs skill_path Hreads.
    destruct (without_frontmatter_findings Hreads Hparse)
      as (r' & Hval & Hvalid & Hno & _).
    exists r'. repeat split; try assumption.
    eapply findings_of_In; eassumption.
  - intros block body e. apply parse_frontmatter_decode_fails.
  - apply parse_frontmatter_raises.
Qed.

End Document.

(** C9.  For every document read, whenever [validate_skill] returns, the
    findings of the length rule are exactly one warning when the text has
    fewer than 500 characters (the short message), exactly one when it has
    more than 50000 (the long message), and none otherwise.  It does not
    return for every document: an exception of the splitter or of a
    metadata rule leaves [validate_skill] before the length rule, and the
    document gets no finding at all, as [doc_number], a text of 35
    characters, does. *)
Theorem length_rule :
  (forall (safe_load : str -> Result PyVal) (fs : FileSystem)
          (skill_path : Path) (content : str),
     reads fs skill_path content ->
     let n := Z.of_nat (length content) in
     let skill_md := path_join skill_path (py "SKILL.md") in
     match validate_skill safe_load fs skill_path with
     | Ok r' =>
         findings_of RLength (issues r') =
           if (n <? 500)%Z then [too_short n skill_md]
           else if (50000 <? n)%Z then [too_long n skill_md]
           else []
     | Raise e =>
         parse_frontmatter safe_load content = Raise e \/
         exists frontmatter body,
           parse_frontmatter safe_load content = Ok (frontmatter, body) /\
           py_truthy frontmatter = true /\
           validate_frontmatter frontmatter (after_structure fs skill_path) =
             Raise e
     end) /\
  (reads sample_fs (py "skills/number") doc_number /\
   length doc_number = 35 /\
   validate_skill sample_decoder sample_fs (py "skills/number") = Raise TypeError).
Proof.
  split.
  - intros safe_load fs skill_path content Hreads n skill_md.
    destruct (validate_skill safe_load fs skill_path) as [r'|e] eqn:E.
    + exact (@length_findings safe_load fs skill_path content r' Hreads E).
    + rewrite (@validate_skill_reads safe_load fs skill_path content Hreads) in E.
      now apply validate_content_raises in E.
  - repeat split; vm_compute; reflexivity.
Qed.

(** ** The theorems above on the sample documents *)

(** The file system is concrete: what it holds is found by evaluation. *)
Ltac reads_by_evaluation := unfold reads; repeat split; vm_compute; reflexivity.

Lemma decode_failure_is_reported_witness :
  parse_frontmatter sample_decoder doc_broken = Ok (PDict [], doc_broken) /\
  exists r',
    validate_skill sample_decoder sample_fs (py "skills/broken") = Ok r' /\
    valid r' = false /\
    findings_of RNoFrontmatter (issues r') =
      [no_frontmatter (py "skills/broken/SKILL.md")] /\
    findings_of RRequiredField (issues r') = [].
Proof.
  apply (@decode_failure_is_reported sample_decoder sample_fs
           (py "skills/broken") doc_broken (py "name: [") process_body YAMLError).
  - reads_by_evaluation.
  - split; [reflexivity|]. exists 12. repeat split; reflexivity.
  - reflexivity.
Defined.

(** C1 as stated fails on [doc_broken]: its block is refused by the
    decoder, and the findings hold the error for the missing metadata but
    no required-field error. *)
Lemma decode_failure_counterexample :
  (exists body, delimited doc_broken (py "name: [") body) /\
  sample_decoder (py "name: [") = Raise YAMLError /\
  summary (issues_of (validate_skill sample_decoder sample_fs (py "skills/broken"))) =
    [ (INFO, py "No 'references/' directory (optional)");
      (INFO, py "No 'scripts/' directory (optional)");
      (ERROR, py "No YAML frontmatter found");
      (ERROR, py "Missing required section: '## When to Use'");
      (ERROR, py "Missing required section: '## Guidelines'");
      (INFO, py "Consider adding section: '## Prerequisites'");
      (INFO, py "Consider adding section: '## Success Criteria'");
      (INFO, py "Consider adding section: '## Related Skills'");
      (INFO, py "Process section has 0 phases, consider adding more structure");
      (WARNING, py "SKILL.md seems too short (33 chars)") ] /\
  findings_of RRequiredField
    (issues_of (validate_skill sample_decoder sample_fs (py "skills/broken"))) = [].
Proof.
  split.
  - exists process_body. split; [reflexivity|].
    exists 12. repeat split; reflexivity.
  - repeat split; vm_compute; reflexivity.
Qed.

Lemma empty_frontmatter_witness :
  parse_frontmatter sample_decoder doc_empty = Ok (PDict [], process_body) /\
  exists r',
    validate_skill sample_decoder sample_fs (py "skills/empty") = Ok r' /\
    valid r' = false /\
    findings_of RNoFrontmatter (issues r') =
      [no_frontmatter (py "skills/empty/SKILL.md")] /\
    (forall rule, In rule FRONTMATTER_RULES -> findings_of rule (issues r') = []) /\
    metadata r' = [(py "sections", PList [PStr (py "Process")])].
Proof.
  apply (@empty_frontmatter_is_no_frontmatter sample_decoder sample_fs
           (py "skills/empty") doc_empty (py "") process_body PNone).
  - reads_by_evaluation.
  - split; [reflexivity|]. exists 4. repeat split; reflexivity.
  - reflexivity.
  - reflexivity.
Defined.

(** C4 as stated fails on [doc_plain]: the body is the text as it is, line
    break at the end included, and not the trimmed text. *)
Lemma body_is_not_trimmed :
  startswith (py "---") doc_plain = false /\
  parse_frontmatter sample_decoder doc_plain = Ok (PDict [], doc_plain) /\
  doc_plain <> strip doc_plain.
Proof.
  repeat split; try reflexivity.
  intros H. apply (f_equal (@length ascii)) in H. vm_compute in H. discriminate H.
Qed.

Lemma splitter_fallback_witness :
  (exists r',
     validate_skill sample_decoder sample_fs (py "skills/plain") = Ok r' /\
     valid r' = false /\
     In (no_frontmatter (py "skills/plain/SKILL.md")) (issues r')) /\
  parse_frontmatter sample_decoder doc_broken = Ok (PDict [], doc_broken).
Proof.
  destruct (splitter_fallback sample_decoder doc_plain) as [Hplain _].
  destruct (splitter_fallback sample_decoder doc_broken) as (_ & Hbroken & _).
  split.
  - apply (proj2 (Hplain eq_refl) sample_fs (py "skills/plain")).
    reads_by_evaluation.
  - apply (Hbroken (py "name: [") process_body YAMLError).
    + split; [reflexivity|]. exists 12. repeat split; reflexivity.
    + reflexivity.
Defined.

Lemma length_rule_witness :
  exists r',
    validate_skill sample_decoder sample_fs (py "skills/short") = Ok r' /\
    findings_of RLength (issues r') =
      [too_short 499 (py "skills/short/SKILL.md")].
Proof.
  destruct (validate_skill sample_decoder sample_fs (py "skills/short")) as [r'|e] eqn:E;
    [|vm_compute in E; discriminate E].
  exists r'. split; [reflexivity|].
  pose proof (proj1 length_rule sample_decoder sample_fs (py "skills/short") doc_499)
    as H.
  rewrite E in H. apply H. reads_by_evaluation.
Defined.

(** A text of exactly 500 characters gets no finding of the length rule. *)
Lemma length_rule_at_500 :
  findings_of RLength
    (issues_of (validate_skill sample_decoder sample_fs (py "skills/enough"))) = [].
Proof. vm_compute. reflexivity. Qed.

(** ** Rules that raise *)

Lemma absent_or_falsy_mapping f field :
  exists b, absent_or_falsy (PDict f) field = Ok b.
Proof.
  unfold absent_or_falsy, py_contains, py_getitem, dict_mem. simpl.
  destruct (dict_get field f); simpl; eauto.
Qed.

Lemma check_required_mapping f r :
  exists r', check_required (PDict f) r = Ok r'.
Proof.
  unfold check_required. generalize REQUIRED_FRONTMATTER as fields.
  intros fields. revert r.
  induction fields as [|field fields IH]; intros r; simpl; [eauto|].
  destruct (absent_or_falsy_mapping f field) as (b & ->). simpl. apply IH.
Qed.

Lemma check_recommended_mapping f r :
  exists r', check_recommended (PDict f) r = Ok r'.
Proof.
  unfold check_recommended. generalize RECOMMENDED_FRONTMATTER as fields.
  intros fields. revert r.
  induction fields as [|field fields IH]; intros r; simpl; [eauto|].
  apply IH.
Qed.

(** On every metadata map whose [name] is not a string, the name rule hands
    the value to [re.match] and [validate_frontmatter] raises [TypeError]. *)
Lemma name_not_a_string_raises f v r :
  dict_get (py "name") f = Some v ->
  (forall s, v <> PStr s) ->
  validate_frontmatter (PDict f) r = Raise TypeError.
Proof.
  intros Hget Hns. unfold validate_frontmatter.
  destruct (check_required_mapping f r) as (r1 & ->). cbn [bind].
  destruct (check_recommended_mapping f r1) as (r2 & ->). cbn [bind].
  unfold check_name, py_contains, py_getitem, dict_mem. rewrite Hget. cbn [bind].
  destruct v; try reflexivity. now contradiction (Hns s).
Qed.

(** ** Each metadata rule makes findings of its own kind *)

Lemma findings_of_other rule rule' r r' :
  appended (from_rule rule') r r' -> rule <> rule' ->
  findings_of rule (issues r') = findings_of rule (issues r).
Proof.
  intros (l & I & F & _) Hne. rewrite I, findings_of_app.
  rewrite (findings_of_none rule [rule'] l), app_nil_r; [reflexivity| |].
  - rewrite forallb_forall in *. intros i Hi. unfold from_rules. simpl.
    now rewrite (F i Hi).
  - simpl. intuition.
Qed.

Lemma check_required_own fm r r' :
  check_required fm r = Ok r' -> appended (from_rule RRequiredField) r r'.
Proof.
  apply for_each_appended. intros field Hin s s' H.
  bind_inv H. injection H as <-.
  simpl in Hin. destruct Hin as [<-|[<-|[<-|[]]]]; destruct a; appended_steps.
Qed.

Lemma check_recommended_own fm r r' :
  check_recommended fm r = Ok r' -> appended (from_rule RRecommendedField) r r'.
Proof.
  apply for_each_appended. intros field Hin s s' H.
  bind_inv H. injection H as <-.
  simpl in Hin. destruct Hin as [<-|[<-|[<-|[]]]]; destruct a; appended_steps.
Qed.

Lemma check_name_own fm r r' :
  check_name fm r = Ok r' -> appended (from_rule RName) r r'.
Proof.
  unfold check_name. intros H. bind_inv H.
  destruct a; [|injection H as <-; apply appended_refl].
  bind_inv H. bind_inv H.
  destruct (re_match false NAME_RE a0); injection H as <-; appended_steps.
Qed.

Lemma check_keywords_own fm r r' :
  check_keywords fm r = Ok r' -> appended (from_rule RKeywords) r r'.
Proof.
  unfold check_keywords. intros H. bind_inv H.
  destruct a; [|injection H as <-; apply appended_refl].
  bind_inv H. bind_inv H.
  destruct (_ <? MIN_KEYWORDS); injection H as <-; appended_steps.
Qed.

Lemma check_version_own fm r r' :
  check_version fm r = Ok r' -> appended (from_rule RVersion) r r'.
Proof.
  unfold check_version. intros H. bind_inv H.
  destruct a; [|injection H as <-; apply appended_refl].
  bind_inv H. bind_inv H.
  destruct (re_match false VERSION_RE a0); injection H as <-;
    appended_steps.
Qed.

Lemma check_token_estimate_own fm r r' :
  check_token_estimate fm r = Ok r' -> appended (from_rule RTokenEstimate) r r'.
Proof.
  unfold check_token_estimate. intros H. bind_inv H.
  destruct a; [|injection H as <-; apply appended_refl].
  bind_inv H.
  destruct a; try (injection H as <-; apply appended_refl).
  revert H. unfold check_token_mapping, TOKEN_KEYS. simpl. intros H.
  destruct (dict_mem (py "min") d), (dict_mem (py "typical") d),
    (dict_mem (py "max") d); simpl in H;
    try (injection H as <-; appended_steps).
  bind_inv H. injection H as <-. destruct a; appended_steps.
Qed.

(** The steps of [validate_frontmatter], when it returns. *)
Lemma validate_frontmatter_steps fm r r' :
  validate_frontmatter fm r = Ok r' ->
  exists r1 r2 r3 r4 r5,
    check_required fm r = Ok r1 /\
    check_recommended fm r1 = Ok r2 /\
    check_name fm r2 = Ok r3 /\
    check_keywords fm r3 = Ok r4 /\
    check_version fm r4 = Ok r5 /\
    check_token_estimate fm r5 = Ok r'.
Proof.
  unfold validate_frontmatter. intros H.
  apply bind_ok in H as (r1 & H1 & H).
  apply bind_ok in H as (r2 & H2 & H).
  apply bind_ok in H as (r3 & H3 & H).
  apply bind_ok in H as (r4 & H4 & H).
  apply bind_ok in H as (r5 & H5 & H).
  exists r1, r2, r3, r4, r5. now repeat split.
Qed.

(** What the token-estimate rule appends for a mapping. *)
Lemma check_token_mapping_findings d r r' :
  check_token_mapping d r = Ok r' ->
  let missing := filter (fun key => negb (dict_mem key d)) TOKEN_KEYS in
  exists order : list ValidationIssue,
    issues r' = issues r ++ map token_missing missing ++ order /\
    (missing <> [] -> order = []) /\
    (missing = [] ->
       exists ordered : bool,
         token_order (PDict d) = Ok ordered /\
         order = if ordered then [] else [token_disordered]).
Proof.
  unfold check_token_mapping, TOKEN_KEYS. simpl.
  destruct (dict_mem (py "min") d), (dict_mem (py "typical") d),
    (dict_mem (py "max") d); simpl; intros H;
    try (injection H as <-; exists []; simpl; rewrite <- ?app_assoc;
         split; [now rewrite ?app_nil_r
               |split; [reflexivity | intros E; discriminate E]]).
  bind_inv H. injection H as <-.
  exists (if a then [] else [token_disordered]). repeat split.
  - destruct a; simpl; now rewrite ?app_nil_r.
  - intros Hne. now contradiction Hne.
  - intros _. now exists a.
Qed.

(** C5.  On a metadata map whose [token_estimate] is a mapping, whenever
    [validate_frontmatter] returns, the findings of the token-estimate rule
    are one warning per key missing among min, typical and max, in that
    order, and then, when no key is missing, exactly one error if
    [min <= typical <= max] came out false and nothing if it came out true;
    on numbers the comparison is the numerical one.  [validate_frontmatter]
    does not return on every such map: it raises [TypeError] when the three
    entries cannot be compared, and when the name rule before it raises. *)
Theorem token_estimate_rule :
  (forall (f d : Dict PyVal) (r r' : ValidationResult),
     dict_get (py "token_estimate") f = Some (PDict d) ->
     validate_frontmatter (PDict f) r = Ok r' ->
     let missing := filter (fun key => negb (dict_mem key d)) TOKEN_KEYS in
     exists order : list ValidationIssue,
       findings_of RTokenEstimate (issues r') =
         findings_of RTokenEstimate (issues r) ++
         map token_missing missing ++ order /\
       (missing <> [] -> order = []) /\
       (missing = [] ->
          exists ordered : bool,
            token_order (PDict d) = Ok ordered /\
            order = if ordered then [] else [token_disordered]) /\
       (forall lo mid hi : Z,
          number_at (py "min") d = Some lo ->
          number_at (py "typical") d = Some mid ->
          number_at (py "max") d = Some hi ->
          order = if (lo <=? mid)%Z && (mid <=? hi)%Z then []
                  else [token_disordered])) /\
  (forall r, validate_frontmatter mixed_estimate_metadata r = Raise TypeError) /\
  (forall r,
     validate_frontmatter
       (PDict [ (py "name", PInt 123);
                (py "token_estimate", PDict [(py "min", PInt 10)]) ]) r
     = Raise TypeError).
Proof.
  split; [|split].
  - intros f d r r' Hte H. cbv zeta.
    apply validate_frontmatter_steps in H
      as (r1 & r2 & r3 & r4 & r5 & H1 & H2 & H3 & H4 & H5 & H6).
    assert (Hbefore : findings_of RTokenEstimate (issues r5) =
                      findings_of RTokenEstimate (issues r)).
    { rewrite (findings_of_other (check_version_own _ _ H5)) by discriminate.
      rewrite (findings_of_other (check_keywords_own _ _ H4)) by discriminate.
      rewrite (findings_of_other (check_name_own _ _ H3)) by discriminate.
      rewrite (findings_of_other (check_recommended_own _ _ H2)) by discriminate.
      now rewrite (findings_of_other (check_required_own _ _ H1)) by discriminate. }
    rewrite (check_token_estimate_mapping _ r5 Hte) in H6.
    pose proof (check_token_mapping_findings _ _ H6) as Hf. cbv zeta in Hf.
    remember (filter (fun key => negb (dict_mem key d)) TOKEN_KEYS)
      as missing eqn:Em.
    destruct Hf as (order & I & Hm & Ho).
    exists order. repeat split; try assumption.
    + assert (Horder : forallb (from_rule RTokenEstimate) order = true).
      { destruct missing as [|key missing].
        - destruct (Ho eq_refl) as (ordered & _ & ->). now destruct ordered.
        - rewrite Hm; [reflexivity|discriminate]. }
      rewrite I, !findings_of_app, Hbefore. f_equal. f_equal.
      * apply findings_of_all. clear. induction missing; simpl; auto.
      * now apply findings_of_all.
    + intros lo mid hi Hlo Hmid Hhi.
      assert (Hnone : missing = []).
      { rewrite Em. unfold TOKEN_KEYS, dict_mem. simpl.
        apply number_at_get in Hlo as (vlo & -> & _).
        apply number_at_get in Hmid as (vmid & -> & _).
        apply number_at_get in Hhi as (vhi & -> & _). reflexivity. }
      destruct (Ho Hnone) as (ordered & Hord & ->).
      rewrite (token_order_numbers _ Hlo Hmid Hhi) in Hord. now injection Hord as <-.
  - intros r. unfold validate_frontmatter, mixed_estimate_metadata.
    destruct (check_required_mapping
                [(py "token_estimate",
                  PDict [(py "min", PStr (py "low")); (py "typical", PInt 5);
                         (py "max", PInt 20)])] r) as (r1 & ->). cbn [bind].
    destruct (check_recommended_mapping
                [(py "token_estimate",
                  PDict [(py "min", PStr (py "low")); (py "typical", PInt 5);
                         (py "max", PInt 20)])] r1) as (r2 & ->). cbn [bind].
    reflexivity.
  - intros r. now apply name_not_a_string_raises with (v := PInt 123).
Qed.

Lemma token_estimate_rule_witness :
  exists r',
    validate_frontmatter (PDict sample_estimate_metadata)
      (new_result (py "skills/good")) = Ok r' /\
    findings_of RTokenEstimate (issues r') = [token_disordered].
Proof.
  destruct (validate_frontmatter (PDict sample_estimate_metadata)
              (new_result (py "skills/good"))) as [r'|e] eqn:E;
    [|vm_compute in E; discriminate E].
  exists r'. split; [reflexivity|].
  destruct (proj1 token_estimate_rule sample_estimate_metadata sample_estimate
              (new_result (py "skills/good")) r' eq_refl E)
    as (order & Hf & _ & _ & Hn).
  rewrite Hf, (Hn 10%Z 5%Z 20%Z eq_refl eq_refl eq_refl). reflexivity.
Defined.

(** C2 at its failing inputs: a metadata map with a number for [name], one
    whose [token_estimate] holds a string beside numbers, and the document
    [doc_number] as a whole. *)
Lemma rules_can_raise :
  validate_frontmatter (PDict [(py "name", PInt 123)]) (new_result (py "skills/number"))
    = Raise TypeError /\
  validate_frontmatter mixed_estimate_metadata (new_result (py "skills/number"))
    = Raise TypeError /\
  validate_skill sample_decoder sample_fs (py "skills/number") = Raise TypeError.
Proof. repeat split; vm_compute; reflexivity. Qed.

(** ** The batch loop *)

Section Batch.

Variable safe_load : str -> Result PyVal.
Variable fs : FileSystem.

(** The loop returns exactly when every document's validation returns, and
    then with the documents' own results in the order of the input. *)
Lemma validate_all_results skills results :
  validate_all safe_load fs skills = Ok results <->
  Forall2 (fun skill_path r => validate_skill safe_load fs skill_path = Ok r)
          skills results.
Proof.
  revert results. induction skills as [|p skills IH]; intros results; simpl.
  - split.
    + intros H. injection H as <-. constructor.
    + intros H. inversion H. reflexivity.
  - split.
    + intros H. apply bind_ok in H as (r & Hr & H).
      apply bind_ok in H as (rs & Hrs & H). injection H as <-.
      constructor; [assumption|]. now apply IH.
    + intros H. inversion H as [|p' r skills' rs Hr Hrs]; subst.
      rewrite Hr. simpl. apply IH in Hrs. rewrite Hrs. reflexivity.
Qed.

(** A directory without its SKILL.md gets the single error for the missing
    file and nothing else: no rule runs on it. *)
Lemma validate_skill_missing_file skill_path :
  is_dir fs skill_path = true ->
  path_exists fs (path_join skill_path (py "SKILL.md")) = false ->
  validate_skill safe_load fs skill_path =
    Ok (add_all (new_result skill_path) [missing_file skill_path]).
Proof.
  intros Hdir Hex. unfold validate_skill, validate_structure.
  rewrite Hdir, Hex. reflexivity.
Qed.

(** A document's validation raising leaves the loop: no result is made for
    any document of the batch. *)
Lemma validate_all_raises before skill_path after e :
  Forall (fun p => returns (validate_skill safe_load fs p)) before ->
  validate_skill safe_load fs skill_path = Raise e ->
  validate_all safe_load fs (before ++ skill_path :: after) = Raise e.
Proof.
  intros Hbefore Hraise. induction Hbefore as [|p before [r Hr] _ IH]; simpl.
  - now rewrite Hraise.
  - rewrite Hr. simpl. now rewrite IH.
Qed.

End Batch.

(** C8 at its failing input: a batch in which the second document has a
    number for [name] produces no result at all, while a batch in which the
    second document has no SKILL.md produces the three results. *)
Lemma batch_aborts_on_raising_document :
  validate_all sample_decoder sample_fs
    [py "skills/good"; py "skills/number"; py "skills/plain"] = Raise TypeError /\
  exists r1 r3,
    validate_skill sample_decoder sample_fs (py "skills/good") = Ok r1 /\
    validate_skill sample_decoder sample_fs (py "skills/plain") = Ok r3 /\
    validate_all sample_decoder sample_fs
      [py "skills/good"; py "skills/missing"; py "skills/plain"] =
      Ok [r1; add_all (new_result (py "skills/missing")) [missing_file (py "skills/missing")]; r3].
Proof.
  split; [vm_compute; reflexivity|].
  destruct (validate_skill sample_decoder sample_fs (py "skills/good")) as [r1|e] eqn:E1;
    [|vm_compute in E1; discriminate E1].
  destruct (validate_skill sample_decoder sample_fs (py "skills/plain")) as [r3|e] eqn:E3;
    [|vm_compute in E3; discriminate E3].
  exists r1, r3. split; [reflexivity|]. split; [reflexivity|].
  apply validate_all_results.
  constructor; [assumption|]. constructor.
  - apply validate_skill_missing_file; reflexivity.
  - constructor; [assumption|constructor].
Qed.

(** ** The matcher on the patterns of the source *)

Lemma cls_match_space x : cls_match true is_space x = is_space x.
Proof. destruct x as [[] [] [] [] [] [] [] []]; reflexivity. Qed.

Lemma cls_match_any_but_newline x :
  cls_match true any_but_newline x = any_but_newline x.
Proof. destruct x as [[] [] [] [] [] [] [] []]; reflexivity. Qed.

Lemma cls_match_sensitive p x : cls_match false p x = p x.
Proof. unfold cls_match. simpl. apply orb_false_r. Qed.

(** A greedy run takes the whole run first. *)
Lemma many_greedy ok w : forall n r,
  forallb ok w = true -> stops ok r = true ->
  exists more, many ok n (w ++ r) = (length w + n, r) :: more.
Proof.
  induction w as [|c w IH]; intros n r Hw Hr; simpl.
  - destruct r as [|x r]; [now exists []|].
    simpl in Hr. apply negb_true_iff in Hr. simpl. rewrite Hr. now exists [].
  - simpl in Hw. apply andb_true_iff in Hw as [Hc Hw]. rewrite Hc.
    destruct (IH (S n) r Hw Hr) as (more & ->).
    rewrite Nat.add_succ_r. simpl. eauto.
Qed.

Lemma many_ext ok ok' : (forall x, ok x = ok' x) ->
  forall s n, many ok n s = many ok' n s.
Proof.
  intros H. induction s as [|c s IH]; intros n; simpl; [reflexivity|].
  now rewrite H, IH.
Qed.

(** A literal run of characters under [re.IGNORECASE]. *)
Lemma m_lit_ignorecase (l : str) (k : regex) : forall n s g,
  m true (fold_right (fun c r => Seq (Chr c) r) k l) (MState n s g) =
    if startswith (lower l) (lower s)
    then m true k (MState (length l + n) (skipn (length l) s) g)
    else [].
Proof.
  induction l as [|c l IH]; intros n s g; simpl; [reflexivity|].
  destruct s as [|x s]; simpl; [reflexivity|].
  unfold chr_match.
  destruct (Ascii.eqb (lower_char c) (lower_char x)); simpl; [|reflexivity].
  rewrite app_nil_r, IH, Nat.add_succ_r. reflexivity.
Qed.

Lemma startswith_app a b s :
  startswith (a ++ b) s = startswith a s && startswith b (skipn (length a) s).
Proof.
  revert s. induction a as [|c a IH]; intros s; simpl; [reflexivity|].
  destruct s as [|x s]; simpl.
  - now destruct b.
  - now rewrite IH, andb_assoc.
Qed.

Lemma lower_skipn k s : lower (skipn k s) = skipn k (lower s).
Proof. unfold lower. symmetry. apply skipn_map. Qed.


(** The label of the keywords pattern matches where [label_len] finds it. *)
Lemma m_label n s g :
  m true LABEL_RE (MState n s g) =
    match label_len s with
    | Some k => [MState (k + n) (skipn k s) g]
    | None => []
    end.
Proof.
  unfold LABEL_RE, lit, label_len. rewrite m_lit_ignorecase.
  change (py "keywords:") with (py "keyword" ++ py "s:").
  change (py "keyword:") with (py "keyword" ++ py ":").
  rewrite !startswith_app.
  change (lower (py "Keyword")) with (py "keyword").
  change (length (py "Keyword")) with 7. change (length (py "keyword")) with 7.
  destruct (startswith (py "keyword") (lower s)); [|reflexivity].
  rewrite <- !lower_skipn. cbn [andb].
  set (a := startswith (py "s:") _). set (b := startswith (py ":") _).
  transitivity (if a then [MState (9 + n) (skipn 2 (skipn 7 s)) g]
                else if b then [MState (8 + n) (skipn 1 (skipn 7 s)) g] else []).
  2:{ rewrite !skipn_skipn. destruct a, b; reflexivity. }
  subst a b. generalize (skipn 7 s) as t. intros t.
  destruct t as [|x t]; [reflexivity|].
  destruct x as [[] [] [] [] [] [] [] []]; try reflexivity;
    (destruct t as [|y t]; [reflexivity|]);
    destruct y as [[] [] [] [] [] [] [] []]; reflexivity.
Qed.

Lemma label_len_is_label lab r : is_label lab -> label_len (lab ++ r) = Some (length lab).
Proof.
  intros H. unfold label_len, lower. rewrite map_app. fold (lower lab).
  assert (Hlen : length lab = length (lower lab)) by (unfold lower; now rewrite length_map).
  rewrite Hlen. destruct H as [-> | ->]; reflexivity.
Qed.

Lemma space_is_not_newline c : is_space c = false -> any_but_newline c = true.
Proof. destruct c as [[] [] [] [] [] [] [] []]; simpl; intros H; try reflexivity; discriminate H. Qed.

Lemma keywords_no_label n s :
  label_len s = None -> match_at true KEYWORDS_RE n s = None.
Proof.
  intros H. unfold match_at, KEYWORDS_RE. cbn [m]. rewrite m_label, H. reflexivity.
Qed.

Lemma keywords_at_label n k s ws c line tail :
  label_len s = Some k ->
  skipn k s = ws ++ c :: line ++ tail ->
  forallb is_space ws = true -> is_space c = false ->
  forallb any_but_newline line = true -> stops any_but_newline tail = true ->
  exists p, match_at true KEYWORDS_RE n s = Some (MState p tail (Some (c :: line))).
Proof.
  intros Hk Hrest Hws Hc Hline Htail.
  unfold match_at, KEYWORDS_RE. cbn [m]. rewrite m_label, Hk. cbn [flat_map].
  rewrite app_nil_r. cbn [pos rest grp]. rewrite Hrest.
  rewrite (@many_ext _ _ cls_match_space).
  destruct (@many_greedy is_space ws (k + n) (c :: line ++ tail) Hws) as (more & ->).
  { simpl. now rewrite Hc. }
  cbn [map flat_map fst snd rest pos grp].
  rewrite cls_match_any_but_newline, (@space_is_not_newline _ Hc).
  rewrite (@many_ext _ _ cls_match_any_but_newline).
  destruct (@many_greedy any_but_newline line (S (length ws + (k + n))) tail Hline Htail)
    as (more' & ->).
  cbn [map fst snd pos rest app hd_error].
  eexists. f_equal. f_equal. f_equal.
  replace (length line + S (length ws + (k + n)) - (length ws + (k + n)))
    with (S (length line)) by lia.
  cbn [firstn]. f_equal. rewrite firstn_app, Nat.sub_diag, firstn_all. simpl.
  apply app_nil_r.
Qed.

Lemma search_from_skips ic r pre : forall n s,
  (forall i, i < length pre -> match_at ic r (i + n) (skipn i (pre ++ s)) = None) ->
  search_from ic r n (pre ++ s) = search_from ic r (length pre + n) s.
Proof.
  induction pre as [|c pre IH]; intros n s H; [reflexivity|].
  cbn [app search_from].
  pose proof (H 0 (Nat.lt_0_succ _)) as H0. cbn [skipn Nat.add app] in H0.
  rewrite H0. simpl length. rewrite Nat.add_succ_l, <- Nat.add_succ_r.
  apply IH. intros i Hi. rewrite Nat.add_succ_r. apply (H (S i)). simpl. lia.
Qed.

Lemma search_from_here ic r n s st :
  match_at ic r n s = Some st -> search_from ic r n s = Some st.
Proof. intros H. destruct s; simpl; now rewrite H. Qed.

Lemma search_from_none ic r s : forall n,
  (forall i, match_at ic r (i + n) (skipn i s) = None) ->
  search_from ic r n s = None.
Proof.
  induction s as [|c s IH]; intros n H.
  - pose proof (H 0) as H0. simpl in *. now rewrite H0.
  - pose proof (H 0) as H0. cbn [skipn Nat.add] in H0.
    cbn [search_from]. rewrite H0. apply IH.
    intros i. rewrite Nat.add_succ_r. apply (H (S i)).
Qed.

Lemma extract_keywords_no_label d :
  (forall i, label_len (skipn i d) = None) -> extract_keywords d = [].
Proof.
  intros H. unfold extract_keywords, re_search.
  rewrite search_from_none; [reflexivity|].
  intros i. apply keywords_no_label, H.
Qed.

Lemma extract_keywords_first_label pre lab ws c line tail :
  no_label_before (length pre) (pre ++ lab ++ ws ++ c :: line ++ tail) ->
  is_label lab ->
  forallb is_space ws = true -> is_space c = false ->
  forallb any_but_newline line = true -> stops any_but_newline tail = true ->
  extract_keywords (pre ++ lab ++ ws ++ c :: line ++ tail) =
    map strip (split ","%char (c :: line)).
Proof.
  intros Hpre Hlab Hws Hc Hline Htail.
  unfold extract_keywords, re_search.
  rewrite search_from_skips.
  2:{ intros i Hi. apply keywords_no_label, Hpre, Hi. }
  destruct (@keywords_at_label (length pre + 0) (length lab)
              (lab ++ ws ++ c :: line ++ tail) ws c line tail) as (p & Hp);
    try assumption.
  - now apply label_len_is_label.
  - rewrite skipn_app, skipn_all, Nat.sub_diag. reflexivity.
  - rewrite (@search_from_here _ _ _ _ _ Hp). reflexivity.
Qed.

Lemma check_keywords_description f desc r :
  dict_get (py "description") f = Some (PStr desc) ->
  check_keywords (PDict f) r =
    Ok (let keywords := extract_keywords desc in
        let r1 := set_metadata r (py "keywords") (PList (map PStr keywords)) in
        if length keywords <? MIN_KEYWORDS
        then add_all r1 [few_keywords (length keywords)]
        else r1).
Proof.
  intros H. unfold check_keywords, py_contains, py_getitem, dict_mem.
  rewrite H. cbn [bind as_str].
  destruct (length (extract_keywords desc) <? MIN_KEYWORDS); reflexivity.
Qed.

(** C7, as the code has it.  Without a label [Keywords:] or [Keyword:] (in
    any case of letters) the extraction returns nothing.  At the first label
    it skips the whitespace that follows, line breaks included, and takes
    the text from the first other character to the end of that line: the
    result is that text split at the commas, each term trimmed, in order
    and with repetitions kept.  The description "Does X. Keywords: a, b"
    yields the two terms and the keyword-count rule makes exactly one
    warning on it. *)
Theorem keyword_extraction :
  (forall d : str,
     (forall i, label_len (skipn i d) = None) -> extract_keywords d = []) /\
  (forall (pre lab ws : str) (c : ascii) (line tail : str),
     no_label_before (length pre) (pre ++ lab ++ ws ++ c :: line ++ tail) ->
     is_label lab ->
     forallb is_space ws = true -> is_space c = false ->
     forallb any_but_newline line = true -> stops any_but_newline tail = true ->
     extract_keywords (pre ++ lab ++ ws ++ c :: line ++ tail) =
       map strip (split ","%char (c :: line))) /\
  extract_keywords (py "Does X. Keywords: a, b") = [py "a"; py "b"] /\
  extract_keywords (py "Keywords: a, b, a") = [py "a"; py "b"; py "a"] /\
  (forall (f : Dict PyVal) (r : ValidationResult),
     dict_get (py "description") f = Some (PStr (py "Does X. Keywords: a, b")) ->
     check_keywords (PDict f) r =
       Ok (add_all (set_metadata r (py "keywords") (PList [PStr (py "a"); PStr (py "b")]))
             [few_keywords 2])).
Proof.
  split; [exact extract_keywords_no_label|].
  split; [exact extract_keywords_first_label|].
  split; [reflexivity|]. split; [reflexivity|].
  intros f r H. rewrite (@check_keywords_description _ _ r H). reflexivity.
Qed.

(** The general statement on the description "Does X. Keywords: a, b": the
    label is the first one, a space follows, and the list runs to the end of
    the text. *)
Lemma keyword_extraction_witness :
  extract_keywords (py "Does X. " ++ py "Keywords:" ++ py " " ++ "a"%char :: py ", b" ++ []) =
    map strip (split ","%char ("a"%char :: py ", b")).
Proof.
  apply (proj1 (proj2 keyword_extraction)); try reflexivity.
  - intros i Hi. simpl in Hi.
    do 8 (destruct i as [|i]; [reflexivity|]). lia.
  - left. reflexivity.
Defined.

(** C7 as stated fails when the line of the label ends right after it: the
    terms are taken from the next line. *)
Lemma keywords_from_next_line :
  split NL (text ["Tags."%string; "Keywords:"%string; "a, b"%string]) =
    [py "Tags."; py "Keywords:"; py "a, b"] /\
  extract_keywords (text ["Tags."%string; "Keywords:"%string; "a, b"%string]) =
    [py "a"; py "b"].
Proof. split; reflexivity. Qed.

(** ** Trimming *)

Lemma take_drop_while p s : take_while p s ++ drop_while p s = s.
Proof.
  induction s as [|c s IH]; simpl; [reflexivity|].
  destruct (p c); simpl; [now rewrite IH|reflexivity].
Qed.

Lemma drop_while_stops p s : stops p (drop_while p s) = true.
Proof.
  induction s as [|c s IH]; simpl; [reflexivity|].
  destruct (p c) eqn:E; [assumption|]. simpl. now rewrite E.
Qed.

Lemma take_while_all p s : forallb p (take_while p s) = true.
Proof.
  induction s as [|c s IH]; simpl; [reflexivity|].
  destruct (p c) eqn:E; simpl; [now rewrite E|reflexivity].
Qed.

Lemma lstrip_drop_while s : lstrip s = drop_while is_space s.
Proof. induction s as [|c s IH]; simpl; [reflexivity|]. now rewrite IH. Qed.

Lemma drop_while_fixed p s : stops p s = true -> drop_while p s = s.
Proof.
  destruct s as [|c s]; simpl; [reflexivity|].
  intros H. apply negb_true_iff in H. now rewrite H.
Qed.

Lemma lstrip_fixed s : stops is_space s = true -> lstrip s = s.
Proof. rewrite lstrip_drop_while. apply drop_while_fixed. Qed.

Lemma lstrip_stops s : stops is_space (lstrip s) = true.
Proof. rewrite lstrip_drop_while. apply drop_while_stops. Qed.

Lemma rstrip_fixed s : ends_clean s = true -> rstrip s = s.
Proof.
  unfold ends_clean, rstrip. intros H. rewrite (@lstrip_fixed _ H). apply rev_involutive.
Qed.

Lemma rstrip_ends_clean s : ends_clean (rstrip s) = true.
Proof. unfold ends_clean, rstrip. rewrite rev_involutive. apply lstrip_stops. Qed.

Lemma strip_ends_clean s : ends_clean (strip s) = true.
Proof. apply rstrip_ends_clean. Qed.

Lemma ends_clean_suffix p u : ends_clean (p ++ u) = true -> ends_clean u = true.
Proof.
  unfold ends_clean. rewrite rev_app_distr.
  destruct (rev u) as [|c ru] eqn:E; [reflexivity|]. simpl. auto.
Qed.

Lemma drop_while_ends_clean p s :
  ends_clean s = true -> ends_clean (drop_while p s) = true.
Proof.
  intros H. apply ends_clean_suffix with (take_while p s).
  now rewrite take_drop_while.
Qed.

Lemma rstrip_prefix s : exists w, s = rstrip s ++ w.
Proof.
  unfold rstrip. exists (rev (take_while is_space (rev s))).
  rewrite <- rev_app_distr, lstrip_drop_while, take_drop_while.
  symmetry. apply rev_involutive.
Qed.

Lemma rstrip_stops s : stops is_space s = true -> stops is_space (rstrip s) = true.
Proof.
  intros H. destruct (rstrip_prefix s) as (w & Hw).
  destruct (rstrip s) as [|c t]; [reflexivity|].
  rewrite Hw in H. exact H.
Qed.

Lemma strip_stops s : stops is_space (strip s) = true.
Proof. apply rstrip_stops, lstrip_stops. Qed.

(** Trimming a trimmed text changes nothing. *)
Lemma strip_fixed s :
  stops is_space s = true -> ends_clean s = true -> strip s = s.
Proof.
  intros H1 H2. unfold strip. rewrite (@lstrip_fixed _ H1). now apply rstrip_fixed.
Qed.

Lemma strip_strip s : strip (strip s) = strip s.
Proof. apply strip_fixed; [apply strip_stops|apply strip_ends_clean]. Qed.

(** ** The heading pattern *)

Lemma many_head ok s n :
  exists more,
    many ok n s = (length (take_while ok s) + n, drop_while ok s) :: more.
Proof.
  destruct (@many_greedy ok (take_while ok s) n (drop_while ok s)
              (take_while_all ok s) (drop_while_stops ok s)) as (more & H).
  rewrite take_drop_while in H. eauto.
Qed.

Lemma heading_prefix_not_at_start n s :
  match_at false HEADING_PREFIX_RE (S n) s = None.
Proof. reflexivity. Qed.

Lemma delete_matches_skip s : forall k n,
  delete_matches false HEADING_PREFIX_RE (S n) s k = skipn k s.
Proof.
  induction s as [|c s IH]; intros k n.
  - now destruct k.
  - destruct k as [|k].
    + cbn [delete_matches]. rewrite heading_prefix_not_at_start.
      rewrite (IH 0). reflexivity.
    + cbn [delete_matches skipn]. apply IH.
Qed.

Lemma heading_prefix_match x t :
  not_word_or_space x = true ->
  match_at false HEADING_PREFIX_RE 0 (x :: t) =
    Some (MState (length (take_while is_space (drop_while not_word_or_space t)) +
                  (length (take_while not_word_or_space t) + 1))
                 (drop_while is_space (drop_while not_word_or_space t)) None).
Proof.
  intros Hx. unfold match_at, HEADING_PREFIX_RE. cbn [m pos rest grp Nat.eqb flat_map].
  rewrite app_nil_r, cls_match_sensitive, Hx.
  rewrite (@many_ext _ _ (cls_match_sensitive not_word_or_space)).
  destruct (many_head not_word_or_space t 1) as (more & ->).
  cbn [map flat_map fst snd pos rest grp].
  rewrite (@many_ext _ _ (cls_match_sensitive is_space)).
  destruct (many_head is_space (drop_while not_word_or_space t)
              (length (take_while not_word_or_space t) + 1)) as (more' & ->).
  reflexivity.
Qed.

Lemma heading_prefix_no_match x t :
  not_word_or_space x = false ->
  match_at false HEADING_PREFIX_RE 0 (x :: t) = None.
Proof.
  intros Hx. unfold match_at, HEADING_PREFIX_RE. cbn [m pos rest grp Nat.eqb flat_map].
  rewrite cls_match_sensitive, Hx. reflexivity.
Qed.

Lemma skipn_past {A : Type} (a b : list A) k :
  skipn (length a + k) (a ++ b) = skipn k b.
Proof. induction a as [|x a IH]; simpl; [reflexivity|apply IH]. Qed.

(** Deleting the heading pattern: a text that starts with a glyph loses its
    leading glyphs and the whitespace after them; any other text is kept. *)
Lemma re_sub_heading_prefix t :
  re_sub_empty HEADING_PREFIX_RE t =
    if stops not_word_or_space t then t
    else lstrip (drop_while not_word_or_space t).
Proof.
  unfold re_sub_empty. destruct t as [|x t]; [reflexivity|].
  cbn [delete_matches stops drop_while].
  destruct (not_word_or_space x) eqn:Hx; cbn [negb].
  - rewrite (@heading_prefix_match x t Hx). cbn [pos].
    set (a := length (take_while not_word_or_space t)).
    set (b := length (take_while is_space (drop_while not_word_or_space t))).
    replace (b + (a + 1) - 0 =? 0) with false by (symmetry; apply Nat.eqb_neq; lia).
    replace (b + (a + 1) - 0 - 1) with (a + b) by lia.
    rewrite delete_matches_skip, lstrip_drop_while.
    rewrite <- (take_drop_while not_word_or_space t) at 1.
    subst a. rewrite skipn_past.
    rewrite <- (take_drop_while is_space (drop_while not_word_or_space t)) at 1.
    subst b. rewrite <- (Nat.add_0_r (length _)), skipn_past. reflexivity.
  - rewrite (@heading_prefix_no_match x t Hx), delete_matches_skip. reflexivity.
Qed.

(** The title the code computes is the title of the specification. *)
Lemma heading_title_spec line : heading_title line = spec_title line.
Proof.
  unfold heading_title, spec_title. rewrite re_sub_heading_prefix.
  set (t := strip (slice_from line 3)).
  assert (Hclean : ends_clean t = true) by apply strip_ends_clean.
  assert (Hstops : stops is_space t = true) by apply strip_stops.
  destruct (stops not_word_or_space t) eqn:E.
  - rewrite (@drop_while_fixed _ _ E). symmetry. now apply strip_fixed.
  - unfold strip. symmetry. apply rstrip_fixed.
    rewrite lstrip_drop_while. now do 2 apply drop_while_ends_clean.
Qed.

(** ** The loop of [extract_sections] *)

Lemma section_step_heading st line :
  is_heading line = true ->
  section_step st line = mkScan (flush st) (Some (spec_title line)) [].
Proof.
  intros H. unfold section_step. unfold is_heading in H. rewrite H.
  now rewrite heading_title_spec.
Qed.

Lemma section_step_content st line :
  is_heading line = false ->
  section_step st line =
    match open_section (current_section st) with
    | Some _ => mkScan (sections_of st) (current_section st) (current_content st ++ [line])
    | None => st
    end.
Proof. intros H. unfold section_step. unfold is_heading in H. now rewrite H. Qed.

(** The loop from a state with the section [title] open and from a state
    with no section open. *)
Lemma fold_section_step lines :
  (forall d c title acc,
     flush (fold_left section_step lines (mkScan d (Some (c :: title)) acc)) =
       store_all (filter titled (spec_blocks lines))
         (dict_set (c :: title) (strip (join [NL] (acc ++ content_lines lines))) d)) /\
  (forall d cur acc,
     open_section cur = None ->
     flush (fold_left section_step lines (mkScan d cur acc)) =
       store_all (filter titled (spec_blocks lines)) d).
Proof.
  induction lines as [|line lines [IHopen IHclosed]]; split.
  - intros d c title acc. simpl. now rewrite app_nil_r.
  - intros d cur acc H. unfold flush. simpl. now rewrite H.
  - intros d c title acc. cbn [fold_left spec_blocks content_lines].
    destruct (is_heading line) eqn:E.
    + rewrite (section_step_heading _ _ E), app_nil_r.
      unfold flush at 2. cbn [current_section open_section sections_of current_content].
      destruct (spec_title line) as [|c' title'] eqn:T.
      * rewrite IHclosed by reflexivity. reflexivity.
      * rewrite IHopen. reflexivity.
    + rewrite (section_step_content _ _ E). cbn [current_section open_section].
      cbn [sections_of current_content]. rewrite IHopen, <- app_assoc. reflexivity.
  - intros d cur acc H. cbn [fold_left spec_blocks].
    destruct (is_heading line) eqn:E.
    + rewrite (section_step_heading _ _ E).
      unfold flush at 2. cbn [current_section]. rewrite H. cbn [sections_of].
      destruct (spec_title line) as [|c' title'] eqn:T.
      * rewrite IHclosed by reflexivity. reflexivity.
      * rewrite IHopen. reflexivity.
    + rewrite (section_step_content _ _ E). cbn [current_section]. rewrite H.
      now apply IHclosed.
Qed.

Lemma sections_of_lines_blocks lines :
  sections_of_lines lines = store_all (filter titled (spec_blocks lines)) [].
Proof. now apply (proj2 (fold_section_step lines)). Qed.

Lemma spec_blocks_preamble pre rest :
  forallb (fun line => negb (is_heading line)) pre = true ->
  spec_blocks (pre ++ rest) = spec_blocks rest.
Proof.
  induction pre as [|line pre IH]; simpl; [reflexivity|].
  intros H. apply andb_true_iff in H as [Hl Hp].
  apply negb_true_iff in Hl. rewrite Hl. auto.
Qed.

(** ** Keys and values of the stored sections *)

Lemma str_eqb_eq s t : str_eqb s t = true <-> s = t.
Proof.
  revert t. induction s as [|c s IH]; intros [|d t]; simpl; split;
    try congruence; try reflexivity.
  - intros H. apply andb_true_iff in H as [Hc Hs].
    apply Ascii.eqb_eq in Hc. apply IH in Hs. congruence.
  - intros H. injection H as -> ->. rewrite Ascii.eqb_refl. now apply IH.
Qed.

Lemma str_eqb_refl s : str_eqb s s = true.
Proof. now apply str_eqb_eq. Qed.

Lemma str_eqb_neq s t : str_eqb s t = false <-> s <> t.
Proof.
  split.
  - intros H E. apply str_eqb_eq in E. congruence.
  - intros H. destruct (str_eqb s t) eqn:E; [|reflexivity].
    apply str_eqb_eq in E. contradiction.
Qed.

Lemma dict_keys_set {V : Type} k (v : V) d :
  dict_keys (dict_set k v d) =
    if existsb (str_eqb k) (dict_keys d) then dict_keys d else dict_keys d ++ [k].
Proof.
  unfold dict_keys.
  induction d as [|[k' v'] d IH]; simpl; [reflexivity|].
  destruct (str_eqb k k') eqn:E; simpl; [reflexivity|].
  rewrite IH. now destruct (existsb (str_eqb k) (map fst d)).
Qed.

Lemma dict_get_set {V : Type} t k (v : V) d :
  dict_get t (dict_set k v d) = if str_eqb t k then Some v else dict_get t d.
Proof.
  induction d as [|[k' v'] d IH]; simpl.
  - reflexivity.
  - destruct (str_eqb k k') eqn:E; simpl.
    + apply str_eqb_eq in E. subst k'. now destruct (str_eqb t k).
    + rewrite IH. destruct (str_eqb t k') eqn:E'; [|reflexivity].
      apply str_eqb_eq in E'. subst k'.
      destruct (str_eqb t k) eqn:E''; [|reflexivity].
      apply str_eqb_eq in E''. subst k. rewrite str_eqb_refl in E. discriminate.
Qed.

Lemma store_all_keys blocks : forall d,
  dict_keys (store_all blocks d) = first_occurrences (dict_keys d) (map fst blocks).
Proof.
  induction blocks as [|[t c] blocks IH]; intros d; simpl; [reflexivity|].
  unfold store_all in *. simpl. rewrite IH, dict_keys_set. reflexivity.
Qed.

Lemma store_all_get t blocks : forall d,
  dict_get t (store_all blocks d) = last_content t blocks (dict_get t d).
Proof.
  induction blocks as [|[k c] blocks IH]; intros d; simpl; [reflexivity|].
  unfold store_all, last_content in *. simpl. rewrite IH, dict_get_set. reflexivity.
Qed.

Lemma filter_all {A : Type} (p : A -> bool) l : forallb p l = true -> filter p l = l.
Proof.
  induction l as [|a l IH]; simpl; [reflexivity|].
  intros H. apply andb_true_iff in H as [Ha Hl]. now rewrite Ha, IH.
Qed.

(** C6, as the code has it.  The title the code computes is the heading
    text trimmed and without its leading glyph run.  For every body the
    result holds the sections whose title is not empty, stored in document
    order: its keys are the distinct titles in the order of their first
    occurrence, and the value of a title is the trimmed content of the last
    section with that title.  When no heading has an empty title the result
    is the one the specification describes.  Lines before the first heading
    change nothing, and a body with two Guidelines headings yields one
    entry with the second content. *)
Theorem section_extraction :
  (forall line : str, heading_title line = spec_title line) /\
  (forall body : str,
     let blocks := filter titled (spec_blocks (split NL body)) in
     extract_sections body = store_all blocks [] /\
     dict_keys (extract_sections body) = first_occurrences [] (map fst blocks) /\
     (forall t, dict_get t (extract_sections body) = last_content t blocks None)) /\
  (forall body : str,
     forallb titled (spec_blocks (split NL body)) = true ->
     extract_sections body = spec_extract_sections body) /\
  (forall pre rest : list str,
     forallb (fun line => negb (is_heading line)) pre = true ->
     sections_of_lines (pre ++ rest) = sections_of_lines rest) /\
  extract_sections
    (text ["## Guidelines"%string; "first"%string;
           "## Guidelines"%string; "second"%string]) =
    [(py "Guidelines", py "second")].
Proof.
  split; [exact heading_title_spec|].
  split.
  { intros body blocks.
    assert (H : extract_sections body = store_all blocks [])
      by apply sections_of_lines_blocks.
    rewrite H. split; [reflexivity|]. split.
    - apply store_all_keys.
    - intros t. apply store_all_get. }
  split.
  { intros body H. unfold spec_extract_sections.
    transitivity (store_all (filter titled (spec_blocks (split NL body))) []).
    - apply sections_of_lines_blocks.
    - now rewrite (@filter_all _ _ _ H). }
  split.
  { intros pre rest H.
    now rewrite !sections_of_lines_blocks, (@spec_blocks_preamble _ rest H). }
  reflexivity.
Qed.

(** C6 as stated fails on a heading without a title: it gets no entry and
    the lines under it are lost, where the specification stores them under
    the empty title. *)
Lemma untitled_heading_counterexample :
  is_heading (py "## ") = true /\
  extract_sections (text ["## Usage"%string; "one"%string; "## "%string; "two"%string]) =
    [(py "Usage", py "one")] /\
  spec_extract_sections
    (text ["## Usage"%string; "one"%string; "## "%string; "two"%string]) =
    [(py "Usage", py "one"); ([], py "two")].
Proof. repeat split. Qed.

(** ** Further properties of the validator *)

(** X2.  A skill directory without its SKILL.md gets one error finding and
    is not valid; no rule is evaluated on it and nothing is read. *)
Theorem missing_file_is_terminal :
  forall (safe_load : str -> Result PyVal) (fs : FileSystem) (skill_path : Path),
    is_dir fs skill_path = true ->
    path_exists fs (path_join skill_path (py "SKILL.md")) = false ->
    validate_skill safe_load fs skill_path =
      Ok (mkResult skill_path false [missing_file skill_path] []).
Proof.
  intros safe_load fs skill_path Hdir Hex.
  now rewrite (validate_skill_missing_file safe_load _ _ Hdir Hex).
Qed.

Lemma missing_file_is_terminal_witness :
  validate_skill sample_decoder sample_fs (py "skills/missing") =
    Ok (mkResult (py "skills/missing") false [missing_file (py "skills/missing")] []).
Proof.
  apply (@missing_file_is_terminal sample_decoder sample_fs (py "skills/missing"));
    reflexivity.
Defined.

(** X3.  Whenever the metadata rules return, they have only appended
    findings of their own six rules, and the result is valid afterwards
    exactly when it was valid before and none of the appended findings is
    an error. *)
Theorem frontmatter_rules_only_append :
  forall (frontmatter : PyVal) (r r' : ValidationResult),
    validate_frontmatter frontmatter r = Ok r' ->
    exists l,
      issues r' = issues r ++ l /\
      forallb (from_rules FRONTMATTER_RULES) l = true /\
      skill_path r' = skill_path r /\
      valid r' = valid r && negb (existsb is_error l).
Proof. intros frontmatter r r' H. exact (validate_frontmatter_appended _ _ H). Qed.

Lemma frontmatter_rules_only_append_witness :
  exists r' l,
    validate_frontmatter good_metadata (new_result (py "skills/good")) = Ok r' /\
    issues r' = issues (new_result (py "skills/good")) ++ l /\
    forallb (from_rules FRONTMATTER_RULES) l = true /\
    skill_path r' = py "skills/good" /\
    valid r' = true && negb (existsb is_error l).
Proof.
  destruct (validate_frontmatter good_metadata (new_result (py "skills/good")))
    as [r'|e] eqn:E; [|vm_compute in E; discriminate E].
  destruct (@frontmatter_rules_only_append good_metadata
              (new_result (py "skills/good")) r' E) as (l & H).
  exists r', l. split; [reflexivity|exact H].
Defined.

(** ** A result is valid exactly when it has no error *)

Section Report.

Variable safe_load : str -> Result PyVal.
Variable rglob : FileSystem -> Path -> str -> list Path.
Variable parent : Path -> Path.
Variable json_dumps : PyVal -> Result str.

Lemma appended_any P r r' : appended P r r' -> appended any_finding r r'.
Proof. apply appended_weaken. reflexivity. Qed.

Lemma validate_skill_appended fs skill_path r :
  validate_skill safe_load fs skill_path = Ok r ->
  appended any_finding (new_result skill_path) r.
Proof.
  unfold validate_skill. fold (new_result skill_path).
  destruct (negb (is_dir fs skill_path)).
  { intros H. injection H as <-. now apply appended_add_issue. }
  pose proof (validate_structure_appended fs skill_path (new_result skill_path)) as Hs.
  destruct (validate_structure fs skill_path (new_result skill_path)) as [r1 [skill_md|]];
    simpl in Hs; apply appended_any in Hs.
  2:{ intros H. injection H as <-. exact Hs. }
  destruct (read_text fs skill_md) as [content|e].
  - intros H. apply validate_content_appended in H as (r3 & H3 & ->).
    eapply appended_trans; [exact Hs|].
    eapply appended_trans; [exact (appended_any H3)|].
    exact (appended_any (check_length_appended _ _ _)).
  - intros H. injection H as <-.
    eapply appended_trans; [exact Hs|]. now apply appended_add_issue.
Qed.

Lemma validate_skill_valid fs p r :
  validate_skill safe_load fs p = Ok r -> valid r = negb (has_error r).
Proof.
  intros H. apply validate_skill_appended in H as (l & I & _ & _ & V).
  unfold has_error. simpl in *. now rewrite I, V.
Qed.

(** X4.  Whenever [validate_skill] returns, the result carries the path it
    was given and is valid exactly when none of its findings is an error. *)
Theorem valid_means_no_error :
  forall (fs : FileSystem) (path : Path) (r : ValidationResult),
    validate_skill safe_load fs path = Ok r ->
    skill_path r = path /\ valid r = negb (existsb is_error (issues r)).
Proof.
  intros fs path r H.
  apply validate_skill_appended in H as (l & I & _ & S & V).
  simpl in *. rewrite I, V. auto.
Qed.

Lemma validate_all_valid fs skills results :
  validate_all safe_load fs skills = Ok results ->
  Forall (fun r => valid r = negb (has_error r)) results.
Proof.
  intros H. apply validate_all_results in H.
  induction H as [|p r skills results Hr _ IH]; constructor; [|assumption].
  exact (@validate_skill_valid _ _ _ Hr).
Qed.

Lemma valid_count_le results : valid_count results <= total_count results.
Proof. apply filter_length_le. Qed.

Lemma valid_count_all results :
  Forall (fun r => valid r = negb (has_error r)) results ->
  (valid_count results =? total_count results) = negb (existsb has_error results).
Proof.
  unfold valid_count, total_count.
  induction 1 as [|r results Hr _ IH]; [reflexivity|].
  simpl. rewrite Hr. destruct (has_error r); simpl.
  - apply Nat.eqb_neq. pose proof (filter_length_le valid results). lia.
  - exact IH.
Qed.

Lemma main_loop_returns fs args skills rs : forall out results,
  validate_all safe_load fs skills = Ok rs ->
  main_loop safe_load fs args skills out results =
    (out ++ (if args_json args then []
             else flat_map (fun r => print_result r (args_verbose args)) rs),
     Ok (results ++ rs)).
Proof.
  revert rs. induction skills as [|p skills IH]; intros rs out results H; simpl in *.
  - injection H as <-. destruct (args_json args); simpl; now rewrite !app_nil_r.
  - apply bind_ok in H as (r & Hr & H). apply bind_ok in H as (rs' & Hrs & H).
    injection H as <-. rewrite Hr, (IH rs' _ _ Hrs), <- app_assoc. simpl.
    destruct (args_json args); [reflexivity|]. now rewrite <- app_assoc.
Qed.

Lemma main_loop_raises fs args skills e : forall out results,
  validate_all safe_load fs skills = Raise e ->
  snd (main_loop safe_load fs args skills out results) = Raise e /\
  (args_json args = true ->
   fst (main_loop safe_load fs args skills out results) = out).
Proof.
  induction skills as [|p skills IH]; intros out results H; simpl in *; [discriminate|].
  destruct (validate_skill safe_load fs p) as [r|e'] eqn:Hr; simpl in H.
  - destruct (validate_all safe_load fs skills) as [rs|e''] eqn:Hrs; [discriminate|].
    injection H as ->.
    destruct (IH (if args_json args then out
                  else out ++ print_result r (args_verbose args))
                 (results ++ [r]) eq_refl) as [H1 H2].
    split; [exact H1|]. intros Hj. rewrite (H2 Hj), Hj. reflexivity.
  - injection H as ->. auto.
Qed.

Lemma validate_all_length fs skills results :
  validate_all safe_load fs skills = Ok results -> length results = length skills.
Proof.
  intros H. apply validate_all_results in H. symmetry. exact (Forall2_length H).
Qed.

Lemma skills_of_nonempty fs args :
  args_all args = false -> nonempty (skills_of rglob parent fs args) = true.
Proof. intros H. unfold skills_of. now rewrite H. Qed.

(** X5.  When every validation returns, and with [--json] the dump of the
    results returns too, [main] ends with status 0 exactly when at least one
    skill was validated and no result has an error finding, and with status
    1 otherwise; an exception that leaves a validation, or [json.dumps],
    leaves [main]. *)
Theorem exit_status :
  forall (fs : FileSystem) (args : Args),
    snd (main safe_load rglob parent json_dumps fs args) =
      match validate_all safe_load fs (skills_of rglob parent fs args) with
      | Raise e => Uncaught e
      | Ok results =>
          match (if args_json args && nonempty results
                 then json_dumps (output_json results) else Ok []) with
          | Raise e => Uncaught e
          | Ok _ =>
              if nonempty results && negb (existsb has_error results)
              then Exit 0 else Exit 1
          end
      end.
Proof.
  intros fs args. unfold main.
  set (skills := skills_of rglob parent fs args).
  destruct (validate_all safe_load fs skills) as [results|e] eqn:Hall.
  - assert (Hlen : nonempty results = nonempty skills).
    { unfold nonempty. now rewrite (@validate_all_length fs skills results Hall). }
    destruct (args_all args && negb (nonempty skills)) eqn:Hnone.
    + apply andb_true_iff in Hnone as [_ Hn]. apply negb_true_iff in Hn.
      rewrite Hlen, Hn, andb_false_r. reflexivity.
    + assert (Hne : nonempty skills = true).
      { destruct (args_all args) eqn:Ha; [|now apply skills_of_nonempty].
        simpl in Hnone. now apply negb_false_iff in Hnone. }
      rewrite (@main_loop_returns fs args skills results [] [] Hall). cbn [app].
      rewrite Hlen, Hne, (valid_count_all (@validate_all_valid fs skills results Hall)).
      rewrite andb_true_r. cbn [andb].
      destruct (args_json args).
      { destruct (json_dumps (output_json results)); [|reflexivity].
        now destruct (existsb has_error results). }
      destruct (valid_count results <? total_count results) eqn:Hlt.
      * apply Nat.ltb_lt in Hlt.
        destruct (existsb has_error results) eqn:He; [reflexivity|].
        pose proof (valid_count_all (@validate_all_valid fs skills results Hall)) as Hc.
        rewrite He in Hc. apply Nat.eqb_eq in Hc. lia.
      * now destruct (existsb has_error results).
  - assert (Hne : args_all args && negb (nonempty skills) = false).
    { destruct (args_all args) eqn:Ha; [|reflexivity]. simpl.
      destruct skills; [discriminate Hall|reflexivity]. }
    rewrite Hne. destruct (@main_loop_raises fs args skills e [] [] Hall) as [H1 _].
    destruct (main_loop safe_load fs args skills [] []) as [out res]. simpl in H1.
    now rewrite H1.
Qed.

Lemma has_error_lt fs skills results :
  validate_all safe_load fs skills = Ok results ->
  (valid_count results <? total_count results) = existsb has_error results.
Proof.
  intros H. pose proof (valid_count_all (@validate_all_valid fs skills results H)) as Hc.
  pose proof (valid_count_le results) as Hle.
  destruct (existsb has_error results); simpl in Hc.
  - apply Nat.eqb_neq in Hc. apply Nat.ltb_lt. lia.
  - apply Nat.eqb_eq in Hc. apply Nat.ltb_ge. lia.
Qed.

(** X6.  With [--json] the output is all or nothing: one JSON document for
    the results, nothing at all when a validation or [json.dumps] raised,
    and the line that no skill was found when there was none. *)
Theorem json_report :
  forall (fs : FileSystem) (args : Args),
    args_json args = true ->
    fst (main safe_load rglob parent json_dumps fs args) =
      match validate_all safe_load fs (skills_of rglob parent fs args) with
      | Raise e => []
      | Ok [] => [py "No skills found under " ++ args_path args]
      | Ok results =>
          match json_dumps (output_json results) with
          | Ok text => [text]
          | Raise e => []
          end
      end.
Proof.
  intros fs args Hjson. unfold main.
  set (skills := skills_of rglob parent fs args).
  destruct (validate_all safe_load fs skills) as [results|e] eqn:Hall.
  - pose proof (@validate_all_length fs skills results Hall) as Hlen.
    destruct (args_all args && negb (nonempty skills)) eqn:Hnone.
    + apply andb_true_iff in Hnone as [_ Hn]. apply negb_true_iff in Hn.
      destruct skills; [|discriminate Hn]. now destruct results.
    + assert (Hne : nonempty skills = true).
      { destruct (args_all args) eqn:Ha; [|now apply skills_of_nonempty].
        simpl in Hnone. now apply negb_false_iff in Hnone. }
      rewrite (@main_loop_returns fs args skills results [] [] Hall), Hjson.
      destruct results as [|r results].
      { destruct skills; [discriminate Hne|discriminate Hlen]. }
      cbv zeta. cbn [app].
      now destruct (json_dumps (output_json (r :: results))).
  - assert (Hne : args_all args && negb (nonempty skills) = false).
    { destruct (args_all args) eqn:Ha; [|reflexivity]. simpl.
      destruct skills; [discriminate Hall|reflexivity]. }
    rewrite Hne. destruct (@main_loop_raises fs args skills e [] [] Hall) as [H1 H2].
    specialize (H2 Hjson).
    destruct (main_loop safe_load fs args skills [] []) as [out res]. simpl in *.
    now rewrite H1, H2.
Qed.

(** X7.  Without [--json] and when every validation returns, the output is
    the printed results in the order of the skills, then the rule, the
    summary line and one closing line, which asks for [--verbose] exactly
    when a result has an error, whether or not the flag was given. *)
Theorem text_report :
  forall (fs : FileSystem) (args : Args) (results : list ValidationResult),
    args_json args = false ->
    validate_all safe_load fs (skills_of rglob parent fs args) = Ok results ->
    results <> [] ->
    fst (main safe_load rglob parent json_dumps fs args) =
      flat_map (fun r => print_result r (args_verbose args)) results ++
      summary_lines results.
Proof.
  intros fs args results Hjson Hall Hres. unfold main.
  set (skills := skills_of rglob parent fs args) in *.
  pose proof (@validate_all_length fs skills results Hall) as Hlen.
  assert (Hne : args_all args && negb (nonempty skills) = false).
  { destruct skills; [|apply andb_false_r].
    destruct results; [contradiction|discriminate Hlen]. }
  rewrite Hne, (@main_loop_returns fs args skills results [] [] Hall), Hjson.
  cbv zeta. cbn [app]. rewrite (@has_error_lt fs skills results Hall).
  unfold summary_lines.
  destruct (existsb has_error results); cbn [fst]; rewrite <- !app_assoc; reflexivity.
Qed.

End Report.

(** ** The printed result *)

Lemma subseq_refl {A : Type} (l : list A) : subseq l l.
Proof. induction l; constructor; assumption. Qed.

Lemma subseq_nil_l {A : Type} (l : list A) : subseq [] l.
Proof. induction l; constructor; assumption. Qed.

Lemma subseq_app {A : Type} (a b c d : list A) :
  subseq a b -> subseq c d -> subseq (a ++ c) (b ++ d).
Proof.
  intros Hab Hcd. induction Hab; simpl; [exact Hcd| |]; constructor; assumption.
Qed.

Lemma subseq_flat_map {A B : Type} (f g : A -> list B) l :
  (forall x, subseq (f x) (g x)) -> subseq (flat_map f l) (flat_map g l).
Proof.
  intros H. induction l as [|x l IH]; simpl; [constructor|].
  now apply subseq_app.
Qed.

Lemma print_issue_subseq i : subseq (print_issue false i) (print_issue true i).
Proof.
  unfold print_issue. rewrite andb_false_r, !andb_true_r.
  destruct (Severity_eqb (severity i) INFO); cbn [negb andb]; [apply subseq_nil_l|].
  apply subseq_app; [apply subseq_refl|].
  apply subseq_app; [apply subseq_refl|].
  destruct (suggestion i) as [sugg|]; [|constructor].
  rewrite andb_false_r. apply subseq_nil_l.
Qed.

(** X8.  [--verbose] only adds lines: what [print_result] prints without
    the flag is what it prints with it, some lines left out. *)
Theorem verbose_only_adds_lines :
  forall r : ValidationResult, subseq (print_result r false) (print_result r true).
Proof.
  intros r. unfold print_result.
  apply subseq_app; [apply subseq_refl|].
  apply subseq_app; [|apply subseq_flat_map, print_issue_subseq].
  rewrite !andb_false_l, orb_false_r, andb_true_l.
  destruct (nonempty (with_severity ERROR (issues r)) ||
            nonempty (with_severity WARNING (issues r))); cbn [orb].
  - apply subseq_refl.
  - apply subseq_nil_l.
Qed.

Lemma with_severity_none sev l :
  forallb (fun i => Severity_eqb (severity i) INFO) l = true ->
  sev <> INFO -> with_severity sev l = [].
Proof.
  intros H Hsev. induction l as [|i l IH]; [reflexivity|].
  simpl in *. apply andb_true_iff in H as [Hi Hl].
  apply Severity_eqb_eq in Hi. rewrite Hi.
  destruct sev; try contradiction; simpl; auto.
Qed.

(** X9.  Without [--verbose] a result whose findings are all informational
    is printed as its status line alone: no counts, no finding. *)
Theorem quiet_report_of_infos :
  forall r : ValidationResult,
    forallb (fun i => Severity_eqb (severity i) INFO) (issues r) = true ->
    print_result r false = [status_line r].
Proof.
  intros r H. unfold print_result.
  rewrite !(with_severity_none _ H) by discriminate. cbn [nonempty length Nat.eqb negb orb andb app].
  f_equal. induction (issues r) as [|i l IH]; [reflexivity|].
  simpl in *. apply andb_true_iff in H as [Hi Hl].
  unfold print_issue at 1. rewrite Hi. simpl. auto.
Qed.

(** ** The section rules *)

Lemma appended_infos r r' :
  appended is_info r r' ->
  exists infos, issues r' = issues r ++ infos /\ forallb is_info infos = true /\
                valid r' = valid r.
Proof.
  intros (l & I & F & _ & V). exists l. repeat split; try assumption.
  rewrite V. replace (existsb is_error l) with false; [apply andb_true_r|].
  symmetry. clear I V. induction l as [|i l IH]; [reflexivity|].
  simpl in *. apply andb_true_iff in F as [Hi Hl]. rewrite (IH Hl), orb_false_r.
  unfold is_info, is_error in *. now destruct (severity i).
Qed.

Lemma infos_after_required sections r :
  appended is_info r
    (check_guidelines sections
       (check_process sections
          (check_recommended_sections (dict_keys sections) r))).
Proof.
  apply appended_trans with
    (check_process sections (check_recommended_sections (dict_keys sections) r)).
  - apply appended_trans with (check_recommended_sections (dict_keys sections) r).
    + unfold check_recommended_sections, RECOMMENDED_SECTIONS. simpl.
      repeat match goal with
             | |- context [section_found ?s ?n] => destruct (section_found s n)
             end; appended_steps.
    + unfold check_process.
      destruct (first_section_with (py "process") sections) as [[|c t]|];
        try apply appended_refl.
      destruct (_ <? 2); appended_steps.
  - unfold check_guidelines.
    destruct (first_section_with (py "guidelines") sections) as [[|c t]|];
      try apply appended_refl.
    destruct (found true DO_RE (c :: t)), (found true DONT_RE (c :: t));
      appended_steps.
Qed.

Lemma check_required_sections_issues names r :
  issues (check_required_sections names r) =
    issues r ++
    map missing_section
      (filter (fun s => negb (section_found s names)) REQUIRED_SECTIONS) /\
  valid (check_required_sections names r) =
    valid r && forallb (fun s => section_found s names) REQUIRED_SECTIONS.
Proof.
  unfold check_required_sections, REQUIRED_SECTIONS. simpl.
  destruct (section_found (py "When to Use") names),
    (section_found (py "Process") names),
    (section_found (py "Guidelines") names); simpl;
    rewrite <- ?app_assoc, ?app_nil_r, ?andb_true_r, ?andb_false_r; split; reflexivity.
Qed.

(** X10.  [validate_sections] appends one error for each required section
    that no heading names, in the order of [REQUIRED_SECTIONS], then only
    informational findings; the result stays valid exactly when the three
    required sections are found. *)
Theorem required_sections_decide_validity :
  forall (sections : Dict str) (r : ValidationResult),
    let names := dict_keys sections in
    (exists infos,
       issues (validate_sections sections r) =
         issues r ++
         map missing_section
           (filter (fun s => negb (section_found s names)) REQUIRED_SECTIONS) ++
         infos /\
       forallb is_info infos = true) /\
    valid (validate_sections sections r) =
      valid r && forallb (fun s => section_found s names) REQUIRED_SECTIONS.
Proof.
  intros sections r names. unfold validate_sections. fold names.
  destruct (appended_infos (infos_after_required sections
              (check_required_sections names r))) as (infos & I & F & V).
  fold names in I, V.
  destruct (check_required_sections_issues names r) as [I0 V0].
  split.
  - exists infos. rewrite I, I0, <- app_assoc. auto.
  - now rewrite V, V0.
Qed.

(** ** Substrings *)

Lemma startswith_iff p s : startswith p s = true <-> exists post, s = p ++ post.
Proof.
  revert s. induction p as [|c p IH]; intros s; simpl.
  - split; eauto.
  - destruct s as [|x s].
    + split; [discriminate|]. intros (post & H). discriminate.
    + rewrite andb_true_iff, IH. split.
      * intros [Hc (post & ->)]. apply Ascii.eqb_eq in Hc. subst. eauto.
      * intros (post & H). injection H as -> ->. rewrite Ascii.eqb_refl. eauto.
Qed.

Lemma find_some sub s i :
  find sub s = Some i ->
  startswith sub (skipn i s) = true /\ i <= length s /\
  forall j, j < i -> startswith sub (skipn j s) = false.
Proof.
  revert i. induction s as [|c s IH]; intros i; simpl.
  - destruct (startswith sub []) eqn:E; [|discriminate].
    intros H. injection H as <-. repeat split; [assumption|lia|lia].
  - destruct (startswith sub (c :: s)) eqn:E.
    + intros H. injection H as <-. repeat split; [assumption|lia|lia].
    + destruct (find sub s) as [k|] eqn:F; [|discriminate]. simpl.
      intros H. injection H as <-. destruct (IH k eq_refl) as (H1 & H2 & H3).
      repeat split; [assumption|lia|].
      intros [|j] Hj; [exact E|]. apply H3. lia.
Qed.

Lemma find_none sub s :
  find sub s = None -> forall j, startswith sub (skipn j s) = false.
Proof.
  induction s as [|c s IH]; simpl.
  - destruct (startswith sub []) eqn:E; [discriminate|].
    intros _ j. now destruct j.
  - destruct (startswith sub (c :: s)) eqn:E; [discriminate|].
    destruct (find sub s) eqn:F; [discriminate|].
    intros _ [|j]; [exact E|]. now apply IH.
Qed.

Lemma contains_iff sub s : contains sub s = true <-> occurs_in sub s.
Proof.
  unfold contains, occurs_in. split.
  - destruct (find sub s) as [i|] eqn:F; [|discriminate]. intros _.
    apply find_some in F as (H & _ & _). apply startswith_iff in H as (post & H).
    exists (firstn i s), post. now rewrite <- H, firstn_skipn.
  - intros (pre & post & ->).
    destruct (find sub (pre ++ sub ++ post)) eqn:F; [reflexivity|].
    pose proof (find_none _ _ F (length pre)) as H.
    rewrite skipn_app, skipn_all, Nat.sub_diag in H. simpl in H.
    assert (startswith sub (sub ++ post) = true) by (apply startswith_iff; eauto).
    congruence.
Qed.

(** ** The guidelines patterns *)

Lemma many_nonempty ok s : forall n, many ok n s <> [].
Proof.
  destruct s as [|c s]; intros n; simpl; [discriminate|].
  destruct (ok c); [|discriminate].
  intros H. apply app_eq_nil in H as [_ H]. discriminate.
Qed.

Lemma flat_map_nonempty {A B : Type} (f g : A -> list B) l :
  (forall x, f x <> [] -> g x <> []) -> flat_map f l <> [] -> flat_map g l <> [].
Proof.
  intros H. induction l as [|x l IH]; simpl; [auto|].
  intros Hf Hg. apply app_eq_nil in Hg as [Hx Hl].
  destruct (f x) eqn:E.
  - apply IH; assumption.
  - apply (H x); [rewrite E; discriminate|assumption].
Qed.

(** After [DO] the pattern asks for nothing more. *)
Lemma m_do_tail st :
  m true (Seq (Star is_space) (Opt (Cls glyph))) st <> [].
Proof.
  cbn [m]. destruct (many (cls_match true is_space) (pos st) (rest st)) as [|e l] eqn:E.
  - now apply many_nonempty in E.
  - simpl. intros H. apply app_eq_nil in H as [H _].
    apply app_eq_nil in H as [_ H]. discriminate.
Qed.

Lemma m_dont_do st :
  m true (lit "DON" (Seq (Opt (Chr "'")) (Seq (Chr "T")
            (Seq (Star is_space) (Opt (Cls glyph)))))) st <> [] ->
  m true (lit "DO" (Seq (Star is_space) (Opt (Cls glyph)))) st <> [].
Proof.
  destruct st as [n s g]. unfold lit. rewrite !m_lit_ignorecase.
  change (lower (py "DON")) with (py "do" ++ py "n").
  change (lower (py "DO")) with (py "do").
  rewrite startswith_app.
  destruct (startswith (py "do") (lower s)); [|auto].
  intros _. apply m_do_tail.
Qed.

Lemma match_at_dont_do n s :
  match_at true DONT_RE n s <> None -> match_at true DO_RE n s <> None.
Proof.
  unfold match_at, DONT_RE, DO_RE.
  assert (Hhd : forall l : list mstate, hd_error l <> None <-> l <> []).
  { intros [|x l]; simpl; split; congruence. }
  rewrite !Hhd. unfold lit at 1 3. rewrite !m_lit_ignorecase.
  destruct (startswith (lower (py "##")) (lower s)); [|auto].
  cbn [m]. rewrite !flat_map_concat_map, <- !flat_map_concat_map.
  apply flat_map_nonempty. intros st. apply flat_map_nonempty. exact m_dont_do.
Qed.

Lemma search_from_mono ic r1 r2 :
  (forall n s, match_at ic r1 n s <> None -> match_at ic r2 n s <> None) ->
  forall s n, search_from ic r1 n s <> None -> search_from ic r2 n s <> None.
Proof.
  intros H. induction s as [|c s IH]; intros n; simpl.
  - specialize (H n []).
    destruct (match_at ic r1 n []), (match_at ic r2 n []); try congruence.
    intros _. apply H. discriminate.
  - specialize (H n (c :: s)).
    destruct (match_at ic r1 n (c :: s)), (match_at ic r2 n (c :: s));
      try congruence; auto.
    intros _ _. apply H; [discriminate|reflexivity].
Qed.

Lemma found_dont_do s : found true DONT_RE s = true -> found true DO_RE s = true.
Proof.
  unfold found, re_search. intros H.
  pose proof (@search_from_mono true DONT_RE DO_RE match_at_dont_do s 0) as Hm.
  destruct (search_from true DO_RE 0 s); [reflexivity|].
  destruct (search_from true DONT_RE 0 s); [|discriminate].
  exfalso. apply Hm; [discriminate|reflexivity].
Qed.

(** X12.  Wherever the pattern for the [DON'T] heading is found, the pattern
    for the [DO] heading is found too, so the guidelines rule never reports
    a missing [DO] subsection alone. *)
Theorem dont_heading_counts_as_do :
  (forall s : str, found true DONT_RE s = true -> found true DO_RE s = true) /\
  (forall (sections : Dict str) (r : ValidationResult),
     exists l,
       issues (check_guidelines sections r) = issues r ++ l /\
       (l = [] \/ l = [missing_dont] \/ l = [missing_do; missing_dont])).
Proof.
  split; [exact found_dont_do|].
  intros sections r. unfold check_guidelines.
  destruct (first_section_with (py "guidelines") sections) as [[|c t]|];
    try (exists (@nil ValidationIssue); rewrite app_nil_r; now auto).
  pose proof (found_dont_do (c :: t)) as H.
  destruct (found true DONT_RE (c :: t)).
  - rewrite H by reflexivity. exists (@nil ValidationIssue). rewrite app_nil_r. auto.
  - destruct (found true DO_RE (c :: t)).
    + exists [missing_dont]. auto.
    + exists [missing_do; missing_dont]. simpl. rewrite <- app_assoc. auto.
Qed.

(** ** The name pattern and the version pattern *)

Lemma take_while_app p w r :
  forallb p w = true -> stops p r = true ->
  take_while p (w ++ r) = w /\ drop_while p (w ++ r) = r.
Proof.
  intros Hw Hr. induction w as [|c w IH]; simpl.
  - destruct r as [|x r]; [auto|]. simpl in *. apply negb_true_iff in Hr.
    rewrite Hr. auto.
  - simpl in Hw. apply andb_true_iff in Hw as [Hc Hw]. rewrite Hc.
    destruct (IH Hw) as [-> ->]. auto.
Qed.

(** A greedy run followed by something that cannot start inside the run:
    only the whole run is tried with success. *)
Lemma many_then_stop {B : Type} ok (f : nat * str -> list B) s : forall n,
  (forall i x r, ok x = true -> f (i, x :: r) = []) ->
  flat_map f (many ok n s) = f (length (take_while ok s) + n, drop_while ok s).
Proof.
  induction s as [|c s IH]; intros n Hf; simpl.
  - apply app_nil_r.
  - destruct (ok c) eqn:E; simpl.
    + rewrite flat_map_app, (IH (S n) Hf). simpl. unfold str in *.
      rewrite (Hf n c s E), !app_nil_r, Nat.add_succ_r. reflexivity.
    + apply app_nil_r.
Qed.

Lemma m_plus_then p k n s g :
  (forall i x r, p x = true -> m false k (MState i (x :: r) g) = []) ->
  m false (Seq (Plus p) k) (MState n s g) =
    match s with
    | x :: s' =>
        if p x
        then m false k (MState (length (take_while p s') + S n) (drop_while p s') g)
        else []
    | [] => []
    end.
Proof.
  intros Hk. cbn [m rest pos grp]. destruct s as [|x s']; [reflexivity|].
  rewrite cls_match_sensitive. destruct (p x); [|reflexivity].
  rewrite (@many_ext _ _ (cls_match_sensitive p)).
  rewrite flat_map_concat_map, map_map, <- flat_map_concat_map.
  now rewrite (@many_then_stop _ p
            (fun e => m false k (MState (fst e) (snd e) g)) s' (S n) Hk).
Qed.

Lemma m_plus_matches p k n s g :
  (forall i x r, p x = true -> m false k (MState i (x :: r) g) = []) ->
  (m false (Seq (Plus p) k) (MState n s g) <> [] <->
   exists a r, a <> [] /\ forallb p a = true /\ s = a ++ r /\
               stops p r = true /\
               m false k (MState (length a + n) r g) <> []).
Proof.
  intros Hk. rewrite (@m_plus_then p k n s g Hk). split.
  - destruct s as [|x s']; [congruence|].
    destruct (p x) eqn:E; [|congruence]. intros H.
    exists (x :: take_while p s'), (drop_while p s').
    repeat split.
    + discriminate.
    + simpl. now rewrite E, take_while_all.
    + simpl. now rewrite take_drop_while.
    + apply drop_while_stops.
    + simpl. now rewrite <- Nat.add_succ_r.
  - intros (a & r & Ha & Hp & -> & Hr & Hm).
    destruct a as [|x a]; [contradiction|]. simpl in *.
    apply andb_true_iff in Hp as [Hx Hp]. rewrite Hx.
    destruct (@take_while_app p a r Hp Hr) as [-> ->].
    now rewrite Nat.add_succ_r.
Qed.

Lemma m_chr_matches c k n s g :
  m false (Seq (Chr c) k) (MState n s g) <> [] <->
  exists r, s = c :: r /\ m false k (MState (S n) r g) <> [].
Proof.
  cbn [m rest pos grp]. destruct s as [|x s']; simpl.
  - split; [congruence|]. intros (r & H & _). discriminate.
  - destruct (Ascii.eqb c x) eqn:E; simpl.
    + apply Ascii.eqb_eq in E. subst x. rewrite app_nil_r. split; [eauto|].
      intros (r & H & Hm). now injection H as <-.
    + split; [congruence|]. intros (r & H & _). injection H as <- _.
      now rewrite Ascii.eqb_refl in E.
Qed.

Lemma m_eol_matches n s g :
  m false Eol (MState n s g) <> [] <-> s = [] \/ s = [NL].
Proof.
  cbn [m rest]. destruct s as [|x [|y s']]; simpl.
  - split; [auto|discriminate].
  - destruct (Ascii.eqb x NL) eqn:E.
    + apply Ascii.eqb_eq in E. subst. split; [auto|discriminate].
    + split; [congruence|]. intros [H|H]; [discriminate|].
      injection H as ->. discriminate.
  - split; [congruence|]. intros [H|H]; discriminate.
Qed.

Lemma hd_error_some {A : Type} (l : list A) : hd_error l <> None <-> l <> [].
Proof. destruct l; simpl; split; congruence. Qed.

Lemma eol_after p i x r g :
  p NL = false -> p x = true -> m false Eol (MState i (x :: r) g) = [].
Proof.
  intros Hnl Hx. cbn [m rest]. destruct r; [|reflexivity]. simpl.
  destruct (Ascii.eqb x NL) eqn:E; [|reflexivity].
  apply Ascii.eqb_eq in E. congruence.
Qed.

Lemma dot_after k i x r g :
  is_digit x = true -> m false (Seq (Chr ".") k) (MState i (x :: r) g) = [].
Proof.
  intros Hx. cbn [m rest]. unfold chr_match.
  destruct (Ascii.eqb "." x) eqn:E; [|reflexivity].
  apply Ascii.eqb_eq in E. subst x. discriminate.
Qed.

(** What the name pattern accepts. *)
Lemma name_re_matches s : re_match false NAME_RE s <> None <-> kebab_name s.
Proof.
  unfold re_match, match_at, NAME_RE. rewrite hd_error_some.
  change (m false (Seq Bol (Seq (Plus kebab_char) Eol)) (MState 0 s None))
    with (m false (Seq (Plus kebab_char) Eol) (MState 0 s None) ++ []).
  rewrite app_nil_r, m_plus_matches
    by (intros; now apply eol_after with kebab_char).
  unfold kebab_name. split.
  - intros (a & r & Ha & Hp & -> & _ & Hm). apply m_eol_matches in Hm.
    exists a. destruct Hm as [-> | ->]; rewrite ?app_nil_r; auto.
  - intros (w & Hw & Hp & [-> | ->]).
    + exists w, []. rewrite app_nil_r. repeat split; auto.
      apply m_eol_matches. auto.
    + exists w, [NL]. repeat split; auto. apply m_eol_matches. auto.
Qed.

(** What the version pattern accepts. *)
Lemma version_re_matches s : re_match false VERSION_RE s <> None <-> semver s.
Proof.
  unfold re_match, match_at, VERSION_RE. rewrite hd_error_some.
  match goal with
  | |- m false (Seq Bol ?k) ?st <> [] <-> _ =>
      change (m false (Seq Bol k) st) with (m false k st ++ [])
  end.
  rewrite app_nil_r.
  rewrite m_plus_matches by (intros; now apply dot_after).
  unfold semver, digits. split.
  - intros (a & r1 & Ha & Hpa & -> & _ & Hm).
    apply m_chr_matches in Hm as (r2 & -> & Hm).
    apply m_plus_matches in Hm as (b & r3 & Hb & Hpb & -> & _ & Hm);
      [|intros; now apply dot_after].
    apply m_chr_matches in Hm as (r4 & -> & Hm).
    apply m_plus_matches in Hm as (c & r5 & Hc & Hpc & -> & _ & Hm);
      [|intros; now apply eol_after with is_digit].
    apply m_eol_matches in Hm.
    exists a, b, c. repeat split; try assumption.
    destruct Hm as [-> | ->]; rewrite ?app_nil_r; auto.
  - intros (a & b & c & [Ha Hpa] & [Hb Hpb] & [Hc Hpc] & Hs).
    assert (Htail : exists t, (t = [] \/ t = [NL]) /\
                              s = a ++ py "." ++ b ++ py "." ++ c ++ t).
    { destruct Hs as [-> | ->]; [exists []|exists [NL]];
        rewrite ?app_nil_r; auto. }
    destruct Htail as (t & Ht & ->).
    exists a, (py "." ++ b ++ py "." ++ c ++ t).
    repeat split; try assumption.
    apply m_chr_matches. exists (b ++ py "." ++ c ++ t). split; [reflexivity|].
    apply m_plus_matches; [intros; now apply dot_after|].
    exists b, (py "." ++ c ++ t). repeat split; try assumption.
    apply m_chr_matches. exists (c ++ t). split; [reflexivity|].
    apply m_plus_matches; [intros; now apply eol_after with is_digit|].
    exists c, t. repeat split; try assumption.
    + destruct Ht as [-> | ->]; reflexivity.
    + now apply m_eol_matches.
Qed.

Lemma check_name_string f name r :
  dict_get (py "name") f = Some (PStr name) ->
  check_name (PDict f) r =
    Ok (match re_match false NAME_RE name with
        | Some _ => r
        | None => add_all r [name_warning name]
        end).
Proof.
  intros H. unfold check_name, py_contains, py_getitem, dict_mem.
  rewrite H. cbn [bind as_str]. now destruct (re_match false NAME_RE name).
Qed.

Lemma check_version_value f v r :
  dict_get (py "version") f = Some v ->
  check_version (PDict f) r =
    (version <- py_str v ;;
     Ok (match re_match false VERSION_RE version with
         | Some _ => r
         | None => add_all r [version_warning version]
         end)).
Proof.
  intros H. unfold check_version, py_contains, py_getitem, dict_mem.
  rewrite H. cbn [bind]. destruct (py_str v) as [version|e]; [|reflexivity].
  cbn [bind]. now destruct (re_match false VERSION_RE version).
Qed.

(** X13.  The name rule accepts a string exactly when it is a run of
    lowercase letters, digits and dashes, with at most a line break after
    it; any other string gets the one warning. *)
Theorem name_rule :
  forall (f : Dict PyVal) (name : str) (r : ValidationResult),
    dict_get (py "name") f = Some (PStr name) ->
    (kebab_name name -> check_name (PDict f) r = Ok r) /\
    (~ kebab_name name ->
     check_name (PDict f) r = Ok (add_all r [name_warning name])).
Proof.
  intros f name r H. rewrite (@check_name_string f name r H).
  pose proof (name_re_matches name) as Hm.
  destruct (re_match false NAME_RE name); split; intros Hk.
  - reflexivity.
  - exfalso. apply Hk, Hm. discriminate.
  - exfalso. now apply Hm in Hk.
  - reflexivity.
Qed.

(** X14.  The version rule accepts a string exactly when it is three runs
    of digits with dots between them, with at most a line break after them;
    any other string gets the one warning. *)
Theorem version_rule :
  forall (f : Dict PyVal) (version : str) (r : ValidationResult),
    dict_get (py "version") f = Some (PStr version) ->
    (semver version -> check_version (PDict f) r = Ok r) /\
    (~ semver version ->
     check_version (PDict f) r = Ok (add_all r [version_warning version])).
Proof.
  intros f version r H. rewrite (@check_version_value f (PStr version) r H).
  cbn [py_str bind].
  pose proof (version_re_matches version) as Hm.
  destruct (re_match false VERSION_RE version); split; intros Hk.
  - reflexivity.
  - exfalso. apply Hk, Hm. discriminate.
  - exfalso. now apply Hm in Hk.
  - reflexivity.
Qed.

(** ** A version that is not a string *)

Lemma string_of_uint_chars d :
  forallb (fun c => is_digit c || Ascii.eqb c "-")
    (py (NilEmpty.string_of_uint d)) = true.
Proof. induction d; simpl; auto. Qed.

Lemma str_of_Z_chars z :
  forallb (fun c => is_digit c || Ascii.eqb c "-") (str_of_Z z) = true.
Proof.
  unfold str_of_Z. destruct (Z.to_int z) as [d|d]; simpl.
  - apply string_of_uint_chars.
  - apply (string_of_uint_chars d).
Qed.

Lemma semver_shape s :
  semver s ->
  (exists x t, s = x :: t /\ is_digit x = true) /\ In "."%char s.
Proof.
  intros (a & b & c & [Ha Hpa] & _ & _ & Hs).
  destruct a as [|x a]; [contradiction|]. simpl in Hpa.
  apply andb_true_iff in Hpa as [Hx _]. split.
  - destruct Hs as [-> | ->]; simpl; eauto.
  - destruct Hs as [-> | ->]; simpl; right; apply in_or_app; right; now left.
Qed.

Lemma version_not_a_string v version :
  (forall s, v <> PStr s) -> py_str v = Ok version ->
  re_match false VERSION_RE version = None.
Proof.
  intros Hv Hstr. destruct (re_match false VERSION_RE version) eqn:E; [|reflexivity].
  exfalso. assert (H : semver version).
  { apply version_re_matches. rewrite E. discriminate. }
  apply semver_shape in H as [(x & t & Hs & Hx) Hdot].
  destruct v as [|[]|n|s|l|d]; cbn [py_str py_repr] in Hstr.
  - injection Hstr as <-. unfold py in Hs. simpl in Hs. injection Hs as <- _.
    discriminate.
  - injection Hstr as <-. unfold py in Hs. simpl in Hs. injection Hs as <- _.
    discriminate.
  - injection Hstr as <-. unfold py in Hs. simpl in Hs. injection Hs as <- _.
    discriminate.
  - unfold py_str_int in Hstr.
    destruct (MAX_STR_DIGITS <? _); [discriminate|]. injection Hstr as <-.
    pose proof (str_of_Z_chars n) as Hc.
    rewrite forallb_forall in Hc. specialize (Hc _ Hdot). discriminate.
  - now apply (Hv s).
  - apply bind_ok in Hstr as (parts & _ & Hstr). injection Hstr as <-.
    unfold py in Hs. simpl in Hs. injection Hs as <- _. discriminate.
  - apply bind_ok in Hstr as (parts & _ & Hstr). injection Hstr as <-.
    unfold py in Hs. simpl in Hs. injection Hs as <- _. discriminate.
Qed.

(** X15.  On a metadata map whose version was not decoded as a string (a
    number, a boolean, a list, a mapping, nothing), whenever
    [validate_frontmatter] returns, the version rule has made its one
    warning, with the [str] text of the value in the message; and when
    [str] raises on the value (it holds an [int] beyond the digit limit),
    [validate_frontmatter] raises. *)
Theorem version_must_be_a_string :
  forall (f : Dict PyVal) (v : PyVal) (r : ValidationResult),
    dict_get (py "version") f = Some v ->
    (forall s, v <> PStr s) ->
    (forall r',
       validate_frontmatter (PDict f) r = Ok r' ->
       exists version,
         py_str v = Ok version /\
         findings_of RVersion (issues r') =
           findings_of RVersion (issues r) ++ [version_warning version]) /\
    (forall e,
       py_str v = Raise e ->
       exists e', validate_frontmatter (PDict f) r = Raise e').
Proof.
  intros f v r H Hv. split.
  - intros r' Hval.
    apply validate_frontmatter_steps in Hval
      as (r1 & r2 & r3 & r4 & r5 & H1 & H2 & H3 & H4 & H5 & H6).
    rewrite (@check_version_value f v r4 H) in H5.
    apply bind_ok in H5 as (version & Hstr & H5).
    rewrite (version_not_a_string Hv Hstr) in H5.
    assert (E5 : r5 = add_all r4 [version_warning version]) by congruence.
    exists version. split; [assumption|].
    rewrite (findings_of_other (check_token_estimate_own _ _ H6)) by discriminate.
    rewrite E5.
    change (issues (add_all r4 [version_warning version]))
      with (issues r4 ++ [version_warning version]).
    rewrite findings_of_app.
    rewrite (findings_of_other (check_keywords_own _ _ H4)) by discriminate.
    rewrite (findings_of_other (check_name_own _ _ H3)) by discriminate.
    rewrite (findings_of_other (check_recommended_own _ _ H2)) by discriminate.
    rewrite (findings_of_other (check_required_own _ _ H1)) by discriminate.
    reflexivity.
  - intros e Hstr. unfold validate_frontmatter.
    destruct (check_required (PDict f) r) as [r1|e1]; cbn [bind]; [|eauto].
    destruct (check_recommended (PDict f) r1) as [r2|e2]; cbn [bind]; [|eauto].
    destruct (check_name (PDict f) r2) as [r3|e3]; cbn [bind]; [|eauto].
    destruct (check_keywords (PDict f) r3) as [r4|e4]; cbn [bind]; [|eauto].
    rewrite (@check_version_value f v r4 H), Hstr. cbn [bind]. eauto.
Qed.

(** ** The splitter on a document with both delimiters *)

Section Splitter.

Variable safe_load : str -> Result PyVal.

(** X16.  A document put together as delimiter, block, delimiter and body,
    where the second delimiter is the first one after the opening, is split
    into the decoded block and the trimmed body; a decoder failure gives
    back the whole text. *)
Theorem frontmatter_round_trip :
  forall (block body : str),
    find (py "---") (block ++ py "---" ++ body) = Some (length block) ->
    parse_frontmatter safe_load (py "---" ++ block ++ py "---" ++ body) =
      match safe_load (strip block) with
      | Ok frontmatter =>
          Ok (if py_truthy frontmatter then frontmatter else PDict [], strip body)
      | Raise ValueError | Raise YAMLError =>
          Ok (PDict [], py "---" ++ block ++ py "---" ++ body)
      | Raise e => Raise e
      end.
Proof.
  intros block body Hfind. apply parse_frontmatter_delimited.
  set (content := py "---" ++ block ++ py "---" ++ body).
  assert (Hskip : skipn 3 content = block ++ py "---" ++ body) by reflexivity.
  unfold delimited. split; [reflexivity|].
  exists (3 + length block). split; [|split].
  - unfold index. rewrite Hskip, Hfind.
    replace (3 <=? length content) with true; [reflexivity|].
    symmetry. apply Nat.leb_le. unfold content. rewrite length_app. simpl. lia.
  - unfold slice. rewrite Hskip.
    replace (3 + length block - 3) with (length block) by lia.
    now rewrite firstn_app, Nat.sub_diag, firstn_all, app_nil_r.
  - unfold slice_from.
    replace (3 + length block + 3) with ((length block + 3) + 3) by lia.
    now rewrite <- skipn_skipn, Hskip, skipn_past.
Qed.

Lemma parse_frontmatter_outcome content :
  match parse_frontmatter safe_load content with
  | Ok (frontmatter, body) =>
      frontmatter = PDict [] \/ py_truthy frontmatter = true
  | Raise e =>
      e <> ValueError /\ e <> YAMLError /\
      exists block, safe_load block = Raise e
  end.
Proof.
  unfold parse_frontmatter.
  destruct (negb (startswith (py "---") content)); [now left|].
  destruct (index (py "---") content 3) as [end_index|]; [|now left].
  destruct (safe_load (strip (slice content 3 end_index))) as [v|e] eqn:E.
  - destruct (py_truthy v) eqn:T; auto.
  - destruct e; try (now left); repeat split; try discriminate; eauto.
Qed.

(** X17.  The metadata [parse_frontmatter] returns is the empty mapping or
    a truthy value, never another falsy one; it raises only what the
    decoder raised, and never [ValueError] or [YAMLError]. *)
Theorem splitter_results :
  forall content : str,
    match parse_frontmatter safe_load content with
    | Ok (frontmatter, body) =>
        frontmatter = PDict [] \/ py_truthy frontmatter = true
    | Raise e =>
        e <> ValueError /\ e <> YAMLError /\
        exists block, safe_load block = Raise e
    end.
Proof. exact parse_frontmatter_outcome. Qed.

End Splitter.

(** ** What the rules raise *)

Lemma py_le_raises : forall a b e, py_le a b = Raise e -> e = TypeError.
Proof.
  fix IH 1. intros a b e. destruct a as [|x|m|s|l1|d1]; destruct b as [|y|n|t|l2|d2];
    simpl; try congruence.
  revert l2. induction l1 as [|x xs IHl]; intros l2; [discriminate|].
  destruct l2 as [|y ys]; [discriminate|].
  destruct (py_eq x y); [apply IHl|apply IH].
Qed.

Lemma py_contains_raises key v e : py_contains key v = Raise e -> e = TypeError.
Proof. destruct v; simpl; congruence. Qed.

Lemma guarded_getitem_raises key v e :
  py_contains key v = Ok true -> py_getitem v key = Raise e -> e = TypeError.
Proof.
  destruct v; simpl; try congruence. unfold dict_mem.
  destruct (dict_get key d); congruence.
Qed.

Ltac raise_inv H :=
  match type of H with
  | bind ?c _ = Raise _ =>
      let E := fresh "E" in
      destruct c eqn:E; cbn [bind] in H
  end.

Lemma for_each_raises {A S : Type} (body : S -> A -> Result S) l e :
  (forall s a e', body s a = Raise e' -> e' = TypeError) ->
  forall s, for_each l body s = Raise e -> e = TypeError.
Proof.
  intros Hb. induction l as [|a l IH]; intros s H; simpl in H; [discriminate|].
  raise_inv H; [eauto|]. injection H as <-. eauto.
Qed.

Lemma py_repr_raises : forall v e, py_repr v = Raise e -> e = ValueError.
Proof.
  fix IH 1. intros v e. destruct v as [|[]|n|s|l|d]; simpl; try discriminate.
  - unfold py_str_int. destruct (MAX_STR_DIGITS <? _); congruence.
  - match goal with
    | |- bind ?c _ = _ -> _ => destruct c as [parts|e'] eqn:E
    end; cbn [bind]; [discriminate|].
    intros H. injection H as <-. revert E.
    induction l as [|x xs IHl]; intros E; [discriminate|].
    destruct (py_repr x) as [part|e1] eqn:E1; cbn [bind] in E.
    + apply IHl.
      match type of E with
      | bind ?c _ = _ => destruct c as [more|e2]
      end; cbn [bind] in E; [discriminate|exact E].
    + injection E as <-. exact (IH x e1 E1).
  - match goal with
    | |- bind ?c _ = _ -> _ => destruct c as [parts|e'] eqn:E
    end; cbn [bind]; [discriminate|].
    intros H. injection H as <-. revert E.
    induction d as [|[k x] xs IHl]; intros E; [discriminate|].
    destruct (py_repr x) as [part|e1] eqn:E1; cbn [bind] in E.
    + apply IHl.
      match type of E with
      | bind ?c _ = _ => destruct c as [more|e2]
      end; cbn [bind] in E; [discriminate|exact E].
    + injection E as <-. exact (IH x e1 E1).
Qed.

Lemma py_str_raises v e : py_str v = Raise e -> e = ValueError.
Proof. destruct v; try apply py_repr_raises. discriminate. Qed.

Lemma check_required_raises fm r e : check_required fm r = Raise e -> e = TypeError.
Proof.
  apply for_each_raises. intros s field e' H.
  raise_inv H; [discriminate|]. injection H as <-.
  unfold absent_or_falsy in E. raise_inv E.
  - destruct a; [|discriminate]. raise_inv E; [discriminate|].
    injection E as <-. eapply guarded_getitem_raises; eassumption.
  - injection E as <-. eapply py_contains_raises; eassumption.
Qed.

Lemma check_recommended_raises fm r e :
  check_recommended fm r = Raise e -> e = TypeError.
Proof.
  apply for_each_raises. intros s field e' H.
  raise_inv H; [discriminate|]. injection H as <-.
  eapply py_contains_raises; eassumption.
Qed.

Lemma as_str_raises v e : as_str v = Raise e -> e = TypeError.
Proof. destruct v; simpl; congruence. Qed.

Lemma check_name_raises fm r e : check_name fm r = Raise e -> e = TypeError.
Proof.
  unfold check_name. intros H. raise_inv H.
  - destruct a; [|discriminate]. raise_inv H.
    + raise_inv H.
      * now destruct (re_match false NAME_RE a0).
      * injection H as <-. eapply as_str_raises; eassumption.
    + injection H as <-. eapply guarded_getitem_raises; eassumption.
  - injection H as <-. eapply py_contains_raises; eassumption.
Qed.

Lemma check_keywords_raises fm r e : check_keywords fm r = Raise e -> e = TypeError.
Proof.
  unfold check_keywords. intros H. raise_inv H.
  - destruct a; [|discriminate]. raise_inv H.
    + raise_inv H.
      * now destruct (_ <? MIN_KEYWORDS).
      * injection H as <-. eapply as_str_raises; eassumption.
    + injection H as <-. eapply guarded_getitem_raises; eassumption.
  - injection H as <-. eapply py_contains_raises; eassumption.
Qed.

Lemma check_version_raises fm r e :
  check_version fm r = Raise e -> e = TypeError \/ e = ValueError.
Proof.
  unfold check_version. intros H. raise_inv H.
  - destruct a; [|discriminate]. raise_inv H.
    + raise_inv H.
      * now destruct (re_match false VERSION_RE a0).
      * injection H as <-. right. eapply py_str_raises; eassumption.
    + injection H as <-. left. eapply guarded_getitem_raises; eassumption.
  - injection H as <-. left. eapply py_contains_raises; eassumption.
Qed.

Lemma token_order_raises d e :
  forallb (fun k => dict_mem k d) TOKEN_KEYS = true ->
  token_order (PDict d) = Raise e -> e = TypeError.
Proof.
  unfold TOKEN_KEYS, token_order, py_getitem, dict_mem. simpl.
  destruct (dict_get (py "min") d) as [lo|]; [|discriminate].
  destruct (dict_get (py "typical") d) as [mid|]; [|discriminate].
  destruct (dict_get (py "max") d) as [hi|]; [|discriminate].
  intros _. cbn [bind]. destruct (py_le lo mid) as [[]|e1] eqn:E1; cbn [bind].
  - apply py_le_raises.
  - discriminate.
  - intros H. injection H as <-. eapply py_le_raises; eassumption.
Qed.

Lemma check_token_estimate_raises fm r e :
  check_token_estimate fm r = Raise e -> e = TypeError.
Proof.
  unfold check_token_estimate. intros H. raise_inv H.
  - destruct a; [|discriminate]. raise_inv H.
    + destruct a; try discriminate. unfold check_token_mapping in H.
      destruct (forallb (fun k => dict_mem k d) TOKEN_KEYS) eqn:K; [|discriminate].
      raise_inv H; [discriminate|]. injection H as <-.
      eapply token_order_raises; eassumption.
    + injection H as <-. eapply guarded_getitem_raises; eassumption.
  - injection H as <-. eapply py_contains_raises; eassumption.
Qed.

Lemma validate_frontmatter_raises fm r e :
  validate_frontmatter fm r = Raise e -> e = TypeError \/ e = ValueError.
Proof.
  unfold validate_frontmatter. intros H.
  raise_inv H;
    [|injection H as <-; left; eapply check_required_raises; eassumption].
  raise_inv H;
    [|injection H as <-; left; eapply check_recommended_raises; eassumption].
  raise_inv H; [|injection H as <-; left; eapply check_name_raises; eassumption].
  raise_inv H;
    [|injection H as <-; left; eapply check_keywords_raises; eassumption].
  raise_inv H; [|injection H as <-; eapply check_version_raises; eassumption].
  left. eapply check_token_estimate_raises; eassumption.
Qed.

(** ** Metadata of the expected types *)

Lemma check_name_typed f r :
  string_or_absent (py "name") f = true -> exists r', check_name (PDict f) r = Ok r'.
Proof.
  unfold string_or_absent, check_name, py_contains, py_getitem, dict_mem.
  destruct (dict_get (py "name") f) as [[]|]; try discriminate; intros _;
    cbn [bind as_str]; [|eauto].
  destruct (re_match false NAME_RE s); eauto.
Qed.

Lemma check_keywords_typed f r :
  string_or_absent (py "description") f = true ->
  exists r', check_keywords (PDict f) r = Ok r'.
Proof.
  unfold string_or_absent, check_keywords, py_contains, py_getitem, dict_mem.
  destruct (dict_get (py "description") f) as [[]|]; try discriminate; intros _;
    cbn [bind as_str]; [|eauto].
  cbv zeta. destruct (_ <? MIN_KEYWORDS); eauto.
Qed.

Lemma check_version_typed f r :
  printable_or_absent (py "version") f = true ->
  exists r', check_version (PDict f) r = Ok r'.
Proof.
  unfold printable_or_absent, check_version, py_contains, py_getitem, dict_mem.
  destruct (dict_get (py "version") f) as [v|]; cbn [bind]; [|eauto].
  destruct (py_str v) as [version|e]; [|discriminate]. intros _. cbn [bind].
  destruct (re_match false VERSION_RE version); eauto.
Qed.

Lemma check_token_estimate_typed f r :
  estimate_of_numbers f = true ->
  exists r', check_token_estimate (PDict f) r = Ok r'.
Proof.
  unfold estimate_of_numbers.
  destruct (dict_get (py "token_estimate") f) as [te|] eqn:Hte.
  - destruct te as [| | | | |d];
      try (intros _; unfold check_token_estimate, py_contains, py_getitem, dict_mem;
           rewrite Hte; cbn [bind]; now eauto).
    rewrite (check_token_estimate_mapping _ r Hte). unfold check_token_mapping.
    destruct (forallb (fun k => dict_mem k d) TOKEN_KEYS) eqn:K; [|eauto].
    cbn [negb orb]. unfold TOKEN_KEYS. cbn [forallb].
    destruct (number_at (py "min") d) as [lo|] eqn:Hlo; [|discriminate].
    destruct (number_at (py "typical") d) as [mid|] eqn:Hmid; [|discriminate].
    destruct (number_at (py "max") d) as [hi|] eqn:Hhi; [|discriminate].
    intros _. rewrite (token_order_numbers _ Hlo Hmid Hhi). cbn [bind]. eauto.
  - intros _. unfold check_token_estimate, py_contains, py_getitem, dict_mem.
    rewrite Hte. cbn [bind]. eauto.
Qed.

(** X18.  The metadata rules return on every mapping whose name and
    description are strings or absent, whose version has a [str] text or is
    absent, and whose token_estimate is no mapping, lacks one of its three
    keys or holds a number under each; and what the rules raise on any
    metadata is a [TypeError] or a [ValueError], never a [KeyError]. *)
Theorem typed_metadata_is_validated :
  (forall (f : Dict PyVal) (r : ValidationResult),
     typed_metadata f = true ->
     exists r', validate_frontmatter (PDict f) r = Ok r') /\
  (forall (frontmatter : PyVal) (r : ValidationResult) (e : PyExc),
     validate_frontmatter frontmatter r = Raise e ->
     e = TypeError \/ e = ValueError).
Proof.
  split; [|exact validate_frontmatter_raises].
  intros f r H. unfold typed_metadata in H.
  apply andb_true_iff in H as [H Ht]. apply andb_true_iff in H as [H Hv].
  apply andb_true_iff in H as [Hn Hd].
  unfold validate_frontmatter.
  destruct (check_required_mapping f r) as (r1 & ->). cbn [bind].
  destruct (check_recommended_mapping f r1) as (r2 & ->). cbn [bind].
  destruct (@check_name_typed f r2 Hn) as (r3 & ->). cbn [bind].
  destruct (@check_keywords_typed f r3 Hd) as (r4 & ->). cbn [bind].
  destruct (@check_version_typed f r4 Hv) as (r5 & ->). cbn [bind].
  exact (@check_token_estimate_typed f r5 Ht).
Qed.

(** ** The initializer: titles, names and keywords *)

Lemma plain_case c :
  plain c = true -> plain (upper_char c) = true /\ plain (lower_char c) = true.
Proof. destruct c as [[] [] [] [] [] [] [] []]; simpl; intros H; try discriminate H; auto. Qed.

Lemma case_idempotent c :
  upper_char (upper_char c) = upper_char c /\ lower_char (lower_char c) = lower_char c.
Proof. destruct c as [[] [] [] [] [] [] [] []]; split; reflexivity. Qed.

Lemma name_word_char c :
  is_lower c || is_digit c = true ->
  plain c = true /\ lower_char c = c /\ lower_char (upper_char c) = c /\
  any_but_newline c = true /\ Ascii.eqb c "," = false /\ is_space c = false /\
  Ascii.eqb c "-" = false /\ Ascii.eqb c " " = false.
Proof.
  destruct c as [[] [] [] [] [] [] [] []]; simpl; intros H; try discriminate H;
    repeat split; reflexivity.
Qed.

Lemma lower_lower s : lower (lower s) = lower s.
Proof.
  unfold lower. rewrite map_map. apply map_ext.
  intros c. apply case_idempotent.
Qed.

Lemma capitalize_idempotent w : capitalize (capitalize w) = capitalize w.
Proof.
  destruct w as [|c w]; [reflexivity|]. simpl.
  now rewrite (proj1 (case_idempotent c)), lower_lower.
Qed.

Lemma capitalize_plain w :
  w <> [] /\ forallb plain w = true ->
  capitalize w <> [] /\ forallb plain (capitalize w) = true.
Proof.
  intros [Hw Hp]. destruct w as [|c w]; [contradiction|].
  split; [discriminate|]. simpl in *. apply andb_true_iff in Hp as [Hc Hp].
  rewrite (proj1 (@plain_case c Hc)). simpl.
  clear Hw Hc. induction w as [|x w IH]; [reflexivity|].
  simpl in *. apply andb_true_iff in Hp as [Hx Hp].
  now rewrite (proj2 (@plain_case x Hx)), IH.
Qed.

(** [split()] on words put together with single spaces. *)
Lemma split_whitespace_word w rest :
  w <> [] -> forallb (fun c => negb (is_space c)) w = true ->
  split_whitespace w = [w] /\
  split_whitespace (w ++ " "%char :: rest) = w :: split_whitespace rest.
Proof.
  induction w as [|c w IH]; [contradiction|]. intros _ Hp.
  simpl in Hp. apply andb_true_iff in Hp as [Hc Hp]. apply negb_true_iff in Hc.
  destruct w as [|d w].
  - simpl. rewrite Hc. auto.
  - destruct (IH ltac:(discriminate) Hp) as [IH1 IH2].
    assert (Hd : is_space d = false).
    { simpl in Hp. apply andb_true_iff in Hp as [Hd _]. now apply negb_true_iff. }
    split.
    + change (split_whitespace (c :: d :: w))
        with (if is_space c then split_whitespace (d :: w)
              else if is_space d then [c] :: split_whitespace (d :: w)
                   else match split_whitespace (d :: w) with
                        | w' :: ws => (c :: w') :: ws
                        | [] => [[c]]
                        end).
      now rewrite Hc, Hd, IH1.
    + change (split_whitespace ((c :: d :: w) ++ " "%char :: rest))
        with (if is_space c then split_whitespace ((d :: w) ++ " "%char :: rest)
              else if is_space d then [c] :: split_whitespace ((d :: w) ++ " "%char :: rest)
                   else match split_whitespace ((d :: w) ++ " "%char :: rest) with
                        | w' :: ws => (c :: w') :: ws
                        | [] => [[c]]
                        end).
      now rewrite Hc, Hd, IH2.
Qed.

Lemma join_cons sep (w : str) ws :
  ws <> [] -> join sep (w :: ws) = w ++ sep ++ join sep ws.
Proof. destruct ws; [contradiction|reflexivity]. Qed.

Lemma split_whitespace_join ws :
  Forall (fun w => w <> [] /\ forallb (fun c => negb (is_space c)) w = true) ws ->
  split_whitespace (join (py " ") ws) = ws.
Proof.
  induction 1 as [|w ws [Hw Hp] _ IH]; [reflexivity|].
  destruct ws as [|w2 ws].
  - simpl. now apply split_whitespace_word.
  - rewrite join_cons by discriminate.
    change (py " " ++ join (py " ") (w2 :: ws))
      with (" "%char :: join (py " ") (w2 :: ws)).
    rewrite (proj2 (@split_whitespace_word w (join (py " ") (w2 :: ws)) Hw Hp)).
    now rewrite IH.
Qed.

(** The words [split()] returns. *)
Lemma split_whitespace_words (P : ascii -> bool) s :
  forallb P s = true ->
  Forall (fun w => w <> [] /\ forallb (fun c => negb (is_space c) && P c) w = true)
         (split_whitespace s).
Proof.
  induction s as [|c s IH]; intros H; [constructor|].
  simpl in H. apply andb_true_iff in H as [Hc Hs]. specialize (IH Hs).
  cbn [split_whitespace]. destruct (is_space c) eqn:Ec; [exact IH|].
  destruct s as [|d s].
  - constructor; [|constructor]. split; [discriminate|]. simpl. now rewrite Ec, Hc.
  - destruct (is_space d) eqn:Ed.
    + constructor; [|exact IH]. split; [discriminate|]. simpl. now rewrite Ec, Hc.
    + destruct (split_whitespace (d :: s)) as [|w ws].
      * constructor; [|constructor]. split; [discriminate|]. simpl. now rewrite Ec, Hc.
      * inversion IH as [|? ? [Hw Hp] Hws]; subst.
        constructor; [|exact Hws]. split; [discriminate|].
        simpl. now rewrite Ec, Hc.
Qed.

Lemma replace_char_same old new s :
  forallb (fun c => negb (Ascii.eqb c old)) s = true -> replace_char old new s = s.
Proof.
  induction s as [|c s IH]; simpl; [reflexivity|].
  intros H. apply andb_true_iff in H as [Hc Hs]. apply negb_true_iff in Hc.
  now rewrite Hc, IH.
Qed.

Lemma replace_char_app old new a b :
  replace_char old new (a ++ b) = replace_char old new a ++ replace_char old new b.
Proof. apply map_app. Qed.

Lemma replace_char_join old new ws :
  Forall (fun w => forallb (fun c => negb (Ascii.eqb c old)) w = true) ws ->
  replace_char old new (join [old] ws) = join [new] ws.
Proof.
  induction 1 as [|w ws Hw _ IH]; [reflexivity|].
  destruct ws as [|w2 ws].
  - simpl. now apply replace_char_same.
  - rewrite !join_cons by discriminate.
    rewrite !replace_char_app, IH, (@replace_char_same old new w Hw).
    simpl. now rewrite Ascii.eqb_refl.
Qed.

Lemma replaced_has_no_dash s :
  forallb (fun c => negb (Ascii.eqb c "-")) (replace_char "-" " " s) = true.
Proof.
  induction s as [|c s IH]; simpl; [reflexivity|]. rewrite IH, andb_true_r.
  destruct (Ascii.eqb c "-") eqn:E; [reflexivity|]. now rewrite E.
Qed.

Lemma forallb_join (P : ascii -> bool) sep ws :
  forallb P sep = true -> Forall (fun w => forallb P w = true) ws ->
  forallb P (join sep ws) = true.
Proof.
  intros Hsep. induction 1 as [|w ws Hw _ IH]; [reflexivity|].
  destruct ws as [|w2 ws]; [exact Hw|].
  rewrite join_cons by discriminate. now rewrite !forallb_app, Hw, Hsep, IH.
Qed.

Lemma Forall_plain_words ws :
  Forall (fun w => w <> [] /\ forallb plain w = true) ws ->
  Forall (fun w => w <> [] /\ forallb (fun c => negb (is_space c)) w = true) ws /\
  Forall (fun w => forallb (fun c => negb (Ascii.eqb c "-")) w = true) ws.
Proof.
  induction 1 as [|w ws [Hw Hp] _ [IH1 IH2]]; [split; constructor|].
  unfold plain in Hp. rewrite forallb_forall in Hp.
  split; constructor; try assumption; [split; [assumption|]|];
    apply forallb_forall; intros c Hc; specialize (Hp c Hc);
    apply andb_true_iff in Hp; tauto.
Qed.

(** The title of a text made of plain words with single spaces. *)
Lemma to_title_case_words ws :
  Forall (fun w => w <> [] /\ forallb plain w = true) ws ->
  to_title_case (join (py " ") ws) = join (py " ") (map capitalize ws).
Proof.
  intros H. destruct (Forall_plain_words H) as [H1 H2]. unfold to_title_case.
  rewrite replace_char_same, split_whitespace_join; [reflexivity|assumption|].
  apply forallb_join; [reflexivity|assumption].
Qed.

(** X19.  On a name of code points below 128, [to_title_case] of a title is
    that title. *)
Theorem to_title_case_idempotent :
  forall name : str,
    forallb is_ascii name = true ->
    to_title_case (to_title_case name) = to_title_case name.
Proof.
  intros name _. unfold to_title_case at 2 3.
  set (ws := split_whitespace (replace_char "-" " " name)).
  assert (Hws : Forall (fun w => w <> [] /\ forallb plain w = true) ws).
  { apply (@split_whitespace_words _ _ (replaced_has_no_dash name)). }
  rewrite to_title_case_words.
  - rewrite map_map. f_equal. apply map_ext. apply capitalize_idempotent.
  - clear -Hws. induction Hws as [|w ws Hw _ IH]; simpl; constructor; auto.
    now apply capitalize_plain.
Qed.

Lemma name_words_plain ws :
  Forall name_word ws -> Forall (fun w => w <> [] /\ forallb plain w = true) ws.
Proof.
  apply Forall_impl. intros w [Hw Hp]. split; [assumption|].
  rewrite forallb_forall in *. intros c Hc. now apply (@name_word_char c), Hp.
Qed.

Lemma name_words_chars (P : ascii -> bool) ws :
  (forall c, is_lower c || is_digit c = true -> P c = true) ->
  Forall name_word ws -> Forall (fun w => forallb P w = true) ws.
Proof.
  intros HP. apply Forall_impl. intros w [_ Hp].
  rewrite forallb_forall in *. auto.
Qed.

Lemma lower_join sep ws : lower (join sep ws) = join (lower sep) (map lower ws).
Proof.
  induction ws as [|w ws IH]; [reflexivity|].
  destruct ws as [|w2 ws]; [reflexivity|].
  change (join sep (w :: w2 :: ws)) with (w ++ sep ++ join sep (w2 :: ws)).
  change (join (lower sep) (map lower (w :: w2 :: ws)))
    with (lower w ++ lower sep ++ join (lower sep) (map lower (w2 :: ws))).
  rewrite <- IH. unfold lower. now rewrite !map_app.
Qed.

Lemma lower_name_word w : name_word w -> lower w = w /\ lower (capitalize w) = w.
Proof.
  intros [Hw Hp]. assert (Hl : forall t, forallb (fun c => is_lower c || is_digit c) t = true -> lower t = t).
  { induction t as [|c t IH]; simpl; [reflexivity|]. intros H.
    apply andb_true_iff in H as [Hc Ht].
    destruct (@name_word_char c Hc) as (_ & -> & _). now rewrite IH. }
  split; [now apply Hl|]. destruct w as [|c w]; [contradiction|].
  simpl in *. apply andb_true_iff in Hp as [Hc Hp].
  destruct (@name_word_char c Hc) as (_ & _ & -> & _).
  now rewrite lower_lower, Hl.
Qed.

(** The name [create_skill] makes of a name in kebab case is the name. *)
Lemma skill_name_fixed ws d :
  Forall name_word ws ->
  skill_name (skill_fields (join (py "-") ws) d) = join (py "-") ws.
Proof.
  intros H. cbn [skill_fields skill_name].
  rewrite lower_join. change (lower (py "-")) with (py "-").
  replace (map lower ws) with ws.
  - apply replace_char_same. apply forallb_join; [reflexivity|].
    apply (@name_words_chars (fun c => negb (Ascii.eqb c " "))); [|assumption].
    intros c Hc. destruct (@name_word_char c Hc) as (_ & _ & _ & _ & _ & _ & _ & ->).
    reflexivity.
  - clear d. induction H as [|w ws Hw _ IH]; [reflexivity|].
    simpl. now rewrite (proj1 (lower_name_word Hw)), <- IH.
Qed.

(** X20.  For a name in kebab case the title [create_skill] computes is
    the words capitalised and joined by spaces, and the name it computes
    from that title is the name again. *)
Theorem title_round_trip :
  forall (words : list str) (d d' : option str),
    Forall name_word words ->
    let name := join (py "-") words in
    skill_title (skill_fields name d) = join (py " ") (map capitalize words) /\
    skill_name (skill_fields (skill_title (skill_fields name d)) d') = name.
Proof.
  intros words d d' H name.
  assert (Htitle : skill_title (skill_fields name d) =
                   join (py " ") (map capitalize words)).
  { change (skill_title (skill_fields name d))
      with (to_title_case (skill_name (skill_fields name d))).
    unfold name. rewrite (@skill_name_fixed words d H). unfold to_title_case.
    change (py "-") with ["-"%char].
    rewrite (@replace_char_join "-" " " words).
    - change [" "%char] with (py " "). rewrite split_whitespace_join; [reflexivity|].
      apply (Forall_plain_words (name_words_plain H)).
    - apply (Forall_plain_words (name_words_plain H)). }
  split; [exact Htitle|]. rewrite Htitle. cbn [skill_fields skill_name].
  rewrite lower_join, map_map. change (lower (py " ")) with [" "%char].
  replace (map (fun w => lower (capitalize w)) words) with words.
  - unfold name. change (py "-") with ["-"%char].
    apply (@replace_char_join " " "-" words).
    apply (@name_words_chars (fun c => negb (Ascii.eqb c " "))); [|assumption].
    intros c Hc. destruct (@name_word_char c Hc) as (_ & _ & _ & _ & _ & _ & _ & ->).
    reflexivity.
  - clear -H. induction H as [|w ws Hw _ IH]; [reflexivity|].
    simpl. now rewrite (proj2 (lower_name_word Hw)), <- IH.
Qed.

(** ** The keywords the initializer writes, as the validator reads them *)

Lemma split_word sep w rest :
  forallb (fun c => negb (Ascii.eqb c sep)) w = true ->
  split sep w = [w] /\ split sep (w ++ sep :: rest) = w :: split sep rest.
Proof.
  induction w as [|c w IH]; intros H.
  - simpl. now rewrite Ascii.eqb_refl.
  - simpl in H. apply andb_true_iff in H as [Hc Hw]. apply negb_true_iff in Hc.
    destruct (IH Hw) as [IH1 IH2]. simpl. now rewrite Hc, IH1, IH2.
Qed.

Lemma split_join sep ws :
  ws <> [] ->
  Forall (fun w => forallb (fun c => negb (Ascii.eqb c sep)) w = true) ws ->
  split sep (join [sep] ws) = ws.
Proof.
  intros Hne H. induction H as [|w ws Hw _ IH]; [contradiction|].
  destruct ws as [|w2 ws].
  - simpl. now apply split_word.
  - rewrite join_cons by discriminate.
    change ([sep] ++ join [sep] (w2 :: ws)) with (sep :: join [sep] (w2 :: ws)).
    rewrite (proj2 (@split_word sep w (join [sep] (w2 :: ws)) Hw)).
    now rewrite IH by discriminate.
Qed.

Lemma lstrip_spaces pre w :
  forallb is_space pre = true -> lstrip (pre ++ w) = lstrip w.
Proof.
  induction pre as [|c pre IH]; simpl; [reflexivity|].
  intros H. apply andb_true_iff in H as [Hc Hp]. now rewrite Hc, IH.
Qed.

Lemma strip_name_word pre w :
  forallb is_space pre = true -> name_word w -> strip (pre ++ w) = w.
Proof.
  intros Hpre [Hw Hp]. unfold strip. rewrite (@lstrip_spaces pre w Hpre).
  assert (Hns : forallb (fun c => negb (is_space c)) w = true).
  { rewrite forallb_forall in *. intros c Hc.
    destruct (@name_word_char c (Hp c Hc)) as (_ & _ & _ & _ & _ & -> & _).
    reflexivity. }
  fold (strip w). apply strip_fixed.
  - destruct w as [|c w]; [reflexivity|]. simpl in *.
    now apply andb_true_iff in Hns as [-> _].
  - unfold ends_clean. destruct (rev w) as [|c t] eqn:E; [reflexivity|].
    simpl. rewrite forallb_forall in Hns. apply Hns.
    apply in_rev. rewrite E. now left.
Qed.

Lemma strip_split_join pre ws :
  ws <> [] -> Forall name_word ws -> forallb is_space pre = true ->
  map strip (split ","%char (pre ++ join (py ", ") ws)) = ws.
Proof.
  intros Hne H. revert pre. induction H as [|w ws Hw _ IH]; [contradiction|].
  intros pre Hpre.
  assert (Hcomma : forallb (fun c => negb (Ascii.eqb c ",")) (pre ++ w) = true).
  { rewrite forallb_app. apply andb_true_iff. split.
    - rewrite forallb_forall in *. intros c Hc. specialize (Hpre c Hc).
      destruct c as [[] [] [] [] [] [] [] []]; try reflexivity; discriminate Hpre.
    - destruct Hw as [_ Hp]. rewrite forallb_forall in *. intros c Hc.
      destruct (@name_word_char c (Hp c Hc)) as (_ & _ & _ & _ & -> & _).
      reflexivity. }
  destruct ws as [|w2 ws].
  - cbn [join]. rewrite (proj1 (@split_word "," (pre ++ w) [] Hcomma)).
    simpl. now rewrite strip_name_word.
  - rewrite join_cons by discriminate.
    change (py ", " ++ join (py ", ") (w2 :: ws))
      with (","%char :: py " " ++ join (py ", ") (w2 :: ws)).
    rewrite app_assoc.
    rewrite (proj2 (@split_word "," (pre ++ w) _ Hcomma)).
    cbn [map]. rewrite strip_name_word by assumption.
    now rewrite IH by (discriminate || reflexivity).
Qed.

(** X21.  The keywords [create_skill] writes for a name in kebab case, put
    after the label [Keywords: ], are read back by the validator's
    [extract_keywords] as the words of the name, one keyword for each. *)
Theorem keywords_round_trip :
  forall (pre : str) (words : list str) (d : option str),
    words <> [] -> Forall name_word words ->
    let fields := skill_fields (join (py "-") words) d in
    no_label_before (length pre) (pre ++ py "Keywords: " ++ keywords fields) ->
    skill_name fields = join (py "-") words /\
    extract_keywords (pre ++ py "Keywords: " ++ keywords fields) = words.
Proof.
  intros pre words d Hne H fields.
  assert (Hname : skill_name fields = join (py "-") words)
    by apply (@skill_name_fixed words d H).
  assert (Hkw : keywords fields = join (py ", ") words).
  { change (keywords fields)
      with (join (py ", ") (split "-" (skill_name fields))).
    rewrite Hname. change (py "-") with ["-"%char]. rewrite split_join; auto.
    apply (@name_words_chars (fun c => negb (Ascii.eqb c "-"))); [|assumption].
    intros c Hc. destruct (@name_word_char c Hc) as (_ & _ & _ & _ & _ & _ & -> & _).
    reflexivity. }
  rewrite Hkw. intros Hpre. split; [exact Hname|].
  assert (Hline : forallb any_but_newline (join (py ", ") words) = true).
  { apply forallb_join; [reflexivity|].
    apply (@name_words_chars any_but_newline); [|assumption].
    intros c Hc. now destruct (@name_word_char c Hc) as (_ & _ & _ & -> & _). }
  pose proof (@strip_split_join [] words Hne H eq_refl) as Hsplit.
  cbn [app] in Hsplit.
  destruct (join (py ", ") words) as [|c line] eqn:E.
  { destruct H as [|w ws [Hw _] _]; [contradiction|].
    destruct w; [contradiction|]. destruct ws; discriminate E. }
  assert (Hc : is_space c = false).
  { destruct H as [|w ws [Hw Hp] _]; [contradiction|].
    destruct w as [|x w]; [contradiction|].
    assert (x = c) by (destruct ws; now injection E). subst x.
    simpl in Hp. apply andb_true_iff in Hp as [Hx _].
    now destruct (@name_word_char c Hx) as (_ & _ & _ & _ & _ & -> & _). }
  simpl in Hline. apply andb_true_iff in Hline as [_ Hline].
  rewrite <- Hsplit.
  change (pre ++ py "Keywords: " ++ c :: line)
    with (pre ++ py "Keywords:" ++ py " " ++ c :: line) in *.
  rewrite <- (app_nil_r line) in Hpre |- * at 1.
  apply extract_keywords_first_label; auto.
  left. reflexivity.
Qed.

(** ** The name the initializer writes, as the validator reads it *)

Lemma name_char_normalised c :
  name_char c = true ->
  kebab_char (if Ascii.eqb (lower_char c) " " then "-"%char else lower_char c) = true.
Proof.
  destruct c as [[] [] [] [] [] [] [] []]; simpl; intros H; try discriminate H;
    reflexivity.
Qed.

Lemma check_name_accepts f name r :
  dict_get (py "name") f = Some (PStr name) -> kebab_name name ->
  check_name (PDict f) r = Ok r.
Proof.
  intros H Hk. rewrite (@check_name_string f name r H).
  apply name_re_matches in Hk.
  destruct (re_match false NAME_RE name); [reflexivity|congruence].
Qed.

(** X22.  The name [create_skill] makes of a name of letters, digits,
    spaces and dashes is one the validator's name rule accepts. *)
Theorem generated_name_is_kebab :
  forall (name : str) (d : option str),
    name <> [] -> forallb name_char name = true ->
    let skill_name := skill_name (skill_fields name d) in
    kebab_name skill_name /\
    forall (f : Dict PyVal) (r : ValidationResult),
      dict_get (py "name") f = Some (PStr skill_name) ->
      check_name (PDict f) r = Ok r.
Proof.
  intros name d Hne Hchars generated.
  assert (Hk : kebab_name generated).
  { exists generated. repeat split; [| |now left].
    - subst generated. destruct name; [contradiction|discriminate].
    - subst generated. cbn [skill_fields skill_name].
      unfold replace_char, lower. rewrite map_map.
      clear Hne. induction name as [|c name IH]; [reflexivity|].
      simpl in *. apply andb_true_iff in Hchars as [Hc Hn].
      now rewrite (@name_char_normalised c Hc), IH. }
  split; [exact Hk|]. intros f r H. exact (@check_name_accepts f generated r H Hk).
Qed.

(** ** The rules on the presence of fields *)

Lemma check_required_step f r field :
  (missing <- absent_or_falsy (PDict f) field ;;
   Ok (if missing then
         add_issue r ERROR
           (py "Missing required frontmatter field: " ++ field)
           (py "frontmatter")
           (Some (py "Add '" ++ field ++ py ":' to the YAML frontmatter"))
       else r)) =
  Ok (add_all r (if has_value f field then [] else [missing_field field])).
Proof.
  unfold absent_or_falsy, py_contains, py_getitem, dict_mem, has_value.
  destruct (dict_get field f) as [v|]; cbn [bind]; [|reflexivity].
  now destruct (py_truthy v).
Qed.

(** X23.  On a mapping, the required-field rule reports each of [name],
    [description] and [version] that is absent or has a falsy value, and
    the recommended-field rule each of its three fields that is absent,
    whatever its value; both in the order of their lists. *)
Theorem field_presence_rules :
  forall (f : Dict PyVal) (r : ValidationResult),
    check_required (PDict f) r =
      Ok (add_all r
            (map missing_field
               (filter (fun field => negb (has_value f field))
                       REQUIRED_FRONTMATTER))) /\
    check_recommended (PDict f) r =
      Ok (add_all r
            (map missing_recommended
               (filter (fun field => negb (dict_mem field f))
                       RECOMMENDED_FRONTMATTER))).
Proof.
  intros f r. split.
  - unfold check_required, REQUIRED_FRONTMATTER. cbn [for_each].
    rewrite !check_required_step. cbn [bind filter].
    rewrite !check_required_step. cbn [bind].
    rewrite !check_required_step. cbn [bind].
    destruct (has_value f (py "name")), (has_value f (py "description")),
      (has_value f (py "version")); reflexivity.
  - unfold check_recommended, RECOMMENDED_FRONTMATTER, py_contains.
    cbn [for_each bind filter].
    destruct (dict_mem (py "behaviors") f), (dict_mem (py "token_estimate") f),
      (dict_mem (py "dependencies") f); reflexivity.
Qed.

(** ** The order of the findings *)

Section Order.

Variable safe_load : str -> Result PyVal.

(** X24.  The findings of a document that was read come in the order of
    the pipeline: the optional directories, the metadata, the sections,
    the length. *)
Theorem findings_in_pipeline_order :
  forall (fs : FileSystem) (skill_path : Path) (content : str)
         (r : ValidationResult),
    reads fs skill_path content ->
    validate_skill safe_load fs skill_path = Ok r ->
    exists structure metadata sections size,
      issues r = structure ++ metadata ++ sections ++ size /\
      forallb (from_rule ROptionalDirectory) structure = true /\
      forallb (from_rules (RNoFrontmatter :: FRONTMATTER_RULES)) metadata = true /\
      forallb (from_rules SECTION_RULES) sections = true /\
      forallb (from_rule RLength) size = true.
Proof.
  intros fs skill_path content r Hreads H.
  rewrite (@validate_skill_reads safe_load fs skill_path content Hreads) in H.
  apply validate_content_steps in H as (fm & body & r1 & _ & H1 & ->).
  assert (H0 : exists l0, issues (after_structure fs skill_path) = l0 /\
                          forallb (from_rule ROptionalDirectory) l0 = true).
  { destruct Hreads as (_ & Hex & _).
    unfold after_structure, validate_structure. rewrite Hex. cbn [negb fst].
    destruct (negb (path_exists fs (path_join skill_path (py "references")))),
      (negb (path_exists fs (path_join skill_path (py "scripts"))));
      eexists; split; reflexivity. }
  destruct H0 as (l0 & I0 & F0).
  assert (Hm : exists l1, issues r1 = l0 ++ l1 /\
                 forallb (from_rules (RNoFrontmatter :: FRONTMATTER_RULES)) l1 = true).
  { destruct (negb (py_truthy fm)).
    - subst r1. exists [no_frontmatter (path_join skill_path (py "SKILL.md"))].
      simpl. now rewrite I0.
    - destruct H1 as (r0 & Hv & ->).
      apply validate_frontmatter_appended in Hv as (l1 & I1 & F1 & _).
      exists l1. simpl. rewrite I1, I0. split; [reflexivity|].
      rewrite forallb_forall in *. intros i Hi. specialize (F1 i Hi).
      unfold from_rules in *. simpl in *. now rewrite F1, orb_true_r. }
  destruct Hm as (l1 & I1 & F1).
  destruct (validate_sections_appended (extract_sections body) r1)
    as (l2 & I2 & F2 & _).
  set (r3 := set_metadata _ _ _).
  destruct (check_length_appended (Z.of_nat (length content))
              (path_join skill_path (py "SKILL.md")) r3) as (l3 & I3 & F3 & _).
  exists l0, l1, l2, l3. repeat split; try assumption.
  rewrite I3. subst r3. simpl. now rewrite I2, I1, <- !app_assoc.
Qed.

End Order.

(** ** Counting the phases *)

Lemma hash_lower x : Ascii.eqb "#" (lower_char x) = Ascii.eqb "#" x.
Proof. destruct x as [[] [] [] [] [] [] [] []]; reflexivity. Qed.

Lemma startswith_hashes_lower k t :
  startswith (repeat "#"%char k) (lower t) = startswith (repeat "#"%char k) t.
Proof.
  revert t. induction k as [|k IH]; intros t; [reflexivity|].
  destruct t as [|x t]; [reflexivity|].
  cbn [repeat lower map startswith]. fold (lower t).
  now rewrite hash_lower, IH.
Qed.

Lemma startswith_hashes t :
  startswith (lower (py "###")) (lower t) = startswith (py "###") t.
Proof. exact (startswith_hashes_lower 3 t). Qed.

Lemma phase_after_space i x r :
  is_space x = true ->
  m true (lit "Phase" Eps) (MState i (x :: r) None) = [].
Proof.
  intros Hx. unfold lit. rewrite m_lit_ignorecase.
  replace (startswith (lower (py "Phase")) (lower (x :: r))) with false; [reflexivity|].
  destruct x as [[] [] [] [] [] [] [] []]; try discriminate Hx; reflexivity.
Qed.

(** The phase pattern matches where [phase_at] holds, and how far. *)
Lemma phase_match n t :
  match_at true PHASE_RE n t =
    if phase_at t
    then Some (MState (5 + (length (take_while is_space (skipn 3 t)) + (3 + n)))
                      (skipn 5 (lstrip (skipn 3 t))) None)
    else None.
Proof.
  unfold match_at, PHASE_RE, phase_at. unfold lit at 1.
  rewrite m_lit_ignorecase, startswith_hashes.
  destruct (startswith (py "###") t); [|reflexivity]. cbn [andb].
  change (length (py "###")) with 3.
  cbn [m pos rest grp]. rewrite (@many_ext _ _ cls_match_space).
  rewrite flat_map_concat_map, map_map, <- flat_map_concat_map.
  rewrite (@many_then_stop _ is_space
             (fun e => m true (lit "Phase" Eps) (MState (fst e) (snd e) None))).
  2:{ intros i x r Hx. now apply phase_after_space. }
  cbn [fst snd]. unfold lit. rewrite m_lit_ignorecase, lstrip_drop_while.
  change (lower (py "Phase")) with (py "phase").
  change (length (py "Phase")) with 5.
  now destruct (startswith (py "phase") (lower (drop_while is_space (skipn 3 t)))).
Qed.

Lemma letter_not_hash c x :
  is_lower c = true -> Ascii.eqb c (lower_char x) = true -> not_hash x = true.
Proof.
  intros Hc H. apply Ascii.eqb_eq in H. subst c.
  destruct x as [[] [] [] [] [] [] [] []]; try reflexivity; discriminate Hc.
Qed.

Lemma space_not_hash x : is_space x = true -> not_hash x = true.
Proof. destruct x as [[] [] [] [] [] [] [] []]; intros H; try reflexivity; discriminate H. Qed.

Lemma startswith_letters p : forall d,
  forallb is_lower p = true -> startswith p (lower d) = true ->
  exists R rest, d = R ++ rest /\ length R = length p /\ forallb not_hash R = true.
Proof.
  induction p as [|c p IH]; intros d Hp H.
  - exists [], d. auto.
  - destruct d as [|x d]; [discriminate H|].
    cbn [lower map startswith] in H. fold (lower d) in H.
    simpl in Hp. apply andb_true_iff in Hp as [Hc Hp].
    apply andb_true_iff in H as [Hx H].
    destruct (IH d Hp H) as (R & rest & -> & Hlen & HR).
    exists (x :: R), rest. repeat split; simpl; [now rewrite Hlen|].
    now rewrite (@letter_not_hash c x Hc Hx), HR.
Qed.

(** The text of a match after its three hashes holds no hash. *)
Lemma phase_region t :
  phase_at t = true ->
  exists R rest,
    t = py "###" ++ R ++ rest /\
    length R = length (take_while is_space (skipn 3 t)) + 5 /\
    forallb not_hash R = true.
Proof.
  unfold phase_at. intros H. apply andb_true_iff in H as [H3 Hp].
  apply startswith_iff in H3 as (u & ->).
  change (skipn 3 (py "###" ++ u)) with u in *.
  rewrite lstrip_drop_while in Hp.
  destruct (@startswith_letters (py "phase") _ eq_refl Hp) as (R & rest & Hd & Hlen & HR).
  exists (take_while is_space u ++ R), rest. repeat split.
  - now rewrite <- app_assoc, <- Hd, take_drop_while.
  - rewrite length_app, Hlen. reflexivity.
  - rewrite forallb_app, HR, andb_true_r.
    pose proof (take_while_all is_space u) as Hs. rewrite forallb_forall in *.
    intros x Hx. apply space_not_hash. auto.
Qed.

Lemma phase_at_first y tl : not_hash y = true -> phase_at (y :: tl) = false.
Proof.
  unfold not_hash, phase_at. intros H. apply negb_true_iff in H.
  change (py "###") with ("#"%char :: py "##"). cbn [startswith]. now rewrite H.
Qed.

Lemma phase_at_second y tl : not_hash y = true -> phase_at ("#"%char :: y :: tl) = false.
Proof.
  unfold not_hash, phase_at. intros H. apply negb_true_iff in H.
  change (py "###") with ("#"%char :: "#"%char :: py "#"). cbn [startswith].
  now rewrite H, andb_false_r.
Qed.

Lemma phase_at_third y tl :
  not_hash y = true -> phase_at ("#"%char :: "#"%char :: y :: tl) = false.
Proof.
  unfold not_hash, phase_at. intros H. apply negb_true_iff in H.
  change (py "###") with ["#"%char; "#"%char; "#"%char]. cbn [startswith].
  now rewrite H, !andb_false_r.
Qed.

Lemma skipn_in_region R rest : forall j,
  j < length R -> forallb not_hash R = true ->
  exists y tl, skipn j (R ++ rest) = y :: tl /\ not_hash y = true.
Proof.
  induction R as [|x R IH]; intros j Hj HR; [simpl in Hj; lia|].
  simpl in HR. apply andb_true_iff in HR as [Hx HR].
  destruct j as [|j]; [simpl; eauto|].
  simpl in *. apply IH; [lia|assumption].
Qed.

(** Matches of the phase pattern do not overlap. *)
Lemma phase_no_overlap c s' :
  phase_at (c :: s') = true ->
  forall i, i < 7 + length (take_while is_space (skipn 3 (c :: s'))) ->
            phase_at (skipn i s') = false.
Proof.
  intros H i Hi. destruct (@phase_region _ H) as (R & rest & Ht & Hlen & HR).
  assert (Hi' : i < 2 + length R) by lia.
  assert (HR5 : 0 < length R) by lia.
  clear Hi Hlen H.
  change (py "###" ++ R ++ rest)
    with ("#"%char :: "#"%char :: "#"%char :: R ++ rest) in Ht.
  injection Ht as -> ->.
  destruct R as [|x R]; [simpl in HR5; lia|].
  pose proof HR as HR'. simpl in HR'. apply andb_true_iff in HR' as [Hx _].
  destruct i as [|[|j]].
  - now apply phase_at_third.
  - now apply phase_at_second.
  - cbn [skipn]. destruct (@skipn_in_region (x :: R) rest j) as (y & tl & -> & Hy);
      [simpl in *; lia|assumption|].
    now apply phase_at_first.
Qed.

Lemma length_filter_suffixes c s' :
  length (filter phase_at (suffixes (c :: s'))) =
    (if phase_at (c :: s') then 1 else 0) + length (filter phase_at (suffixes s')).
Proof. cbn [suffixes filter]. now destruct (phase_at (c :: s')). Qed.

Lemma scan_phases s : forall n k,
  (forall i, i < k -> phase_at (skipn i s) = false) ->
  length (scan true PHASE_RE n s k) = length (filter phase_at (suffixes s)).
Proof.
  induction s as [|c s IH]; intros n k Hk.
  - cbn [scan]. rewrite phase_match. change (phase_at []) with false.
    now destruct k.
  - rewrite length_filter_suffixes. destruct k as [|k].
    + cbn [scan]. rewrite phase_match.
      destruct (phase_at (c :: s)) eqn:E.
      * cbn [pos length]. rewrite IH; [reflexivity|].
        intros i Hi. apply (@phase_no_overlap c s E). lia.
      * apply IH. intros i Hi. lia.
    + cbn [scan]. pose proof (Hk 0 ltac:(lia)) as H0. cbn [skipn] in H0.
      rewrite H0. apply IH.
      intros i Hi. apply (Hk (S i)). lia.
Qed.

(** X25.  The number of phases the process rule counts is the number of
    places in the section where three hashes, any whitespace and the word
    [phase] in any case of letters start, wherever in a line; the rule then
    reports a section that is not empty and has fewer than two. *)
Theorem phases_counted :
  (forall s : str,
     re_findall_count true PHASE_RE s = length (filter phase_at (suffixes s))) /\
  (forall (sections : Dict str) (r : ValidationResult),
     check_process sections r =
       match first_section_with (py "process") sections with
       | Some (c :: t) =>
           let phase_count := length (filter phase_at (suffixes (c :: t))) in
           if phase_count <? 2 then add_all r [few_phases phase_count] else r
       | _ => r
       end).
Proof.
  assert (H : forall s, re_findall_count true PHASE_RE s =
                        length (filter phase_at (suffixes s))).
  { intros s. unfold re_findall_count. apply scan_phases. intros i Hi. lia. }
  split; [exact H|]. intros sections r. unfold check_process.
  destruct (first_section_with (py "process") sections) as [[|c t]|];
    try reflexivity.
  cbv zeta. rewrite H. now destruct (_ <? 2).
Qed.

(** ** The sections of a body *)

Lemma existsb_str_eqb k l : existsb (str_eqb k) l = true <-> In k l.
Proof.
  rewrite existsb_exists. split.
  - intros (x & Hx & E). apply str_eqb_eq in E. now subst.
  - intros H. exists k. split; [assumption|apply str_eqb_refl].
Qed.

Lemma dict_set_normal k v (d : Dict str) :
  normal_section (k, v) ->
  NoDup (dict_keys d) /\ Forall normal_section d ->
  NoDup (dict_keys (dict_set k v d)) /\ Forall normal_section (dict_set k v d).
Proof.
  intros Hkv [Hnd Hall]. split.
  - rewrite dict_keys_set. destruct (existsb (str_eqb k) (dict_keys d)) eqn:E.
    + exact Hnd.
    + apply NoDup_app; [exact Hnd|constructor; [intros []|constructor]|].
      intros x Hx [<-|[]]. apply existsb_str_eqb in Hx. congruence.
  - clear Hnd. induction Hall as [|[k' v'] d Hk Hd IH]; simpl.
    + constructor; [exact Hkv|constructor].
    + destruct (str_eqb k k') eqn:E.
      * apply str_eqb_eq in E. subst k'. constructor; [exact Hkv|exact Hd].
      * constructor; [exact Hk|exact IH].
Qed.

Lemma store_all_normal blocks : forall d,
  Forall normal_section blocks ->
  NoDup (dict_keys d) /\ Forall normal_section d ->
  NoDup (dict_keys (store_all blocks d)) /\ Forall normal_section (store_all blocks d).
Proof.
  induction blocks as [|[k v] blocks IH]; intros d Hb Hd; [exact Hd|].
  inversion Hb as [|? ? Hkv Hrest]; subst.
  unfold store_all in *. simpl. apply IH; [assumption|].
  now apply dict_set_normal.
Qed.

Lemma spec_blocks_normal lines :
  Forall normal_section (filter titled (spec_blocks lines)).
Proof.
  induction lines as [|line lines IH]; simpl; [constructor|].
  destruct (is_heading line); [|exact IH]. simpl.
  destruct (titled (spec_title line, strip (join [NL] (content_lines lines)))) eqn:T;
    [|exact IH].
  constructor; [|exact IH]. repeat split; simpl.
  - unfold titled in T. simpl in T. now destruct (spec_title line).
  - unfold spec_title. apply strip_strip.
  - apply strip_strip.
Qed.

(** X26.  The titles [extract_sections] returns are pairwise distinct, none
    is empty, and titles and contents are trimmed: trimming them again
    changes nothing. *)
Theorem sections_are_normalised :
  forall body : str,
    NoDup (dict_keys (extract_sections body)) /\
    Forall (fun kv => fst kv <> [] /\ strip (fst kv) = fst kv /\
                      strip (snd kv) = snd kv)
           (extract_sections body).
Proof.
  intros body.
  assert (H : extract_sections body =
              store_all (filter titled (spec_blocks (split NL body))) [])
    by apply sections_of_lines_blocks.
  rewrite H. apply store_all_normal.
  - apply spec_blocks_normal.
  - split; constructor.
Qed.

Lemma first_occurrences_In t l : forall seen,
  In t (first_occurrences seen l) <-> In t seen \/ In t l.
Proof.
  induction l as [|x l IH]; intros seen; simpl.
  - tauto.
  - rewrite IH. destruct (existsb (str_eqb x) seen) eqn:E.
    + apply existsb_str_eqb in E. split; [tauto|].
      intros [H|[<-|H]]; auto.
    + rewrite in_app_iff. simpl. tauto.
Qed.

Lemma spec_blocks_titles t lines :
  In t (map fst (filter titled (spec_blocks lines))) <->
  t <> [] /\ exists line, In line lines /\ is_heading line = true /\
                          spec_title line = t.
Proof.
  induction lines as [|line lines IH]; simpl.
  - split; [contradiction|]. intros (_ & l & [] & _).
  - destruct (is_heading line) eqn:E.
    + cbn [filter].
      destruct (titled (spec_title line, strip (join [NL] (content_lines lines)))) eqn:T.
      * cbn [map fst In]. rewrite IH. split.
        -- intros [<-|(Ht & l & Hl & Hh & Hs)].
           ++ split; [unfold titled in T; simpl in T; now destruct (spec_title line)|].
              exists line. auto.
           ++ split; [assumption|]. exists l. auto.
        -- intros (Ht & l & [<-|Hl] & Hh & Hs).
           ++ now left.
           ++ right. split; [assumption|]. exists l. auto.
      * rewrite IH. split.
        -- intros (Ht & l & Hl & Hh & Hs). split; [assumption|]. exists l. auto.
        -- intros (Ht & l & [<-|Hl] & Hh & Hs).
           ++ exfalso. unfold titled in T. simpl in T. rewrite Hs in T. now destruct t.
           ++ split; [assumption|]. exists l. auto.
    + rewrite IH. split.
      * intros (Ht & l & Hl & Hh & Hs). split; [assumption|]. exists l. auto.
      * intros (Ht & l & [<-|Hl] & Hh & Hs); [congruence|].
        split; [assumption|]. exists l. auto.
Qed.

Lemma lower_nil s : lower s = [] -> s = [].
Proof. destruct s; [reflexivity|discriminate]. Qed.

(** X27.  From the text to the rule: a section is found exactly when some
    line of the body starts with the heading marker and its title holds the
    name of the section, whatever the case of letters. *)
Theorem section_found_in_headings :
  forall (body section : str),
    section <> [] ->
    (section_found section (dict_keys (extract_sections body)) = true <->
     exists line,
       In line (split NL body) /\ is_heading line = true /\
       occurs_in (lower section) (lower (heading_title line))).
Proof.
  intros body section Hs.
  assert (Hkeys : forall t, In t (dict_keys (extract_sections body)) <->
            t <> [] /\ exists line, In line (split NL body) /\
                                    is_heading line = true /\ spec_title line = t).
  { intros t.
    assert (H : extract_sections body =
                store_all (filter titled (spec_blocks (split NL body))) [])
      by apply sections_of_lines_blocks.
    rewrite H, store_all_keys, first_occurrences_In, spec_blocks_titles.
    simpl. tauto. }
  unfold section_found. rewrite existsb_exists. split.
  - intros (t & Ht & Hc). apply Hkeys in Ht as (_ & line & Hl & Hh & <-).
    exists line. rewrite heading_title_spec.
    repeat split; try assumption. now apply contains_iff.
  - intros (line & Hl & Hh & Ho). rewrite heading_title_spec in Ho.
    exists (spec_title line). split.
    + apply Hkeys. split; [|exists line; auto].
      intros E. rewrite E in Ho. destruct Ho as (pre & post & Ho).
      simpl in Ho. symmetry in Ho. apply app_eq_nil in Ho as [_ Ho].
      apply app_eq_nil in Ho as [Ho _]. now apply lower_nil in Ho.
    + now apply contains_iff.
Qed.

(** ** The summary of the JSON report *)

Lemma valid_and_invalid results :
  Forall (fun r => valid r = negb (has_error r)) results ->
  valid_count results + length (filter has_error results) = total_count results.
Proof.
  unfold valid_count, total_count.
  induction 1 as [|r results Hr _ IH]; [reflexivity|].
  simpl. rewrite Hr. destruct (has_error r); simpl; lia.
Qed.

(** X28.  In the summary of the JSON report, [total] is the number of
    skills, [invalid] the number of results with an error finding, and
    [valid] the difference. *)
Theorem json_summary_counts :
  forall (safe_load : str -> Result PyVal) (fs : FileSystem)
         (skills : list Path) (results : list ValidationResult),
    validate_all safe_load fs skills = Ok results ->
    let invalid := Z.of_nat (length (filter has_error results)) in
    let total := Z.of_nat (length skills) in
    output_json results =
      PDict [ (py "summary",
               PDict [ (py "total", PInt total);
                       (py "valid", PInt (total - invalid));
                       (py "invalid", PInt invalid) ]);
              (py "results", PList (map result_json results)) ].
Proof.
  intros safe_load fs skills results H invalid total.
  pose proof (valid_and_invalid (@validate_all_valid safe_load fs skills results H)) as Hc.
  pose proof (@validate_all_length safe_load fs skills results H) as Hl.
  unfold output_json. unfold total_count in *.
  replace (Z.of_nat (valid_count results)) with (total - invalid)%Z by (unfold total, invalid; lia).
  replace (Z.of_nat (length results)) with total by (unfold total; lia).
  repeat f_equal. lia.
Qed.

(** ** The metadata of a result *)

Lemma for_each_metadata {A : Type}
    (body : ValidationResult -> A -> Result ValidationResult) (l : list A) :
  (forall s a s', body s a = Ok s' -> metadata s' = metadata s) ->
  forall s s', for_each l body s = Ok s' -> metadata s' = metadata s.
Proof.
  intros Hb. induction l as [|a l IH]; intros s s' H; simpl in H.
  - now injection H as <-.
  - apply bind_ok in H as (s1 & H1 & H). rewrite (IH _ _ H). eauto.
Qed.

Lemma check_required_metadata fm r r' :
  check_required fm r = Ok r' -> metadata r' = metadata r.
Proof.
  apply for_each_metadata. intros s field s' H.
  bind_inv H. injection H as <-. now destruct a.
Qed.

Lemma check_recommended_metadata fm r r' :
  check_recommended fm r = Ok r' -> metadata r' = metadata r.
Proof.
  apply for_each_metadata. intros s field s' H.
  bind_inv H. injection H as <-. now destruct a.
Qed.

Lemma check_name_metadata fm r r' :
  check_name fm r = Ok r' -> metadata r' = metadata r.
Proof.
  unfold check_name. intros H. bind_inv H.
  destruct a; [|now injection H as <-].
  bind_inv H. bind_inv H.
  destruct (re_match false NAME_RE a0); now injection H as <-.
Qed.

Lemma check_version_metadata fm r r' :
  check_version fm r = Ok r' -> metadata r' = metadata r.
Proof.
  unfold check_version. intros H. bind_inv H.
  destruct a; [|now injection H as <-].
  bind_inv H. bind_inv H.
  destruct (re_match false VERSION_RE a0); now injection H as <-.
Qed.

Lemma check_token_estimate_metadata fm r r' :
  check_token_estimate fm r = Ok r' -> metadata r' = metadata r.
Proof.
  unfold check_token_estimate. intros H. bind_inv H.
  destruct a; [|now injection H as <-].
  bind_inv H. destruct a; try (now injection H as <-).
  unfold check_token_mapping, TOKEN_KEYS in H. simpl in H.
  destruct (dict_mem (py "min") d), (dict_mem (py "typical") d),
    (dict_mem (py "max") d); simpl in H; try (now injection H as <-).
  bind_inv H. injection H as <-. now destruct a.
Qed.

Lemma check_keywords_metadata f r r' :
  metadata r = [] ->
  check_keywords (PDict f) r = Ok r' -> metadata r' = keywords_entry f.
Proof.
  intros Hm. unfold check_keywords, keywords_entry, py_contains, py_getitem, dict_mem.
  destruct (dict_get (py "description") f) as [v|]; cbn [bind].
  - destruct v; cbn [as_str bind]; try discriminate.
    destruct (_ <? MIN_KEYWORDS); intros H; injection H as <-; simpl; now rewrite Hm.
  - intros H. injection H as <-. assumption.
Qed.

Lemma validate_frontmatter_metadata f r r' :
  metadata r = [] ->
  validate_frontmatter (PDict f) r = Ok r' -> metadata r' = keywords_entry f.
Proof.
  unfold validate_frontmatter. intros Hm H.
  apply bind_ok in H as (r1 & H1 & H). apply check_required_metadata in H1.
  apply bind_ok in H as (r2 & H2 & H). apply check_recommended_metadata in H2.
  apply bind_ok in H as (r3 & H3 & H). apply check_name_metadata in H3.
  apply bind_ok in H as (r4 & H4 & H).
  apply check_keywords_metadata in H4; [|congruence].
  apply bind_ok in H as (r5 & H5 & H). apply check_version_metadata in H5.
  apply check_token_estimate_metadata in H. congruence.
Qed.

Section Metadata.

Variable safe_load : str -> Result PyVal.

(** X29.  The metadata of the result of a document whose metadata block is
    a mapping: the keywords when the description is there, the mapping
    itself when it is not empty, and the titles of the sections, in this
    order and nothing else. *)
Theorem metadata_of_result :
  forall (fs : FileSystem) (path : Path) (content body : str)
         (f : Dict PyVal) (r : ValidationResult),
    reads fs path content ->
    parse_frontmatter safe_load content = Ok (PDict f, body) ->
    validate_skill safe_load fs path = Ok r ->
    metadata r =
      keywords_entry f ++
      (if nonempty f then [(py "frontmatter", PDict f)] else []) ++
      [(py "sections", PList (map PStr (dict_keys (extract_sections body))))].
Proof.
  intros fs path content body f r Hreads Hparse H.
  rewrite (@validate_skill_reads safe_load fs path content Hreads) in H.
  apply validate_content_steps in H as (fm & body' & r1 & Hp & H1 & ->).
  rewrite Hparse in Hp. injection Hp as <- <-.
  rewrite check_length_metadata. cbn [set_metadata metadata].
  rewrite validate_sections_metadata.
  pose proof (after_structure_metadata fs path) as H0.
  change (py_truthy (PDict f)) with (nonempty f) in H1.
  destruct (nonempty f) eqn:E; cbn [negb] in H1.
  - destruct H1 as (r0 & Hv & ->). cbn [set_metadata metadata].
    rewrite (@validate_frontmatter_metadata f _ r0 H0 Hv).
    unfold keywords_entry.
    destruct (dict_get (py "description") f) as [[| | |desc| |]|]; reflexivity.
  - subst r1. simpl. rewrite H0.
    destruct f; [reflexivity|discriminate E].
Qed.

End Metadata.

(** ** The theorems above on the samples *)

Lemma valid_means_no_error_witness :
  exists r,
    validate_skill sample_decoder sample_fs (py "skills/good") = Ok r /\
    skill_path r = py "skills/good" /\
    valid r = negb (existsb is_error (issues r)).
Proof.
  destruct (validate_skill sample_decoder sample_fs (py "skills/good"))
    as [r|e] eqn:E; [|vm_compute in E; discriminate E].
  exists r. split; [reflexivity|].
  exact (@valid_means_no_error sample_decoder sample_fs (py "skills/good") r E).
Defined.

Lemma json_report_witness :
  exists text,
    sample_dumps (output_json [result_missing]) = Ok text /\
    fst (sample_main sample_fs args_json_missing) = [text].
Proof.
  destruct (sample_dumps (output_json [result_missing])) as [text|e] eqn:E;
    [|vm_compute in E; discriminate E].
  exists text. split; [reflexivity|].
  unfold sample_main.
  rewrite (@json_report sample_decoder sample_rglob sample_parent sample_dumps
             sample_fs args_json_missing eq_refl).
  change (validate_all sample_decoder sample_fs
            (skills_of sample_rglob sample_parent sample_fs args_json_missing))
    with (Ok [result_missing]).
  cbv iota. now rewrite E.
Defined.

Lemma text_report_witness :
  fst (sample_main sample_fs args_text_missing) =
    print_result result_missing false ++ summary_lines [result_missing].
Proof.
  unfold sample_main.
  rewrite (@text_report sample_decoder sample_rglob sample_parent sample_dumps
             sample_fs args_text_missing [result_missing] eq_refl).
  - reflexivity.
  - reflexivity.
  - discriminate.
Defined.

Lemma quiet_report_of_infos_witness :
  print_result result_info false = [status_line result_info].
Proof. apply quiet_report_of_infos. reflexivity. Defined.

Lemma name_rule_witness :
  check_name (PDict [(py "name", PStr (py "my-skill"))]) (new_result (py "skills/good")) =
    Ok (new_result (py "skills/good")).
Proof.
  apply (proj1 (@name_rule [(py "name", PStr (py "my-skill"))] (py "my-skill")
                  (new_result (py "skills/good")) eq_refl)).
  exists (py "my-skill"). repeat split; [discriminate|now left].
Defined.

Lemma version_rule_witness :
  check_version (PDict [(py "version", PStr (py "1.0.0"))]) (new_result (py "skills/good")) =
    Ok (new_result (py "skills/good")).
Proof.
  apply (proj1 (@version_rule [(py "version", PStr (py "1.0.0"))] (py "1.0.0")
                  (new_result (py "skills/good")) eq_refl)).
  exists (py "1"), (py "0"), (py "0").
  repeat split; try discriminate. now left.
Defined.

Lemma version_must_be_a_string_witness :
  exists r',
    validate_frontmatter (PDict [(py "version", PInt 2)])
      (new_result (py "skills/good")) = Ok r' /\
    findings_of RVersion (issues r') = [version_warning (py "2")].
Proof.
  destruct (validate_frontmatter (PDict [(py "version", PInt 2)])
              (new_result (py "skills/good"))) as [r'|e] eqn:E;
    [|vm_compute in E; discriminate E].
  exists r'. split; [reflexivity|].
  assert (Hns : forall s, PInt 2 <> PStr s) by (intros s; discriminate).
  destruct (proj1 (@version_must_be_a_string [(py "version", PInt 2)] (PInt 2)
                     (new_result (py "skills/good")) eq_refl Hns) r' E)
    as (version & Hstr & Hf).
  rewrite Hf. vm_compute in Hstr. injection Hstr as <-. reflexivity.
Defined.

Lemma frontmatter_round_trip_witness :
  parse_frontmatter sample_decoder
    (py "---" ++ sample_block ++ py "---" ++ sample_body) =
    Ok (good_metadata, process_body).
Proof.
  rewrite (@frontmatter_round_trip sample_decoder sample_block sample_body);
    reflexivity.
Defined.

Lemma to_title_case_idempotent_witness :
  to_title_case (to_title_case (py "my-skill")) = to_title_case (py "my-skill").
Proof. apply to_title_case_idempotent. reflexivity. Defined.

Lemma sample_words_ok : Forall name_word sample_words.
Proof. repeat constructor; discriminate. Defined.

Lemma title_round_trip_witness :
  skill_title (skill_fields (py "my-skill") None) = py "My Skill" /\
  skill_name (skill_fields (py "My Skill") None) = py "my-skill".
Proof.
  exact (@title_round_trip sample_words None None sample_words_ok).
Defined.

Lemma keywords_round_trip_witness :
  skill_name (skill_fields (py "my-skill") None) = py "my-skill" /\
  extract_keywords
    (py "Does X. " ++ py "Keywords: " ++ keywords (skill_fields (py "my-skill") None)) =
    sample_words.
Proof.
  apply (@keywords_round_trip (py "Does X. ") sample_words None).
  - discriminate.
  - exact sample_words_ok.
  - intros i Hi. simpl in Hi.
    do 8 (destruct i as [|i]; [reflexivity|]). lia.
Defined.

Lemma generated_name_is_kebab_witness :
  kebab_name (py "my-skill") /\
  forall (f : Dict PyVal) (r : ValidationResult),
    dict_get (py "name") f = Some (PStr (py "my-skill")) ->
    check_name (PDict f) r = Ok r.
Proof.
  apply (@generated_name_is_kebab (py "My Skill") None); [discriminate|reflexivity].
Defined.

Lemma findings_in_pipeline_order_witness :
  exists r structure metadata sections size,
    validate_skill sample_decoder sample_fs (py "skills/good") = Ok r /\
    issues r = structure ++ metadata ++ sections ++ size /\
    forallb (from_rule ROptionalDirectory) structure = true /\
    forallb (from_rules (RNoFrontmatter :: FRONTMATTER_RULES)) metadata = true /\
    forallb (from_rules SECTION_RULES) sections = true /\
    forallb (from_rule RLength) size = true.
Proof.
  destruct (validate_skill sample_decoder sample_fs (py "skills/good"))
    as [r|e] eqn:E; [|vm_compute in E; discriminate E].
  destruct (@findings_in_pipeline_order sample_decoder sample_fs
              (py "skills/good") doc_good r) as (l0 & l1 & l2 & l3 & H).
  - repeat split; vm_compute; reflexivity.
  - exact E.
  - exists r, l0, l1, l2, l3. split; [reflexivity|exact H].
Defined.

Lemma section_found_in_headings_witness :
  section_found (py "Process") (dict_keys (extract_sections process_body)) = true <->
  exists line,
    In line (split NL process_body) /\ is_heading line = true /\
    occurs_in (lower (py "Process")) (lower (heading_title line)).
Proof.
  apply (@section_found_in_headings process_body (py "Process")). discriminate.
Defined.

Lemma json_summary_counts_witness :
  output_json [result_missing] =
    PDict [ (py "summary",
             PDict [ (py "total", PInt 1); (py "valid", PInt 0);
                     (py "invalid", PInt 1) ]);
            (py "results", PList [result_json result_missing]) ].
Proof.
  exact (@json_summary_counts sample_decoder sample_fs [py "skills/missing"]
           [result_missing] eq_refl).
Defined.

Lemma metadata_of_result_witness :
  exists r,
    validate_skill sample_decoder sample_fs (py "skills/good") = Ok r /\
    metadata r =
      [ (py "keywords", PList [PStr (py "a"); PStr (py "b")]);
        (py "frontmatter", good_metadata);
        (py "sections",
         PList [PStr (py "When to Use"); PStr (py "Process"); PStr (py "Guidelines")]) ].
Proof.
  destruct (validate_skill sample_decoder sample_fs (py "skills/good"))
    as [r|e] eqn:E; [|vm_compute in E; discriminate E].
  exists r. split; [reflexivity|].
  rewrite (@metadata_of_result sample_decoder sample_fs (py "skills/good")
             doc_good good_body good_fields r); [reflexivity| | |exact E].
  - repeat split; vm_compute; reflexivity.
  - vm_compute. reflexivity.
Defined.
